(** * Retail dashboard automator: the cleaning-and-conversion pipeline of app.py

    The development embeds the data path of [app.py]: the two helper
    functions [clean_currency] and [get_ibr_rate], the cleaning pipeline
    that runs on the uploaded table (column trimming, defaults, currency
    parsing, date coercion, row dropping, rupee conversion, month key) and
    the Streamlit calls that surround it ([st.success], [st.write],
    [st.download_button], [st.error]).

    Conventions of the embedding.
    - A Python [str] is a list of Unicode code points.
    - A Python [float] is a binary64 number: Rocq's primitive [float].
    - A cell of a pandas column keeps its Python value ([None], [str],
      [int], [float], [Timestamp], [NaT]); a column is the list of its
      cells and a frame is its row labels and its named columns.  The
      dtype pandas picks to store a column is not tracked (an [int] 0
      filled into a float column is numerically the 0.0 pandas stores);
      in the two places where it decides what the program does it is read
      off the cells: the sum of a column of integers ([int_sum]) and the
      empty column [Series.apply] hands back ([mul_by_applied]).
    - The library routines whose text is not part of the program, namely
      the [float] constructor on strings, [pd.to_datetime] on one cell and
      the summation order of [Series.sum] on floats, are parameters of the
      pipeline; reference instances ([py_float], [iso_datetime],
      [sum_left]) are given for evaluating it on concrete tables. *)

From Stdlib Require Import String Ascii ZArith NArith List Bool Lia Floats.
Import ListNotations.

Set Warnings "-inexact-float".

Local Open Scope Z_scope.
Unset Lia Cache.
Unset Nia Cache.

(** ** Python strings *)

Definition str := list N.

(** An ASCII literal as a Python string. *)
Definition pystr (s : string) : str :=
  List.map N_of_ascii (list_ascii_of_string s).

Fixpoint str_eqb (a b : str) : bool :=
  match a, b with
  | [], [] => true
  | x :: a', y :: b' => (x =? y)%N && str_eqb a' b'
  | _, _ => false
  end.

(** The code points for which [str.isspace] holds. *)
Definition isspace (c : N) : bool :=
  (((9 <=? c) && (c <=? 13)) || ((28 <=? c) && (c <=? 32))
   || (c =? 133) || (c =? 160) || (c =? 5760)
   || ((8192 <=? c) && (c <=? 8202))
   || (c =? 8232) || (c =? 8233) || (c =? 8239) || (c =? 8287)
   || (c =? 12288))%N.

Fixpoint lstrip (s : str) : str :=
  match s with
  | c :: s' => if isspace c then lstrip s' else s
  | [] => []
  end.

Definition rstrip (s : str) : str := rev (lstrip (rev s)).

(** [s.strip()] *)
Definition strip (s : str) : str := rstrip (lstrip s).

(** [s.replace(old, new)] where [old] is a one-character string, which is
    how every call of the program uses it. *)
Definition replace (old : N) (new : str) (s : str) : str :=
  flat_map (fun c => if N.eqb c old then new else [c]) s.

Definition dollar : N := 36.   (* '$' *)
Definition rupee : N := 8377.  (* U+20B9 *)
Definition comma : N := 44.    (* ',' *)

(** [value.replace('$', '').replace(rupee, '').replace(',', '').strip()],
    the string [clean_currency] hands to [float]. *)
Definition residual (s : str) : str :=
  strip (replace comma [] (replace rupee [] (replace dollar [] s))).

(** ** Decimal literals to binary64

    [dec_to_float neg m e] is the binary64 number nearest to
    [(-1)^neg * m * 10^e] (ties to even, infinity past the largest
    finite number), the rounding of C's [strtod] that [float] uses. *)

Definition dec_to_sf (neg : bool) (m : Z) (e : Z) : spec_float :=
  match m with
  | Zpos p =>
      if 0 <=? e
      then binary_normalize prec emax (cond_Zopp neg (Z.pos p * 10 ^ e)) 0 neg
      else
        let '(q, e', l) :=
          SFdiv_core_binary prec emax (Z.pos p) 0 (10 ^ (- e)) 0 in
        binary_round_aux prec emax neg q e' l
  | _ => S754_zero neg
  end.

Definition dec_to_float (neg : bool) (m e : Z) : float :=
  SF2Prim (dec_to_sf neg m e).

(** [float(z)] for a Python integer. *)
Definition float_of_int (z : Z) : float :=
  SF2Prim (binary_normalize prec emax z 0 false).

(** ** The reference [float(str)]

    [float] on a string, as CPython reads it.  Every code point from 127
    on is first replaced: whitespace by a space, a Unicode decimal digit
    by its ASCII digit, anything else by a question mark (which no
    literal holds, so that what CPython does after it, cutting the string
    there, makes no difference).  ASCII whitespace is then trimmed from
    both ends, and what is left must be a sign followed by [inf],
    [infinity] or [nan] in any case, or by a decimal number with an
    optional exponent; an underscore may stand between two digits. *)

(** The code points of the digit zero in each run of ten Unicode decimal
    digits past ASCII (category Nd of Unicode 14.0, the database of
    CPython 3.11). *)
Definition decimal_zeros : list N :=
  [1632; 1776; 1984; 2406; 2534; 2662; 2790; 2918; 3046; 3174; 3302; 3430;
   3558; 3664; 3792; 3872; 4160; 4240; 6112; 6160; 6470; 6608; 6784; 6800;
   6992; 7088; 7232; 7248; 42528; 43216; 43264; 43472; 43504; 43600; 44016;
   65296; 66720; 68912; 69734; 69872; 69942; 70096; 70384; 70736; 70864;
   71248; 71360; 71472; 71904; 72016; 72784; 73040; 73120; 92768; 92864;
   93008; 120782; 120792; 120802; 120812; 120822; 123200; 123632; 125264;
   130032]%N.

(** The value of a decimal digit past ASCII. *)
Definition decimal_value (c : N) : option N :=
  match find (fun z => (z <=? c) && (c <? z + 10))%N decimal_zeros with
  | Some z => Some (c - z)%N
  | None => None
  end.

Definition to_ascii (c : N) : N :=
  if (c <? 127)%N then c
  else if isspace c then 32%N
  else match decimal_value c with
       | Some d => (48 + d)%N
       | None => 63%N
       end.

(** The whitespace of the C locale, which [float] trims. *)
Definition ascii_space (c : N) : bool :=
  (((9 <=? c) && (c <=? 13)) || (c =? 32))%N.

Fixpoint drop_spaces (s : str) : str :=
  match s with
  | c :: s' => if ascii_space c then drop_spaces s' else s
  | [] => []
  end.

Definition trim_spaces (s : str) : str :=
  rev (drop_spaces (rev (drop_spaces s))).

Definition is_digit (c : N) : bool := ((48 <=? c) && (c <=? 57))%N.

Definition lower (c : N) : N :=
  if ((65 <=? c) && (c <=? 90))%N then (c + 32)%N else c.

(** Every underscore stands between two digits. *)
Fixpoint underscores_ok (prev : option N) (s : str) : bool :=
  match s with
  | [] => match prev with Some 95%N => false | _ => true end
  | c :: s' =>
      (if (c =? 95)%N
       then match prev with Some p => is_digit p | None => false end
       else match prev with Some 95%N => is_digit c | _ => true end)
      && underscores_ok (Some c) s'
  end.

Definition drop_underscores (s : str) : str :=
  filter (fun c => negb (c =? 95)%N) s.

(** Reads a run of digits: the number read so far, how many digits were
    read, and the rest of the input. *)
Fixpoint digits (acc : Z) (n : Z) (s : str) : Z * Z * str :=
  match s with
  | c :: s' =>
      if is_digit c then digits (10 * acc + (Z.of_N c - 48)) (n + 1) s'
      else (acc, n, s)
  | [] => (acc, n, [])
  end.

Definition sign_of (s : str) : bool * str :=
  match s with
  | 45%N :: s' => (true, s')
  | 43%N :: s' => (false, s')
  | _ => (false, s)
  end.

Definition exponent_of (s : str) : option Z :=
  match s with
  | [] => Some 0
  | c :: s' =>
      if (lower c =? 101)%N then
        let '(neg, s'') := sign_of s' in
        match digits 0 0 s'' with
        | (x, n, []) =>
            if 0 <? n then Some (if neg then - x else x) else None
        | _ => None
        end
      else None
  end.

Definition number_of (neg : bool) (s : str) : option float :=
  let '(ip, ni, s1) := digits 0 0 s in
  let '(m, nf, s2) :=
    match s1 with
    | 46%N :: s1' => digits ip 0 s1'
    | _ => (ip, 0, s1)
    end in
  if 0 <? ni + nf then
    match exponent_of s2 with
    | Some x => Some (dec_to_float neg m (x - nf))
    | None => None
    end
  else None.

Definition py_float (s : str) : option float :=
  let '(neg, body) := sign_of (trim_spaces (List.map to_ascii s)) in
  let low := List.map lower body in
  if str_eqb low (pystr "inf") || str_eqb low (pystr "infinity")
  then Some (if neg then neg_infinity else infinity)
  else if str_eqb low (pystr "nan") then Some nan
  else if underscores_ok None body
  then number_of neg (drop_underscores body)
  else None.

(** ** Cells, columns and frames *)

Record Timestamp := { year : Z; month : Z; day : Z }.

Inductive value :=
| VNone
| VStr (s : str)
| VInt (z : Z)
| VFloat (f : float)
| VTimestamp (t : Timestamp)
| VNaT.

Definition Series := list value.

Record DataFrame := { index : list Z; columns : list (str * Series) }.

(** [len(df)] *)
Definition len (df : DataFrame) : nat := length (index df).

(** [pd.isna] on one cell. *)
Definition isna (v : value) : bool :=
  match v with
  | VNone | VNaT => true
  | VFloat f => is_nan f
  | _ => false
  end.

Definition notna (v : value) : bool := negb (isna v).

(** ** Exceptions *)

Inductive exn :=
| KeyError (missing : list str)
| ValueError (s : str)  (* could not convert string to float: s *)
| FormatError           (* ValueError: Cannot specify ',' with 's'. *)
| TypeError
| AttributeError.

Inductive result (A : Type) :=
| Ok (a : A)
| Raise (e : exn).
Arguments Ok {A} a.
Arguments Raise {A} e.

Definition bind {A B} (r : result A) (k : A -> result B) : result B :=
  match r with
  | Ok a => k a
  | Raise e => Raise e
  end.

Notation "x <- r ;; k" := (bind r (fun x => k))
  (at level 61, r at next level, right associativity).

(** [Series.apply(f)]: the cells in order, the first exception ends it. *)
Fixpoint apply (f : value -> result value) (s : Series) : result Series :=
  match s with
  | [] => Ok []
  | v :: s' => w <- f v ;; t <- apply f s' ;; Ok (w :: t)
  end.

(** ** Frame operations *)

Fixpoint get (c : str) (cols : list (str * Series)) : result Series :=
  match cols with
  | [] => Raise (KeyError [c])
  | (n, s) :: cols' => if str_eqb n c then Ok s else get c cols'
  end.

(** [df[c]] *)
Definition getitem (df : DataFrame) (c : str) : result Series :=
  get c (columns df).

Fixpoint set (c : str) (s : Series) (cols : list (str * Series))
  : list (str * Series) :=
  match cols with
  | [] => [(c, s)]
  | (n, s0) :: cols' =>
      if str_eqb n c then (n, s) :: cols' else (n, s0) :: set c s cols'
  end.

(** [df[c] = s] *)
Definition setitem (df : DataFrame) (c : str) (s : Series) : DataFrame :=
  {| index := index df; columns := set c s (columns df) |}.

(** [df.columns = df.columns.str.strip()] *)
Definition strip_columns (df : DataFrame) : DataFrame :=
  {| index := index df;
     columns := List.map (fun '(n, s) => (strip n, s)) (columns df) |}.

(** [s.fillna(v)] *)
Definition fillna (v : value) (s : Series) : Series :=
  List.map (fun x => if isna x then v else x) s.

(** The rows a boolean mask keeps. *)
Fixpoint select {A : Type} (mask : list bool) (l : list A) : list A :=
  match mask, l with
  | b :: mask', x :: l' =>
      if b then x :: select mask' l' else select mask' l'
  | _, _ => []
  end.

(** [df.dropna(subset=[c])] *)
Definition dropna (c : str) (df : DataFrame) : result DataFrame :=
  s <- getitem df c ;;
  let mask := List.map notna s in
  Ok {| index := select mask (index df);
        columns := List.map (fun '(n, col) => (n, select mask col))
                     (columns df) |}.

(** [df.tail()]: the last five rows. *)
Definition last5 {A : Type} (l : list A) : list A :=
  skipn (length l - 5) l.

Definition tail (df : DataFrame) : DataFrame :=
  {| index := last5 (index df);
     columns := List.map (fun '(n, col) => (n, last5 col)) (columns df) |}.

Definition column_or_empty (df : DataFrame) (n : str) : Series :=
  match getitem df n with Ok s => s | Raise _ => [] end.

Definition has_column (df : DataFrame) (n : str) : bool :=
  match getitem df n with Ok _ => true | Raise _ => false end.

(** [df[names]]: the [KeyError] lists every name that is absent. *)
Definition gets (names : list str) (df : DataFrame)
  : result (list (str * Series)) :=
  match filter (fun n => negb (has_column df n)) names with
  | [] => Ok (List.map (fun n => (n, column_or_empty df n)) names)
  | missing => Raise (KeyError missing)
  end.

Definition record_at (cols : list (str * Series)) (i : nat)
  : list (str * value) :=
  List.map (fun '(n, s) => (n, nth i s VNone)) cols.

(** [df[names].to_dict(orient='records')] *)
Definition to_records (names : list str) (df : DataFrame)
  : result (list (list (str * value))) :=
  cols <- gets names df ;;
  Ok (List.map (record_at cols) (seq 0 (len df))).

(** ** Helper functions of the program *)

(** The statically known rates of [get_ibr_rate]. *)
Definition rates : list (Z * float) :=
  [(2021, 74.1%float); (2022, 78.6%float); (2023, 82.5%float);
   (2024, 83.4%float); (2025, 84.5%float)].

(** [d.get(k, default)] *)
Fixpoint dict_get (d : list (Z * float)) (k : Z) (default : float) : float :=
  match d with
  | [] => default
  | (k', v) :: d' => if k' =? k then v else dict_get d' k default
  end.

Definition rate_for_year (y : Z) : float := dict_get rates y 83.0%float.

(** [get_ibr_rate(date)]: [date.year] is the year of a [Timestamp], is NaN
    on [NaT] (no key of the table) and is absent on any other cell. *)
Definition get_ibr_rate (date : value) : result value :=
  match date with
  | VTimestamp t => Ok (VFloat (rate_for_year (year t)))
  | VNaT => Ok (VFloat 83.0%float)
  | _ => Raise AttributeError
  end.

(** Decimal digits of a natural number, zero-padded to [w] places. *)
Fixpoint pad_digits (w : nat) (z : Z) (acc : str) : str :=
  match w with
  | O => acc
  | S w' => pad_digits w' (z / 10) (Z.to_N (48 + z mod 10) :: acc)
  end.

(** [str(ts.to_period('M'))], the [YYYY-MM] key of a date. *)
Definition year_month (t : Timestamp) : str :=
  pad_digits 4 (year t) [] ++ pystr "-" ++ pad_digits 2 (month t) [].

Definition year_month_cell (v : value) : result value :=
  match v with
  | VTimestamp t => Ok (VStr (year_month t))
  | VNaT => Ok (VStr (pystr "NaT"))
  | _ => Raise AttributeError
  end.

(** The number a cell stands for in column arithmetic. *)
Definition to_float (v : value) : result float :=
  match v with
  | VFloat f => Ok f
  | VInt z => Ok (float_of_int z)
  | VNone => Ok nan
  | _ => Raise TypeError
  end.

Definition mul_cell (a b : value) : result value :=
  x <- to_float a ;; y <- to_float b ;; Ok (VFloat (x * y)).

(** [a * b] on two columns, cell by cell. *)
Fixpoint series_mul (a b : Series) : result Series :=
  match a, b with
  | x :: a', y :: b' =>
      z <- mul_cell x y ;; t <- series_mul a' b' ;; Ok (z :: t)
  | _, _ => Ok []
  end.

(** [a * b] where [b] is what [Series.apply] made of a column of dates.
    On a column with no rows [apply] calls nothing and hands back an
    empty column of the type it was given, dates; a product with a column
    of dates raises [TypeError].  So the rates multiply only when there is
    a row. *)
Definition mul_by_applied (a b : Series) : result Series :=
  match b with
  | [] => Raise TypeError
  | _ :: _ => series_mul a b
  end.

(** [Series.sum()].  A column of integers adds up in the type pandas
    stores such cells with: [int64] when all fit it and [uint64] when all
    are non-negative and fit that, both wrapping around, and Python
    integers, which add exactly, otherwise.  A column of strings adds up
    to their concatenation.  Any other column is added as floats, missing
    values skipped; a cell that is no number raises [TypeError]. *)
Definition wrap64 (z : Z) : Z := (z + 2 ^ 63) mod 2 ^ 64 - 2 ^ 63.

Definition int_sum (zs : list Z) : Z :=
  let total := fold_left Z.add zs 0 in
  if forallb (fun z => (- 2 ^ 63 <=? z) && (z <? 2 ^ 63)) zs
  then wrap64 total
  else if forallb (fun z => (0 <=? z) && (z <? 2 ^ 64)) zs
  then total mod 2 ^ 64
  else total.

Fixpoint strs (s : Series) : option (list str) :=
  match s with
  | [] => Some []
  | VStr x :: s' =>
      match strs s' with Some xs => Some (x :: xs) | None => None end
  | _ => None
  end.

Fixpoint ints (s : Series) : option (list Z) :=
  match s with
  | [] => Some []
  | VInt z :: s' =>
      match ints s' with Some zs => Some (z :: zs) | None => None end
  | _ => None
  end.

Fixpoint floats (s : Series) : result (list float) :=
  match s with
  | [] => Ok []
  | v :: s' => f <- to_float v ;; fs <- floats s' ;; Ok (f :: fs)
  end.

(** What [json.dumps] accepts in a record. *)
Definition json_cell (v : value) : bool :=
  match v with
  | VNone | VStr _ | VInt _ | VFloat _ => true
  | VTimestamp _ | VNaT => false
  end.

Definition json_dumps (records : list (list (str * value)))
  : result (list (list (str * value))) :=
  if forallb (fun r => forallb (fun kv => json_cell (snd kv)) r) records
  then Ok records else Raise TypeError.

(** Column names the program refers to. *)
Definition Category := pystr "Category".
Definition Sales_Per := pystr "Sales Per".
Definition Profit := pystr "Profit".
Definition Order_Date := pystr "Order Date".
Definition IBR_Rate := pystr "IBR_Rate".
Definition Sales_USD := pystr "Sales_USD".
Definition Profit_USD := pystr "Profit_USD".
Definition Sales_INR := pystr "Sales_INR".
Definition Profit_INR := pystr "Profit_INR".
Definition YearMonth := pystr "YearMonth".
Definition Quantity := pystr "Quantity".
Definition Segment := pystr "Segment".
Definition State := pystr "State".
Definition Order_ID := pystr "Order ID".
Definition Customer_ID := pystr "Customer ID".

Definition export_columns : list str :=
  [YearMonth; Category; Segment; State; Sales_INR; Sales_USD;
   Profit_INR; Profit_USD; Quantity; Order_ID; Customer_ID; IBR_Rate].

(** What the page shows, in the order the calls are made. *)
Inductive widget :=
| st_success (processed : nat)
| st_write (preview : DataFrame)
| st_download_button (items_sold : value)
    (data : list (list (str * value)))
| st_error (e : exn).

(** ** The pipeline *)

Section Pipeline.

(** [float(s)] on a string: [None] when it raises [ValueError]. *)
Variable float_of_str : str -> option float.

(** The date [pd.to_datetime] reads in a cell that is neither missing
    nor already a [Timestamp]: [None] when it cannot. *)
Variable parse_datetime : value -> option Timestamp.

(** The sum of the floats of a column, in the order the library adds
    them. *)
Variable float_sum : list float -> float.

Definition clean_currency (v : value) : result value :=
  match v with
  | VStr s =>
      match float_of_str (residual s) with
      | Some f => Ok (VFloat f)
      | None => Raise (ValueError (residual s))
      end
  | _ => Ok v
  end.

(** A string cell whose residual [float] rejects. *)
Definition invalid_amount (v : value) : Prop :=
  match v with
  | VStr s => float_of_str (residual s) = None
  | _ => False
  end.

(** A cell the conversion takes as an amount: a number, a missing value
    or a string [float] reads. *)
Definition amount_ok (v : value) : Prop :=
  match v with
  | VStr s => float_of_str (residual s) <> None
  | VNone | VInt _ | VFloat _ => True
  | VTimestamp _ | VNaT => False
  end.

Definition to_datetime_cell (v : value) : value :=
  match v with
  | VTimestamp t => VTimestamp t
  | _ =>
      if isna v then VNaT
      else match parse_datetime v with
           | Some t => VTimestamp t
           | None => VNaT
           end
  end.

(** [pd.to_datetime(s, errors='coerce')] *)
Definition to_datetime (s : Series) : Series :=
  List.map to_datetime_cell s.


Definition series_sum (s : Series) : result value :=
  match ints s with
  | Some zs => Ok (VInt (int_sum zs))
  | None =>
      match strs s with
      | Some xs => Ok (VStr (concat xs))
      | None =>
          fs <- floats s ;;
          Ok (VFloat (float_sum (filter (fun f => negb (is_nan f)) fs)))
      end
  end.

(** [f"{total:,}"]: the thousands separator is for numbers only. *)
Definition format_thousands (total : value) : result value :=
  match total with
  | VStr _ => Raise FormatError
  | _ => Ok total
  end.

(** Steps A to D of the cleaning pipeline, up to the row drop. *)
Definition normalize (df : DataFrame) : result DataFrame :=
  let df := strip_columns df in
  c <- getitem df Category ;;
  let df := setitem df Category (fillna (VStr (pystr "Uncategorized")) c) in
  s <- getitem df Sales_Per ;;
  let df := setitem df Sales_Per (fillna (VInt 0) s) in
  s <- getitem df Sales_Per ;;
  s <- apply clean_currency s ;;
  let df := setitem df Sales_Per s in
  p <- getitem df Profit ;;
  p <- apply clean_currency p ;;
  let df := setitem df Profit p in
  d <- getitem df Order_Date ;;
  let df := setitem df Order_Date (to_datetime d) in
  dropna Order_Date df.

(** The rate lookup, the dual-currency columns and the month key. *)
Definition enrich (df : DataFrame) : result DataFrame :=
  d <- getitem df Order_Date ;;
  r <- apply get_ibr_rate d ;;
  let df := setitem df IBR_Rate r in
  s <- getitem df Sales_Per ;;
  let df := setitem df Sales_USD s in
  p <- getitem df Profit ;;
  let df := setitem df Profit_USD p in
  su <- getitem df Sales_USD ;;
  r <- getitem df IBR_Rate ;;
  si <- mul_by_applied su r ;;
  let df := setitem df Sales_INR si in
  pu <- getitem df Profit_USD ;;
  r <- getitem df IBR_Rate ;;
  pi <- mul_by_applied pu r ;;
  let df := setitem df Profit_INR pi in
  d <- getitem df Order_Date ;;
  ym <- apply year_month_cell d ;;
  Ok (setitem df YearMonth ym).

Definition cleaning_pipeline (df : DataFrame) : result DataFrame :=
  df <- normalize df ;; enrich df.

(** The records and the item count the dashboard document embeds. *)
Definition dashboard (df : DataFrame) : result widget :=
  records <- to_records export_columns df ;;
  q <- getitem df Quantity ;;
  total <- series_sum q ;;
  items <- format_thousands total ;;
  data <- json_dumps records ;;
  Ok (st_download_button items data).

(** The body of [if uploaded_file:] once the file is read: the [try]
    block with its [except Exception] handler. *)
Definition run (df : DataFrame) : list widget :=
  match cleaning_pipeline df with
  | Raise e => [st_error e]
  | Ok df =>
      st_success (len df) :: st_write (tail df) ::
      match dashboard df with
      | Ok w => [w]
      | Raise e => [st_error e]
      end
  end.

End Pipeline.

(** ** Reference instances of the library routines *)

Definition leap (y : Z) : bool :=
  ((y mod 4 =? 0) && negb (y mod 100 =? 0)) || (y mod 400 =? 0).

Definition days_in_month (y m : Z) : Z :=
  if m =? 2 then (if leap y then 29 else 28)
  else if (m =? 4) || (m =? 6) || (m =? 9) || (m =? 11) then 30 else 31.

Definition two_digits (a b : N) : option Z :=
  if is_digit a && is_digit b
  then Some (10 * (Z.of_N a - 48) + (Z.of_N b - 48)) else None.

(** The calendar form [YYYY-MM-DD] within the years a [Timestamp] holds. *)
Definition iso_datetime (v : value) : option Timestamp :=
  match v with
  | VStr [y1; y2; y3; y4; 45%N; m1; m2; 45%N; d1; d2] =>
      match two_digits y1 y2, two_digits y3 y4,
            two_digits m1 m2, two_digits d1 d2 with
      | Some yh, Some yl, Some m, Some d =>
          let y := 100 * yh + yl in
          if (1678 <=? y) && (y <=? 2261) && (1 <=? m) && (m <=? 12)
             && (1 <=? d) && (d <=? days_in_month y m)
          then Some {| year := y; month := m; day := d |}
          else None
      | _, _, _, _ => None
      end
  | _ => None
  end.

(** Left-to-right float addition. *)
Definition sum_left (fs : list float) : float :=
  fold_left PrimFloat.add fs 0%float.


(** A frame whose columns all have one cell per row label. *)
Definition rectangular (df : DataFrame) : Prop :=
  Forall (fun ns => length (snd ns) = len df) (columns df).

(** The frame the normalization steps build from the trimmed frame [df0]
    once its four columns are processed: category [c], amounts [s] and
    [p], dates [d]. *)
Definition normalized (df0 : DataFrame) (c s p d : Series) : DataFrame :=
  let mask := List.map notna d in
  {| index := select mask (index df0);
     columns :=
       List.map (fun '(n, col) => (n, select mask col))
         (set Order_Date d
            (set Profit p (set Sales_Per s (set Category c (columns df0))))) |}.

(** The rate [get_ibr_rate] returns where it returns one. *)
Definition rate_cell (v : value) : value :=
  VFloat match v with
         | VTimestamp t => rate_for_year (year t)
         | _ => 83.0%float
         end.

(** The float of a cell in column arithmetic, NaN where there is none. *)
Definition number (v : value) : float :=
  match to_float v with Ok f => f | Raise _ => nan end.

(** The product [series_mul] puts in a row where it succeeds. *)
Definition product (ab : value * value) : value :=
  VFloat (number (fst ab) * number (snd ab)).

(** The frame the conversion steps build: rates [r], the dollar copies of
    the amounts [s] and [p], their rupee products [si] and [pi], month
    keys [ym]. *)
Definition enriched (df : DataFrame) (r s p si pi ym : Series) : DataFrame :=
  setitem
    (setitem
       (setitem
          (setitem (setitem (setitem df IBR_Rate r) Sales_USD s) Profit_USD p)
          Sales_INR si)
       Profit_INR pi)
    YearMonth ym.

(** ** Binary64 arithmetic of the conversion

    The products and quotients of the conversion are IEEE 754 binary64
    operations; their results are described on [spec_float], the
    mantissa-and-exponent view of a float. *)

(** The state of the rounding shifter after the digits of [X] below the
    weight [W] are shifted out: quotient, round bit and sticky bit. *)
Definition shr_inv (X W : Z) (mrs : shr_record) : Prop :=
  shr_m mrs = X / W /\
  shr_r mrs = (W <=? 2 * (X mod W)) /\
  shr_s mrs = negb (X mod W =? 0) && negb (2 * (X mod W) =? W).

(** The float [binary_round_aux] builds from a mantissa and an exponent. *)
Definition sf_make (sx : bool) (m e : Z) : spec_float :=
  match m with
  | Z0 => S754_zero sx
  | Zpos p => if e <=? emax - prec then S754_finite sx p e else S754_infinity sx
  | Zneg _ => S754_nan
  end.

(** The binary64 mantissas of the rates of [get_ibr_rate], 74.1, 78.6,
    82.5, 83.4, 84.5 and the default 83.0; each has exponent -46. *)
Definition rate_mantissas : list positive :=
  [5214323943564902; 5530983292364390; 5805421394657280;
   5868753264417178; 5946158883012608; 5840605766746112]%positive.

Definition rates_Z : list Z := List.map Z.pos rate_mantissas.

(** A finite float as a signed mantissa and an exponent. *)
Definition dyadic (f : spec_float) : option (Z * Z) :=
  match f with
  | S754_zero _ => Some (0, 0)
  | S754_finite s m e => Some (cond_Zopp s (Z.pos m), e)
  | _ => None
  end.

(** Equality within 1e-9 relative tolerance,
    [|a - b| <= 1e-9 * max(|a|, |b|)], decided exactly on the mantissas
    brought to a common exponent; infinities and NaN are close to nothing
    but an equal infinity. *)
Definition sf_close (a b : spec_float) : bool :=
  match dyadic a, dyadic b with
  | Some (ma, ea), Some (mb, eb) =>
      let c := Z.min ea eb in
      let A := ma * 2 ^ (ea - c) in
      let B := mb * 2 ^ (eb - c) in
      10 ^ 9 * Z.abs (A - B) <=? Z.max (Z.abs A) (Z.abs B)
  | None, None => SFeqb a b
  | _, _ => false
  end.

Definition sf_finite (f : spec_float) : bool :=
  match f with
  | S754_zero _ | S754_finite _ _ _ => true
  | _ => false
  end.

(** Two dyadic numbers [a * 2^d] and [b] within 1e-9 of each other. *)
Definition close_at (a b d : Z) : Prop :=
  (0 <= d ->
   10 ^ 9 * Z.abs (a * 2 ^ d - b) <= Z.max (a * 2 ^ d) b) /\
  (d < 0 ->
   10 ^ 9 * Z.abs (a - b * 2 ^ (- d)) <= Z.max a (b * 2 ^ (- d))).

Definition rel_close (a b : float) : bool := sf_close (Prim2SF a) (Prim2SF b).

(** The round trip of one enriched record: [Sales_INR / IBR_Rate] against
    [Sales_USD]. *)
Definition round_trip (usd inr rate : value) : bool :=
  rel_close (number inr / number rate) (number usd).

(** ** Concrete tables *)

(** The one-row table of the specification's main scenario. *)
Definition scenario : DataFrame :=
  {| index := [0];
     columns :=
       [(Order_Date, [VStr (pystr "2023-06-15")]);
        (Category, [VNone]);
        (Sales_Per, [VStr (pystr "$100")]);
        (Profit, [VStr (pystr "$20")]);
        (Quantity, [VInt 2]);
        (Order_ID, [VStr (pystr "A1")])] |}.

(** The amount string without its currency symbols and separators. *)
Definition without_symbols (s : str) : str :=
  filter (fun c => negb ((c =? dollar) || (c =? rupee) || (c =? comma))%N) s.

(** Three orders with every column the dashboard exports; the header of
    the date column is padded, the second order has no category and no
    profit, and the date of the last order does not parse. *)
Definition orders : DataFrame :=
  {| index := [0; 1; 2];
     columns :=
       [(pystr " Order Date ",
          [VStr (pystr "2023-06-15"); VStr (pystr "2024-02-29");
           VStr (pystr "not-a-date")]);
        (Category, [VStr (pystr "Furniture"); VNone; VStr (pystr "Toys")]);
        (Sales_Per,
          [VStr (pystr "$1,200.50"); VStr (pystr "80"); VStr (pystr "300")]);
        (Profit, [VStr (pystr "$20"); VFloat nan; VStr (pystr "5")]);
        (Segment,
          [VStr (pystr "Consumer"); VStr (pystr "Corporate");
           VStr (pystr "Consumer")]);
        (State,
          [VStr (pystr "Kerala"); VStr (pystr "Goa"); VStr (pystr "Goa")]);
        (Quantity, [VInt 2; VInt 3; VInt 7]);
        (Order_ID, [VStr (pystr "A1"); VStr (pystr "A2"); VStr (pystr "A3")]);
        (Customer_ID,
          [VStr (pystr "C1"); VStr (pystr "C1"); VStr (pystr "C2")])] |}.

(** The first two of them. *)
Definition orders_dated : DataFrame :=
  {| index := [0; 1];
     columns :=
       List.map (fun '(n, col) => (n, firstn 2 col)) (columns orders) |}.

(** One order whose profit is the word "free" and whose date does not
    parse. *)
Definition free_profit : DataFrame :=
  {| index := [0];
     columns :=
       [(Order_Date, [VStr (pystr "not-a-date")]);
        (Category, [VStr (pystr "Toys")]);
        (Sales_Per, [VStr (pystr "$100")]);
        (Profit, [VStr (pystr "free")])] |}.

(** One order whose sales amount is the string "$nan". *)
Definition nan_sales : DataFrame :=
  {| index := [0];
     columns :=
       [(Order_Date, [VStr (pystr "2024-01-05")]);
        (Category, [VStr (pystr "Toys")]);
        (Sales_Per, [VStr (pystr "$nan")]);
        (Profit, [VStr (pystr "$1")])] |}.

(** What the normalization and the whole cleaning pipeline make of them,
    with the reference readers. *)
Definition frame_of (r : result DataFrame) : DataFrame :=
  match r with Ok df => df | Raise _ => {| index := []; columns := [] |} end.

Definition orders_normalized : DataFrame :=
  Eval vm_compute in frame_of (normalize py_float iso_datetime orders).

Definition orders_enriched : DataFrame :=
  Eval vm_compute in frame_of (cleaning_pipeline py_float iso_datetime orders).

Definition nan_sales_normalized : DataFrame :=
  Eval vm_compute in frame_of (normalize py_float iso_datetime nan_sales).

(** The records the dashboard of [orders] embeds. *)
Definition orders_records : list (list (str * value)) :=
  Eval vm_compute in
    match to_records export_columns orders_enriched with
    | Ok r => r
    | Raise _ => []
    end.

(** One order of 1e308 dollars. *)
Definition huge_sales : DataFrame :=
  {| index := [0];
     columns :=
       [(Order_Date, [VStr (pystr "2023-06-15")]);
        (Category, [VStr (pystr "Toys")]);
        (Sales_Per, [VStr (pystr "1e308")]);
        (Profit, [VStr (pystr "$1")])] |}.

Definition huge_sales_normalized : DataFrame :=
  Eval vm_compute in frame_of (normalize py_float iso_datetime huge_sales).
(** ** Notions the further properties are stated with *)

(** What [clean_currency] discards around an amount: whitespace, which
    [strip] trims, and the three characters it deletes. *)
Definition padding (c : N) : bool :=
  isspace c || (c =? dollar)%N || (c =? rupee)%N || (c =? comma)%N.

(** The columns the cleaning pipeline reads, in the order it reads them. *)
Definition required_columns : list str :=
  [Category; Sales_Per; Profit; Order_Date].

(** The cells [get_ibr_rate] and the month key give for a date. *)
Definition rate_of (t : Timestamp) : value := VFloat (rate_for_year (year t)).

Definition month_key (t : Timestamp) : value := VStr (year_month t).

(** The columns the conversion steps write. *)
Definition derived_columns : list str :=
  [IBR_Rate; Sales_USD; Profit_USD; Sales_INR; Profit_INR; YearMonth].

(** The exported columns the pipeline does not make itself. *)
Definition uploaded_export_columns : list str :=
  [Segment; State; Quantity; Order_ID; Customer_ID].

(** A cell that is a number. *)
Definition is_number (v : value) : bool :=
  match v with VInt _ | VFloat _ => true | _ => false end.

(** A cell [Series.sum] adds or skips: a number or a missing value. *)
Definition summable (v : value) : bool :=
  match v with VInt _ | VFloat _ | VNone => true | _ => false end.

(** [a < b] on strings: code point by code point, a proper prefix first.
    It is the order of Python's [str] and, on ASCII strings such as the
    month keys, the order in which the script's [sort()] puts the keys. *)
Fixpoint str_ltb (a b : str) : bool :=
  match a, b with
  | _, [] => false
  | [], _ :: _ => true
  | x :: a', y :: b' => (x <? y)%N || ((x =? y)%N && str_ltb a' b')
  end.

(** ** More concrete tables *)

(** One order without a [Profit] column. *)
Definition sales_only : DataFrame :=
  {| index := [0];
     columns :=
       [(Order_Date, [VStr (pystr "2023-06-15")]);
        (Category, [VStr (pystr "Toys")]);
        (Sales_Per, [VStr (pystr "$100")])] |}.

(** Two orders labelled 7 and 8, the first without a sales amount. *)
Definition unsold : DataFrame :=
  {| index := [7; 8];
     columns :=
       [(Order_Date, [VStr (pystr "2022-03-01"); VStr (pystr "2022-03-02")]);
        (Category, [VStr (pystr "Toys"); VStr (pystr "Toys")]);
        (Sales_Per, [VNone; VStr (pystr "5")]);
        (Profit, [VInt 1; VInt 2])] |}.

Definition unsold_enriched : DataFrame :=
  Eval vm_compute in frame_of (cleaning_pipeline py_float iso_datetime unsold).

Definition scenario_enriched : DataFrame :=
  Eval vm_compute in
    frame_of (cleaning_pipeline py_float iso_datetime scenario).

(** Two orders with an unreadable amount each: the sales of the second
    and the profit of the first. *)
Definition unreadable : DataFrame :=
  {| index := [0; 1];
     columns :=
       [(Order_Date, [VStr (pystr "2022-03-01"); VStr (pystr "2022-03-02")]);
        (Category, [VStr (pystr "Toys"); VStr (pystr "Toys")]);
        (Sales_Per, [VStr (pystr "7"); VStr (pystr "$abc")]);
        (Profit, [VStr (pystr "n/a"); VStr (pystr "3")])] |}.

(** [rec[k]] on an exported record, [None] when the record has no such
    key. *)
Definition record_get (k : str) (rec : list (str * value)) : option value :=
  match find (fun kv => str_eqb (fst kv) k) rec with
  | Some kv => Some (snd kv)
  | None => None
  end.

(** One order whose sales amount is a date. *)
Definition dated_amount : DataFrame :=
  {| index := [0];
     columns :=
       [(Order_Date, [VStr (pystr "2022-03-01")]);
        (Category, [VStr (pystr "Toys")]);
        (Sales_Per, [VTimestamp {| year := 2022; month := 3; day := 1 |}]);
        (Profit, [VInt 1])] |}.

(** One order with every exported column, its state a date. *)
Definition dated_state : DataFrame :=
  {| index := [0];
     columns :=
       [(Order_Date, [VStr (pystr "2023-06-15")]);
        (Category, [VStr (pystr "Toys")]);
        (Sales_Per, [VStr (pystr "10")]);
        (Profit, [VStr (pystr "1")]);
        (Segment, [VStr (pystr "Consumer")]);
        (State, [VTimestamp {| year := 2023; month := 6; day := 15 |}]);
        (Quantity, [VInt 2]);
        (Order_ID, [VStr (pystr "A1")]);
        (Customer_ID, [VStr (pystr "C1")])] |}.

Definition dated_state_enriched : DataFrame :=
  Eval vm_compute in
    frame_of (cleaning_pipeline py_float iso_datetime dated_state).

(** The last of the three [orders] alone: its date does not parse. *)
Definition undated : DataFrame :=
  {| index := [2];
     columns :=
       [(Order_Date, [VStr (pystr "not-a-date")]);
        (Category, [VStr (pystr "Toys")]);
        (Sales_Per, [VStr (pystr "300")]);
        (Profit, [VStr (pystr "5")]);
        (Segment, [VStr (pystr "Consumer")]);
        (State, [VStr (pystr "Goa")]);
        (Quantity, [VInt 7]);
        (Order_ID, [VStr (pystr "A3")]);
        (Customer_ID, [VStr (pystr "C2")])] |}.

(** An upload with the nine columns and no row. *)
Definition header_only : DataFrame :=
  {| index := [];
     columns :=
       List.map (fun n => (n, []))
         (required_columns ++ uploaded_export_columns) |}.

(** * Properties *)

(** ** Strings *)

Lemma str_eqb_eq (a b : str) : str_eqb a b = true <-> a = b.
Proof.
  revert b. induction a as [|x a IH]; intros [|y b]; simpl;
    try (split; intros; congruence).
  rewrite andb_true_iff, N.eqb_eq, IH. split.
  - now intros [-> ->].
  - intros H. now inversion H.
Qed.

Lemma str_eqb_refl (a : str) : str_eqb a a = true.
Proof. now apply str_eqb_eq. Qed.

Lemma replace_empty_filter (old : N) (s : str) :
  replace old [] s = filter (fun c => negb (c =? old)%N) s.
Proof.
  induction s as [|c s IH]; simpl; [reflexivity|].
  destruct (c =? old)%N; simpl; now rewrite IH.
Qed.

Lemma filter_filter {A : Type} (p q : A -> bool) (l : list A) :
  filter p (filter q l) = filter (fun x => q x && p x) l.
Proof.
  induction l as [|x l IH]; simpl; [reflexivity|].
  destruct (q x); simpl; [destruct (p x)|]; now rewrite IH.
Qed.

Lemma filter_idem {A : Type} (p : A -> bool) (l : list A) :
  filter p (filter p l) = filter p l.
Proof.
  rewrite filter_filter. apply filter_ext. intros x. now destruct (p x).
Qed.

Lemma replace_chain_filter (s : str) :
  replace comma [] (replace rupee [] (replace dollar [] s)) = without_symbols s.
Proof.
  rewrite !replace_empty_filter, !filter_filter. apply filter_ext.
  intros c. destruct (c =? dollar)%N, (c =? rupee)%N, (c =? comma)%N; reflexivity.
Qed.

Lemma residual_without_symbols (s : str) :
  residual (without_symbols s) = residual s.
Proof.
  unfold residual. rewrite !replace_chain_filter.
  unfold without_symbols. now rewrite filter_idem.
Qed.

(** ** The rate table *)

Lemma rate_for_year_cases (y : Z) :
  rate_for_year y = 74.1%float \/ rate_for_year y = 78.6%float \/
  rate_for_year y = 82.5%float \/ rate_for_year y = 83.4%float \/
  rate_for_year y = 84.5%float \/ rate_for_year y = 83.0%float.
Proof.
  unfold rate_for_year, rates, dict_get.
  destruct (2021 =? y); [tauto|]. destruct (2022 =? y); [tauto|].
  destruct (2023 =? y); [tauto|]. destruct (2024 =? y); [tauto|].
  destruct (2025 =? y); tauto.
Qed.

(** C5. [get_ibr_rate] never raises on a date: on a [Timestamp] of any
    year it returns a rate, 82.5 for 2023 and the default 83.0 for every
    year outside 2021..2025 (1999 among them). *)
Theorem rate_for_year_total :
  (forall t, get_ibr_rate (VTimestamp t) = Ok (VFloat (rate_for_year (year t)))) /\
  rate_for_year 2023 = 82.5%float /\
  rate_for_year 1999 = 83.0%float /\
  (forall y, ~ In y [2021; 2022; 2023; 2024; 2025] ->
             rate_for_year y = 83.0%float) /\
  (forall y, In (rate_for_year y)
               [74.1; 78.6; 82.5; 83.4; 84.5; 83.0]%float).
Proof.
  split; [reflexivity|]. split; [reflexivity|]. split; [reflexivity|]. split.
  - intros y Hy. unfold rate_for_year, rates, dict_get.
    simpl in Hy.
    destruct (Z.eqb_spec 2021 y); [tauto|]. destruct (Z.eqb_spec 2022 y); [tauto|].
    destruct (Z.eqb_spec 2023 y); [tauto|]. destruct (Z.eqb_spec 2024 y); [tauto|].
    destruct (Z.eqb_spec 2025 y); [tauto|]. reflexivity.
  - intros y. simpl.
    destruct (rate_for_year_cases y) as [H|[H|[H|[H|[H|H]]]]]; rewrite H; tauto.
Qed.

(** Year 1999 is outside the table, so the default applies to it. *)
Lemma rate_for_year_total_witness : rate_for_year 1999 = 83.0%float.
Proof.
  apply (proj1 (proj2 (proj2 (proj2 rate_for_year_total))) 1999).
  simpl. intros H. repeat (destruct H as [H|H]; [discriminate|]). exact H.
Defined.


(** ** Trimming twice *)

Lemma lstrip_length (s : str) : (length (lstrip s) <= length s)%nat.
Proof.
  induction s as [|c s IH]; simpl; [lia|].
  destruct (isspace c); simpl; lia.
Qed.

Lemma lstrip_idem (s : str) : lstrip (lstrip s) = lstrip s.
Proof.
  induction s as [|c s IH]; simpl; [reflexivity|].
  destruct (isspace c) eqn:E; [exact IH|]. simpl. now rewrite E.
Qed.

Lemma lstrip_app_last (u : str) (c : N) :
  isspace c = false -> exists v, lstrip (u ++ [c]) = v ++ [c].
Proof.
  intros Hc. induction u as [|x u [v IH]]; simpl.
  - rewrite Hc. now exists [].
  - destruct (isspace x); [eauto|]. now exists (x :: u).
Qed.

Lemma lstrip_rstrip (t : str) : lstrip t = t -> lstrip (rstrip t) = rstrip t.
Proof.
  destruct t as [|c t]; [reflexivity|]. intros H.
  assert (Hc : isspace c = false).
  { destruct (isspace c) eqn:E; [|reflexivity]. simpl in H. rewrite E in H.
    pose proof (lstrip_length t) as L. rewrite H in L. simpl in L. lia. }
  unfold rstrip. simpl rev.
  destruct (lstrip_app_last (rev t) c Hc) as [v Hv]. rewrite Hv.
  rewrite rev_app_distr. simpl. now rewrite Hc.
Qed.

Lemma rstrip_idem (s : str) : rstrip (rstrip s) = rstrip s.
Proof.
  unfold rstrip. now rewrite rev_involutive, lstrip_idem.
Qed.

Lemma strip_idem (s : str) : strip (strip s) = strip s.
Proof.
  unfold strip.
  rewrite (lstrip_rstrip (lstrip s)) by apply lstrip_idem.
  apply rstrip_idem.
Qed.

(** ** Binary64 facts *)

Lemma SFcompare_refl (x : spec_float) :
  x <> S754_nan -> SFcompare x x = Some Eq.
Proof.
  destruct x as [s|s| |s m e]; simpl; intros H; try congruence.
  - now destruct s.
  - rewrite Z.compare_refl.
    assert (Pos.compare_cont Eq m m = Eq) as -> by apply Pos.compare_cont_refl.
    now destruct s.
Qed.



(** ** The exception monad *)

Lemma bind_ok {A B : Type} (r : result A) (k : A -> result B) (b : B) :
  bind r k = Ok b -> exists a, r = Ok a /\ k a = Ok b.
Proof. destruct r; simpl; intros H; [eauto | discriminate]. Qed.

Lemma apply_length (f : value -> result value) (s t : Series) :
  apply f s = Ok t -> length t = length s.
Proof.
  revert t. induction s as [|v s IH]; simpl; intros t H.
  - now inversion H.
  - destruct (f v); [|discriminate]. simpl in H.
    destruct (apply f s); [|discriminate]. simpl in H.
    inversion H. simpl. f_equal. now apply IH.
Qed.

(** A column on which [f] changes nothing comes back as it is. *)
Lemma apply_fixed (f : value -> result value) (s : Series) :
  Forall (fun v => f v = Ok v) s -> apply f s = Ok s.
Proof.
  induction 1 as [|v s Hv _ IH]; simpl; [reflexivity|].
  now rewrite Hv, IH.
Qed.

Lemma apply_Forall2 (f : value -> result value) (s t : Series) :
  apply f s = Ok t -> Forall2 (fun v w => f v = Ok w) s t.
Proof.
  revert t. induction s as [|v s IH]; simpl; intros t H.
  - inversion H. constructor.
  - destruct (f v) eqn:E; [|discriminate]. simpl in H.
    destruct (apply f s); [|discriminate]. simpl in H.
    inversion H. constructor; auto.
Qed.

(** ** Columns of a frame *)

Lemma get_set_same (c : str) (s : Series) cols : get c (set c s cols) = Ok s.
Proof.
  induction cols as [|[n s0] cols IH]; simpl.
  - now rewrite str_eqb_refl.
  - destruct (str_eqb n c) eqn:E; simpl; rewrite E; auto.
Qed.

Lemma get_set_other (c c' : str) (s : Series) cols :
  str_eqb c' c = false -> get c (set c' s cols) = get c cols.
Proof.
  intros H. induction cols as [|[n s0] cols IH]; simpl.
  - now rewrite H.
  - destruct (str_eqb n c') eqn:E; simpl.
    + apply str_eqb_eq in E. subst n. now rewrite H.
    + destruct (str_eqb n c); auto.
Qed.

Lemma set_get_same (c : str) (s : Series) cols :
  get c cols = Ok s -> set c s cols = cols.
Proof.
  induction cols as [|[n s0] cols IH]; simpl; [discriminate|].
  destruct (str_eqb n c) eqn:E; intros H.
  - now inversion H.
  - now rewrite IH.
Qed.

Lemma set_set_same (c : str) (s s0 : Series) cols :
  set c s (set c s0 cols) = set c s cols.
Proof.
  induction cols as [|[n s1] cols IH]; simpl.
  - now rewrite str_eqb_refl.
  - destruct (str_eqb n c) eqn:E; simpl; rewrite E; [reflexivity|].
    now rewrite IH.
Qed.

Lemma getitem_setitem_same df c s : getitem (setitem df c s) c = Ok s.
Proof. apply get_set_same. Qed.

Lemma getitem_setitem_other df c c' s :
  str_eqb c' c = false -> getitem (setitem df c' s) c = getitem df c.
Proof. apply get_set_other. Qed.

Lemma setitem_setitem_same df c s s0 :
  setitem (setitem df c s0) c s = setitem df c s.
Proof. unfold setitem. simpl. now rewrite set_set_same. Qed.

Lemma index_setitem df c s : index (setitem df c s) = index df.
Proof. reflexivity. Qed.

(** ** Row selection *)


Lemma select_all {A : Type} (mask : list bool) (l : list A) :
  Forall (fun b => b = true) mask -> (length l <= length mask)%nat ->
  select mask l = l.
Proof.
  intros H. revert l. induction H as [|b mask Hb _ IH]; intros [|x l] Hl;
    simpl in *; try reflexivity; try lia.
  subst b. f_equal. apply IH. lia.
Qed.

Lemma select_le {A : Type} (mask : list bool) (l : list A) :
  (length (select mask l) <= length (filter (fun b => b) mask))%nat.
Proof.
  revert l. induction mask as [|b mask IH]; intros [|x l]; simpl;
    try lia.
  specialize (IH l). destruct b; simpl; lia.
Qed.

Lemma select_map {A B : Type} (f : A -> B) (mask : list bool) (l : list A) :
  select mask (List.map f l) = List.map f (select mask l).
Proof.
  revert l. induction mask as [|b mask IH]; intros [|x l]; simpl;
    try reflexivity.
  destruct b; simpl; now rewrite IH.
Qed.

Lemma select_self {A : Type} (p : A -> bool) (l : list A) :
  select (List.map p l) l = filter p l.
Proof.
  induction l as [|x l IH]; simpl; [reflexivity|].
  destruct (p x); now rewrite IH.
Qed.

Lemma In_select {A : Type} (mask : list bool) (l : list A) (x : A) :
  In x (select mask l) -> In x l.
Proof.
  revert l. induction mask as [|b mask IH]; intros [|y l]; simpl;
    try tauto.
  destruct b; simpl; intros H; [destruct H|]; auto.
Qed.

Lemma select_nth {A : Type} (mask : list bool) (l : list A) (i : nat) (d : A) :
  (i < length l)%nat -> nth i mask false = true ->
  In (nth i l d) (select mask l).
Proof.
  revert l i. induction mask as [|b mask IH]; intros [|x l] [|i] Hi Hm;
    simpl in *; try discriminate; try lia.
  - subst b. now left.
  - assert (Hi' : (i < length l)%nat) by lia.
    specialize (IH l i Hi' Hm). destruct b; simpl; auto.
Qed.

Lemma get_select (mask : list bool) (c : str) cols :
  get c (List.map (fun '(n, col) => (n, select mask col)) cols)
  = (s <- get c cols ;; Ok (select mask s)).
Proof.
  induction cols as [|[n s0] cols IH]; simpl; [reflexivity|].
  destruct (str_eqb n c); auto.
Qed.

Lemma rectangular_get df c s :
  rectangular df -> getitem df c = Ok s -> length s = len df.
Proof.
  unfold rectangular, getitem. generalize (len df). intros k.
  induction 1 as [|[n s0] cols H _ IH]; simpl.
  - discriminate.
  - destruct (str_eqb n c); [|assumption]. intros E.
    inversion E. subst s0. exact H.
Qed.

Lemma rectangular_strip_columns df :
  rectangular df -> rectangular (strip_columns df).
Proof.
  unfold rectangular, strip_columns, len. simpl. intros H.
  apply Forall_map. eapply Forall_impl; [|exact H]. now intros [n s].
Qed.

Lemma select_combine {A B : Type} (mask : list bool) (a : list A) (b : list B) :
  select mask (combine a b) = combine (select mask a) (select mask b).
Proof.
  revert a b. induction mask as [|m mask IH]; intros [|x a] [|y b]; simpl;
    try reflexivity.
  - destruct m; simpl; [reflexivity|]. now destruct (select mask a).
  - destruct m; simpl; now rewrite IH.
Qed.

Lemma Forall2_nth_rel {A B : Type} (R : A -> B -> Prop) l l' (i : nat) a b :
  Forall2 R l l' -> (i < length l)%nat -> R (nth i l a) (nth i l' b).
Proof.
  intros H. revert i. induction H as [|x y l l' Hxy _ IH]; intros [|i] Hi;
    simpl in *; try lia; [assumption|]. apply IH. lia.
Qed.


(** ** The conversion steps *)

Ltac frame_simpl :=
  repeat (rewrite getitem_setitem_same
          || rewrite getitem_setitem_other by reflexivity).

Ltac frame_simpl_in H :=
  repeat (rewrite getitem_setitem_same in H
          || rewrite getitem_setitem_other in H by reflexivity).

Lemma mul_by_applied_ok (a b c : Series) :
  mul_by_applied a b = Ok c -> b <> [] /\ series_mul a b = Ok c.
Proof.
  destruct b as [|y b]; [discriminate|]. intros H. split; [discriminate|].
  exact H.
Qed.

Lemma mul_by_applied_rows (a b : Series) :
  b <> [] -> mul_by_applied a b = series_mul a b.
Proof. destruct b; [congruence | reflexivity]. Qed.

Lemma enrich_unfold df d s p :
  getitem df Order_Date = Ok d ->
  getitem df Sales_Per = Ok s ->
  getitem df Profit = Ok p ->
  enrich df =
    (r <- apply get_ibr_rate d ;;
     si <- mul_by_applied s r ;;
     pi <- mul_by_applied p r ;;
     ym <- apply year_month_cell d ;;
     Ok (enriched df r s p si pi ym)).
Proof.
  intros Hd Hs Hp. unfold enrich. cbv zeta. rewrite Hd. cbn [bind].
  destruct (apply get_ibr_rate d) as [r|e]; cbn [bind]; [|reflexivity].
  frame_simpl. rewrite Hs. cbn [bind].
  frame_simpl. rewrite Hp. cbn [bind].
  frame_simpl. cbn [bind].
  destruct (mul_by_applied s r) as [si|e]; cbn [bind]; [|reflexivity].
  frame_simpl. cbn [bind].
  destruct (mul_by_applied p r) as [pi|e]; cbn [bind]; [|reflexivity].
  frame_simpl. rewrite Hd. cbn [bind].
  reflexivity.
Qed.

Lemma enrich_inv df out :
  enrich df = Ok out ->
  exists d s p r si pi ym,
    getitem df Order_Date = Ok d /\
    getitem df Sales_Per = Ok s /\
    getitem df Profit = Ok p /\
    apply get_ibr_rate d = Ok r /\
    series_mul s r = Ok si /\
    series_mul p r = Ok pi /\
    apply year_month_cell d = Ok ym /\
    out = enriched df r s p si pi ym.
Proof.
  intros H.
  destruct (getitem df Order_Date) as [d|e] eqn:Hd.
  2:{ unfold enrich in H. rewrite Hd in H. discriminate. }
  destruct (getitem df Sales_Per) as [s|e] eqn:Hs.
  2:{ unfold enrich in H. cbv zeta in H. rewrite Hd in H. cbn [bind] in H.
      destruct (apply get_ibr_rate d); [|discriminate]. cbn [bind] in H.
      frame_simpl_in H. rewrite Hs in H. discriminate. }
  destruct (getitem df Profit) as [p|e] eqn:Hp.
  2:{ unfold enrich in H. cbv zeta in H. rewrite Hd in H. cbn [bind] in H.
      destruct (apply get_ibr_rate d); [|discriminate]. cbn [bind] in H.
      frame_simpl_in H. rewrite Hs in H. cbn [bind] in H.
      frame_simpl_in H. rewrite Hp in H. discriminate. }
  rewrite (enrich_unfold df d s p Hd Hs Hp) in H.
  apply bind_ok in H. destruct H as [r [Hr H]].
  apply bind_ok in H. destruct H as [si [Hsi H]].
  apply bind_ok in H. destruct H as [pi [Hpi H]].
  apply bind_ok in H. destruct H as [ym [Hym H]].
  apply mul_by_applied_ok in Hsi. apply mul_by_applied_ok in Hpi.
  inversion H. exists d, s, p, r, si, pi, ym. repeat split; tauto.
Qed.


Lemma index_enriched df r s p si pi ym :
  index (enriched df r s p si pi ym) = index df.
Proof. reflexivity. Qed.

Lemma getitem_enriched_other df r s p si pi ym c :
  str_eqb IBR_Rate c = false -> str_eqb Sales_USD c = false ->
  str_eqb Profit_USD c = false -> str_eqb Sales_INR c = false ->
  str_eqb Profit_INR c = false -> str_eqb YearMonth c = false ->
  getitem (enriched df r s p si pi ym) c = getitem df c.
Proof.
  intros. unfold enriched.
  now rewrite !getitem_setitem_other by assumption.
Qed.

Lemma apply_get_ibr_rate (d r : Series) :
  apply get_ibr_rate d = Ok r -> r = List.map rate_cell d.
Proof.
  revert r. induction d as [|v d IH]; simpl; intros r H.
  - now inversion H.
  - destruct (get_ibr_rate v) as [w|e] eqn:E; [|discriminate]. simpl in H.
    destruct (apply get_ibr_rate d) as [t|e]; [|discriminate]. simpl in H.
    inversion H. f_equal; [|now apply IH].
    destruct v; simpl in E; inversion E; reflexivity.
Qed.

Lemma apply_get_ibr_rate_ok (d : Series) :
  Forall (fun v => exists t, v = VTimestamp t) d ->
  apply get_ibr_rate d = Ok (List.map rate_cell d).
Proof.
  induction 1 as [|v d [t ->] _ IH]; simpl; [reflexivity|].
  now rewrite IH.
Qed.

Lemma apply_year_month_ok (d : Series) :
  Forall (fun v => exists t, v = VTimestamp t) d ->
  exists ym, apply year_month_cell d = Ok ym.
Proof.
  induction 1 as [|v d [t ->] _ [ym IH]]; simpl; [eauto|].
  rewrite IH. simpl. eauto.
Qed.

Lemma series_mul_product (a b c : Series) :
  series_mul a b = Ok c -> c = List.map product (combine a b).
Proof.
  revert b c. induction a as [|x a IH]; intros [|y b] c; simpl; intros H;
    try (now inversion H).
  unfold mul_cell in H.
  destruct (to_float x) as [fx|e] eqn:Ex; [|discriminate]. simpl in H.
  destruct (to_float y) as [fy|e] eqn:Ey; [|discriminate]. simpl in H.
  destruct (series_mul a b) as [t|e] eqn:Et; [|discriminate]. simpl in H.
  inversion H. f_equal; [|now apply IH].
  unfold product, number. simpl. now rewrite Ex, Ey.
Qed.

Lemma series_mul_ok (a b : Series) :
  Forall (fun v => exists f, to_float v = Ok f) a ->
  Forall (fun v => exists f, to_float v = Ok f) b ->
  exists c, series_mul a b = Ok c.
Proof.
  intros Ha. revert b. induction Ha as [|x a [fx Hx] _ IH]; intros b Hb.
  - simpl. eauto.
  - destruct Hb as [|y b [fy Hy] Hb]; simpl; [eauto|].
    unfold mul_cell. rewrite Hx, Hy. simpl.
    destruct (IH b Hb) as [c Hc]. rewrite Hc. simpl. eauto.
Qed.

Lemma to_float_rate_cell (d : Series) :
  Forall (fun v => exists f, to_float v = Ok f) (List.map rate_cell d).
Proof.
  apply Forall_map. apply Forall_forall. intros v _. simpl. eauto.
Qed.

Lemma getitem_enriched_profit_usd df r s p si pi ym :
  getitem (enriched df r s p si pi ym) Profit_USD = Ok p.
Proof. unfold enriched. now frame_simpl. Qed.

Lemma getitem_enriched_profit_inr df r s p si pi ym :
  getitem (enriched df r s p si pi ym) Profit_INR = Ok pi.
Proof. unfold enriched. now frame_simpl. Qed.
(** ** Binary64 rounding: products and quotients by the exchange rates *)

Lemma div_mod_double (X W : Z) :
  0 <= X -> 0 < W ->
  X / (2 * W) = (X / W) / 2 /\
  X mod (2 * W) = ((X / W) mod 2) * W + X mod W.
Proof.
  intros HX HW.
  pose proof (Z.div_mod X W ltac:(lia)) as E.
  pose proof (Z.mod_pos_bound X W HW) as B.
  pose proof (Z.div_mod (X / W) 2 ltac:(lia)) as E2.
  pose proof (Z.mod_pos_bound (X / W) 2 ltac:(lia)) as B2.
  assert (R : 0 <= (X / W) mod 2 * W + X mod W < 2 * W) by nia.
  assert (Q : X = 2 * W * (X / W / 2) + ((X / W) mod 2 * W + X mod W)) by nia.
  split.
  - symmetry. eapply Z.div_unique_pos; eassumption.
  - symmetry. eapply Z.mod_unique_pos; eassumption.
Qed.

(** One step of the shifter doubles the weight. *)
Lemma shr_1_inv (X W : Z) (mrs : shr_record) :
  0 <= X -> 0 < W -> shr_inv X W mrs -> shr_inv X (2 * W) (shr_1 mrs).
Proof.
  intros HX HW. destruct mrs as [m r s]. unfold shr_inv.
  cbn [shr_m shr_r shr_s]. intros (Hm & Hr & Hs).
  destruct (div_mod_double X W HX HW) as [Ed Em]. rewrite Ed, Em.
  pose proof (Z.mod_pos_bound X W HW) as B.
  pose proof (Z.div_pos X W HX HW) as P.
  rewrite <- Hm in *. subst r s. clear Ed Em Hm.
  set (rho := X mod W) in *.
  assert (S : (W <=? 2 * rho) || negb (rho =? 0) && negb (2 * rho =? W)
              = negb (rho =? 0)).
  { destruct (Z.leb_spec W (2 * rho)), (Z.eqb_spec rho 0), (Z.eqb_spec (2 * rho) W);
      simpl; try reflexivity; lia. }
  assert (Hbit : forall b : Z, b = 0 \/ b = 1 ->
            (b =? 1) = (2 * W <=? 2 * (b * W + rho)) /\
            negb (rho =? 0)
            = negb (b * W + rho =? 0) && negb (2 * (b * W + rho) =? 2 * W)).
  { intros b Hb.
    destruct (Z.eqb_spec b 1), (Z.leb_spec (2 * W) (2 * (b * W + rho))),
      (Z.eqb_spec rho 0), (Z.eqb_spec (b * W + rho) 0),
      (Z.eqb_spec (2 * (b * W + rho)) (2 * W)); simpl; split;
      try reflexivity; nia. }
  destruct m as [|[p|p|]|p]; try lia; unfold shr_1; cbn [shr_m shr_r shr_s];
    rewrite S.
  - change (0 / 2) with 0. change (0 mod 2) with 0.
    destruct (Hbit 0 ltac:(lia)) as [H1 H2]. now rewrite <- H1, <- H2.
  - assert (D : Z.pos p~1 / 2 = Z.pos p /\ Z.pos p~1 mod 2 = 1).
    { split; [symmetry; apply (Z.div_unique_pos _ _ _ 1); lia
             | symmetry; apply (Z.mod_unique_pos _ _ (Z.pos p)); lia]. }
    destruct D as [D1 D2]. rewrite D1, D2.
    destruct (Hbit 1 ltac:(lia)) as [H1 H2]. now rewrite <- H1, <- H2.
  - assert (D : Z.pos p~0 / 2 = Z.pos p /\ Z.pos p~0 mod 2 = 0).
    { split; [symmetry; apply (Z.div_unique_pos _ _ _ 0); lia
             | symmetry; apply (Z.mod_unique_pos _ _ (Z.pos p)); lia]. }
    destruct D as [D1 D2]. rewrite D1, D2.
    destruct (Hbit 0 ltac:(lia)) as [H1 H2]. now rewrite <- H1, <- H2.
  - change (1 / 2) with 0. change (1 mod 2) with 1.
    destruct (Hbit 1 ltac:(lia)) as [H1 H2]. now rewrite <- H1, <- H2.
Qed.

Lemma iter_pos_shr_1_inv (p : positive) (X W : Z) (mrs : shr_record) :
  0 <= X -> 0 < W -> shr_inv X W mrs ->
  shr_inv X (2 ^ Z.pos p * W) (iter_pos shr_1 p mrs).
Proof.
  intros HX. revert W mrs.
  induction p as [p IH|p IH|]; intros W mrs HW H; simpl iter_pos.
  - replace (2 ^ Z.pos p~1 * W) with (2 ^ Z.pos p * (2 ^ Z.pos p * (2 * W))).
    + apply IH; [|apply IH; [lia| now apply shr_1_inv]].
      pose proof (Z.pow_pos_nonneg 2 (Z.pos p)). lia.
    + replace (Z.pos p~1) with (Z.pos p + Z.pos p + 1) by lia.
      rewrite !Z.pow_add_r by lia. change (2 ^ 1) with 2. ring.
  - replace (2 ^ Z.pos p~0 * W) with (2 ^ Z.pos p * (2 ^ Z.pos p * W)).
    + apply IH; [|apply IH; [lia|assumption]].
      pose proof (Z.pow_pos_nonneg 2 (Z.pos p)). lia.
    + replace (Z.pos p~0) with (Z.pos p + Z.pos p) by lia.
      rewrite !Z.pow_add_r by lia. ring.
  - change (2 ^ 1) with 2. now apply shr_1_inv.
Qed.

(** Rounding to nearest with ties to even is within half a unit. *)
Lemma round_nearest_even_inv (X W : Z) (mrs : shr_record) :
  0 <= X -> 0 < W -> shr_inv X W mrs ->
  let m := round_nearest_even (shr_m mrs) (loc_of_shr_record mrs) in
  X / W <= m <= X / W + 1 /\ 2 * Z.abs (m * W - X) <= W.
Proof.
  intros HX HW. destruct mrs as [m r s]. unfold shr_inv.
  cbn [shr_m shr_r shr_s]. intros (Hm & Hr & Hs).
  pose proof (Z.div_mod X W ltac:(lia)) as E.
  pose proof (Z.mod_pos_bound X W HW) as B.
  rewrite <- Hm in *. set (rho := X mod W) in *.
  destruct r, s; cbn [loc_of_shr_record round_nearest_even]; cbv zeta;
    destruct (Z.leb_spec W (2 * rho)); try discriminate Hr;
    destruct (Z.eqb_spec rho 0); try discriminate Hs;
    destruct (Z.eqb_spec (2 * rho) W); try discriminate Hs;
    try (destruct (Z.even m)); split; lia.
Qed.


(** Number of binary digits. *)
Lemma digits2_pos_bounds (p : positive) :
  2 ^ (Z.pos (digits2_pos p) - 1) <= Z.pos p < 2 ^ Z.pos (digits2_pos p).
Proof.
  induction p as [p IH|p IH|]; cbn [digits2_pos];
    try (rewrite Pos2Z.inj_succ;
         replace (Z.succ (Z.pos (digits2_pos p)) - 1)
           with (Z.succ (Z.pos (digits2_pos p) - 1)) by lia;
         rewrite !Z.pow_succ_r by lia; lia).
  change (2 ^ (1 - 1)) with 1. change (2 ^ 1) with 2. lia.
Qed.

Lemma Zdigits2_nonneg (z : Z) : 0 <= Zdigits2 z.
Proof. destruct z; simpl; lia. Qed.

Lemma Zdigits2_bounds (z : Z) :
  0 < z -> 2 ^ (Zdigits2 z - 1) <= z < 2 ^ Zdigits2 z.
Proof.
  destruct z as [|p|p]; try lia. intros _. apply digits2_pos_bounds.
Qed.

Lemma Zdigits2_le (z n : Z) : 0 <= z < 2 ^ n -> 0 <= n -> Zdigits2 z <= n.
Proof.
  intros [H0 Hn] Hn0. destruct (Z.eq_dec z 0) as [->|Hz]; [simpl; lia|].
  pose proof (Zdigits2_bounds z ltac:(lia)) as [Hl _].
  destruct (Z_le_gt_dec (Zdigits2 z) n) as [|Hgt]; [assumption|].
  assert (2 ^ n <= 2 ^ (Zdigits2 z - 1)) by (apply Z.pow_le_mono_r; lia).
  lia.
Qed.

Lemma Zdigits2_ge (z n : Z) : 2 ^ n <= z -> 0 <= n -> n + 1 <= Zdigits2 z.
Proof.
  intros Hn Hn0.
  assert (Hz : 0 < z) by (pose proof (Z.pow_pos_nonneg 2 n); lia).
  pose proof (Zdigits2_bounds z Hz) as [_ Hu].
  destruct (Z_le_gt_dec (n + 1) (Zdigits2 z)) as [|Hgt]; [assumption|].
  assert (2 ^ Zdigits2 z <= 2 ^ n)
    by (apply Z.pow_le_mono_r; pose proof (Zdigits2_nonneg z); lia).
  lia.
Qed.

Lemma shr_m_of_loc (m : Z) (l : location) : shr_m (shr_record_of_loc m l) = m.
Proof. destruct l as [|[| |]]; reflexivity. Qed.

Lemma shr_inv_exact (m : Z) : shr_inv m 1 (shr_record_of_loc m loc_Exact).
Proof.
  unfold shr_inv. simpl. rewrite Z.div_1_r, Z.mod_1_r. repeat split.
Qed.

(** [fexp] and [emin] of binary64. *)
Lemma fexp64 (t : Z) : fexp prec emax t = Z.max (t - 53) (-1074).
Proof. reflexivity. Qed.

Lemma shr_fexp_spec (m e : Z) (l : location) (X W : Z) :
  0 <= X -> 0 < W -> shr_inv X W (shr_record_of_loc m l) ->
  let e1 := Z.max e (fexp prec emax (Zdigits2 m + e)) in
  exists mrs,
    shr_fexp prec emax m e l = (mrs, e1) /\
    shr_inv X (2 ^ (e1 - e) * W) mrs.
Proof.
  intros HX HW H e1. unfold shr_fexp, shr.
  destruct (fexp prec emax (Zdigits2 m + e) - e) as [|p|p] eqn:En.
  - exists (shr_record_of_loc m l). replace e1 with e by (unfold e1; lia).
    split; [reflexivity|]. rewrite Z.sub_diag. change (2 ^ 0) with 1.
    now rewrite Z.mul_1_l.
  - exists (iter_pos shr_1 p (shr_record_of_loc m l)).
    replace e1 with (e + Z.pos p) by (unfold e1; lia).
    split; [reflexivity|].
    replace (e + Z.pos p - e) with (Z.pos p) by lia.
    now apply iter_pos_shr_1_inv.
  - exists (shr_record_of_loc m l). replace e1 with e by (unfold e1; lia).
    split; [reflexivity|]. rewrite Z.sub_diag. change (2 ^ 0) with 1.
    now rewrite Z.mul_1_l.
Qed.

(** What [binary_round_aux] returns for the truncation [mx] of [X / W0] at
    exponent [ex]: a mantissa below 2^53 within half a unit of [X / W0]
    at the exponent the format gives it. *)
Lemma binary_round_aux_spec (sx : bool) (mx ex : Z) (lx : location) (X W0 : Z) :
  0 <= X -> 0 < W0 -> 0 <= mx ->
  shr_inv X W0 (shr_record_of_loc mx lx) ->
  let e1 := Z.max ex (fexp prec emax (Zdigits2 mx + ex)) in
  exists m' e',
    binary_round_aux prec emax sx mx ex lx = sf_make sx m' e' /\
    0 <= m' < 2 ^ 53 /\
    (e' = e1 \/ (e' = e1 + 1 /\ m' = 2 ^ 52)) /\
    2 * Z.abs (m' * 2 ^ (e' - ex) * W0 - X) <= 2 ^ (e1 - ex) * W0.
Proof.
  intros HX HW Hmx H e1.
  destruct (shr_fexp_spec mx ex lx X W0 HX HW H) as [mrs1 [E1 I1]].
  fold e1 in E1, I1.
  assert (Hk : 0 <= e1 - ex) by (unfold e1; lia).
  set (W1 := 2 ^ (e1 - ex) * W0) in *.
  assert (HW1 : 0 < W1).
  { unfold W1. pose proof (Z.pow_pos_nonneg 2 (e1 - ex)). nia. }
  pose proof (round_nearest_even_inv X W1 mrs1 HX HW1 I1) as R.
  cbv zeta in R.
  set (ms := round_nearest_even (shr_m mrs1) (loc_of_shr_record mrs1)) in *.
  destruct R as [[Rl Ru] Rb].
  (* the truncated mantissa has at most 53 digits *)
  assert (Hm1 : 0 <= X / W1 < 2 ^ 53).
  { split; [apply Z.div_pos; lia|].
    destruct H as [Hq _]. rewrite shr_m_of_loc in Hq.
    unfold W1. rewrite Z.mul_comm, <- Z.div_div by lia. rewrite <- Hq.
    destruct (Z.eq_dec mx 0) as [->|Hz].
    { rewrite Z.div_0_l by lia. reflexivity. }
    pose proof (Zdigits2_bounds mx ltac:(lia)) as [_ Hd].
    pose proof (Zdigits2_nonneg mx) as Hd0.
    apply Z.div_lt_upper_bound; [lia|].
    assert (Hle : Zdigits2 mx <= (e1 - ex) + 53).
    { unfold e1. rewrite fexp64. lia. }
    assert (2 ^ Zdigits2 mx <= 2 ^ (e1 - ex + 53))
      by (apply Z.pow_le_mono_r; lia).
    rewrite Z.pow_add_r in * by lia. lia. }
  assert (He1 : -1074 <= e1) by (unfold e1; rewrite fexp64; lia).
  unfold binary_round_aux. rewrite E1. fold ms.
  destruct (shr_fexp_spec ms e1 loc_Exact ms 1 ltac:(lia) ltac:(lia)
              (shr_inv_exact ms)) as [mrs2 [E2 I2]].
  rewrite E2. destruct I2 as [I2 _]. rewrite I2.
  destruct (Z.eq_dec ms (2 ^ 53)) as [Ec|Ec].
  - (* the rounding carried into a 54th digit *)
    rewrite Ec in *.
    replace (Z.max e1 (fexp prec emax (Zdigits2 (2 ^ 53) + e1))) with (e1 + 1)
      by (change (Zdigits2 (2 ^ 53)) with 54; rewrite fexp64; lia).
    replace (e1 + 1 - e1) with 1 by lia.
    change (2 ^ 53 / (2 ^ 1 * 1)) with (2 ^ 52).
    exists (2 ^ 52), (e1 + 1). split; [reflexivity|].
    split; [split; [apply Z.pow_nonneg; lia | apply Z.pow_lt_mono_r; lia]|].
    split; [right; split; reflexivity|].
    replace (e1 + 1 - ex) with (1 + (e1 - ex)) by lia.
    rewrite Z.pow_add_r by lia. change (2 ^ 1) with 2.
    fold W1.
    replace (2 ^ 52 * (2 * 2 ^ (e1 - ex)) * W0) with (2 ^ 53 * W1)
      by (unfold W1; change (2 ^ 53) with (2 * 2 ^ 52); ring).
    exact Rb.
  - (* it did not *)
    assert (Hms : 0 <= ms < 2 ^ 53) by lia.
    pose proof (Zdigits2_le ms 53 Hms ltac:(lia)) as Hd.
    replace (Z.max e1 (fexp prec emax (Zdigits2 ms + e1))) with e1
      by (rewrite fexp64; lia).
    rewrite Z.sub_diag. change (2 ^ 0 * 1) with 1. rewrite Z.div_1_r.
    exists ms, e1. split; [reflexivity|]. split; [exact Hms|].
    split; [left; reflexivity|]. fold W1.
    replace (ms * 2 ^ (e1 - ex) * W0) with (ms * W1) by (unfold W1; ring).
    exact Rb.
Qed.


(** The location of a quotient against its remainder. *)
Lemma new_location_inv (X D : Z) :
  0 <= X -> 0 < D ->
  shr_inv X D (shr_record_of_loc (X / D) (new_location D (X mod D))).
Proof.
  intros HX HD. pose proof (Z.mod_pos_bound X D HD) as B.
  set (rem := X mod D) in *.
  unfold shr_inv. rewrite shr_m_of_loc. split; [reflexivity|].
  fold rem. unfold new_location, new_location_even, new_location_odd.
  assert (Hodd : Z.even D = false -> 2 * rem <> D).
  { intros Ev E. rewrite <- E in Ev. rewrite Z.even_mul in Ev. discriminate. }
  destruct (Z.even D) eqn:Ev.
  - destruct (Z.eqb_spec rem 0) as [E0|E0];
      [|destruct (Z.compare_spec (2 * rem) D)];
      cbn [shr_record_of_loc shr_r shr_s];
      destruct (Z.leb_spec D (2 * rem));
      destruct (Z.eqb_spec (2 * rem) D); cbn [negb andb];
      try lia; split; reflexivity.
  - specialize (Hodd eq_refl).
    destruct (Z.eqb_spec rem 0) as [E0|E0];
      [|destruct (Z.compare_spec (2 * rem + 1) D)];
      cbn [shr_record_of_loc shr_r shr_s];
      destruct (Z.leb_spec D (2 * rem));
      destruct (Z.eqb_spec (2 * rem) D); cbn [negb andb];
      try lia; split; reflexivity.
Qed.

(** The product and the quotient of two finite floats. *)
Lemma SFmul_spec (s : bool) (m mr : positive) (e er : Z) :
  let P := Z.pos m * Z.pos mr in
  let e1 := Z.max (e + er) (fexp prec emax (Zdigits2 P + (e + er))) in
  exists my ey,
    SFmul prec emax (S754_finite s m e) (S754_finite false mr er) = sf_make s my ey /\
    0 <= my < 2 ^ 53 /\
    (ey = e1 \/ (ey = e1 + 1 /\ my = 2 ^ 52)) /\
    2 * Z.abs (my * 2 ^ (ey - (e + er)) - P) <= 2 ^ (e1 - (e + er)).
Proof.
  intros P e1. cbn [SFmul]. rewrite xorb_false_r.
  change (Z.pos (m * mr)) with P.
  destruct (binary_round_aux_spec s P (e + er) loc_Exact P 1)
    as [my [ey [E [Hm [He Hb]]]]]; try (unfold P; lia).
  { apply shr_inv_exact. }
  exists my, ey. rewrite !Z.mul_1_r in Hb. auto.
Qed.

Lemma SFdiv_spec (s : bool) (my mr : positive) (ey er : Z) :
  let e' := Z.min (fexp prec emax (Zdigits2 (Z.pos my) + ey
                                   - (Zdigits2 (Z.pos mr) + er)))
                  (ey - er) in
  let sh := ey - er - e' in
  let X := Z.pos my * 2 ^ sh in
  let e1 := Z.max e' (fexp prec emax (Zdigits2 (X / Z.pos mr) + e')) in
  exists mz ez,
    SFdiv prec emax (S754_finite s my ey) (S754_finite false mr er) = sf_make s mz ez /\
    0 <= mz < 2 ^ 53 /\
    (ez = e1 \/ (ez = e1 + 1 /\ mz = 2 ^ 52)) /\
    2 * Z.abs (mz * 2 ^ (ez - e') * Z.pos mr - X) <= 2 ^ (e1 - e') * Z.pos mr.
Proof.
  intros e' sh X e1. cbn [SFdiv]. rewrite xorb_false_r.
  unfold SFdiv_core_binary. fold e'. fold sh.
  assert (Hsh : 0 <= sh) by (unfold sh, e'; lia).
  assert (HX : (match sh with
                | 0 => Z.pos my
                | Z.pos _ => Z.shiftl (Z.pos my) sh
                | Z.neg _ => 0
                end) = X).
  { unfold X. generalize Hsh. generalize sh. intros [|p|p] Hp; try lia.
    apply Z.shiftl_mul_pow2. lia. }
  rewrite HX.
  assert (HXpos : 0 <= X).
  { unfold X. pose proof (Z.pow_pos_nonneg 2 sh). nia. }
  pose proof (new_location_inv X (Z.pos mr) HXpos ltac:(lia)) as I.
  unfold Z.div, Z.modulo in I.
  destruct (Z.div_eucl X (Z.pos mr)) as [q rem] eqn:Eq.
  assert (Hq : X / Z.pos mr = q) by (unfold Z.div; now rewrite Eq).
  assert (Hqpos : 0 <= q) by (rewrite <- Hq; apply Z.div_pos; lia).
  destruct (binary_round_aux_spec s q e' (new_location (Z.pos mr) rem) X (Z.pos mr))
    as [mz [ez [E [Hm [He Hb]]]]]; try lia.
  { exact I. }
  exists mz, ez. unfold e1. rewrite Hq. auto.
Qed.



(** Shift counts instead of exponents. *)
Lemma SFmul_shift (s : bool) (m mr : positive) (e er : Z) :
  let P := Z.pos m * Z.pos mr in
  let k1 := Z.max 0 (Z.max (Zdigits2 P - 53) (-1074 - (e + er))) in
  exists my k,
    SFmul prec emax (S754_finite s m e) (S754_finite false mr er)
    = sf_make s my (e + er + k) /\
    0 <= my < 2 ^ 53 /\
    (k = k1 \/ (k = k1 + 1 /\ my = 2 ^ 52)) /\
    2 * Z.abs (my * 2 ^ k - P) <= 2 ^ k1.
Proof.
  intros P k1.
  destruct (SFmul_spec s m mr e er) as (my & ey & E & Hm & He & Hb).
  fold P in He, Hb. rewrite fexp64 in He, Hb.
  exists my, (ey - (e + er)).
  replace (e + er + (ey - (e + er))) with ey by lia.
  split; [exact E|]. split; [exact Hm|].
  replace (Z.max (e + er) (Z.max (Zdigits2 P + (e + er) - 53) (-1074)) - (e + er))
    with k1 in Hb by (clear; unfold k1; lia).
  split; [|exact Hb]. clear - He. unfold k1. lia.
Qed.

Lemma SFdiv_shift (s : bool) (my mr : positive) (ey er : Z) :
  let e' := Z.min (Z.max (Zdigits2 (Z.pos my) + ey
                          - (Zdigits2 (Z.pos mr) + er) - 53) (-1074))
                  (ey - er) in
  let sh := ey - er - e' in
  let X := Z.pos my * 2 ^ sh in
  let k1 := Z.max 0 (Z.max (Zdigits2 (X / Z.pos mr) - 53) (-1074 - e')) in
  exists mz k,
    SFdiv prec emax (S754_finite s my ey) (S754_finite false mr er)
    = sf_make s mz (e' + k) /\
    0 <= mz < 2 ^ 53 /\
    (k = k1 \/ (k = k1 + 1 /\ mz = 2 ^ 52)) /\
    2 * Z.abs (mz * 2 ^ k * Z.pos mr - X) <= 2 ^ k1 * Z.pos mr.
Proof.
  intros e' sh X k1.
  destruct (SFdiv_spec s my mr ey er) as (mz & ez & E & Hm & He & Hb).
  rewrite !fexp64 in He, Hb.
  replace (Zdigits2 (Z.pos my) + ey - (Zdigits2 (Z.pos mr) + er) - 53)
    with (Zdigits2 (Z.pos my) + ey - (Zdigits2 (Z.pos mr) + er) - 53)
    in He, Hb by reflexivity.
  fold e' in He, Hb. fold sh in He, Hb. fold X in He, Hb.
  exists mz, (ez - e').
  replace (e' + (ez - e')) with ez by lia.
  split; [exact E|]. split; [exact Hm|].
  replace (Z.max e' (Z.max (Zdigits2 (X / Z.pos mr) + e' - 53) (-1074)) - e')
    with k1 in Hb by (clear; unfold k1; lia).
  split; [|exact Hb]. clear - He. unfold k1. lia.
Qed.

Lemma sf_close_finite (s : bool) (ma mb : positive) (ea eb : Z) (d : Z) :
  ea = eb + d ->
  (0 <= d ->
   10 ^ 9 * Z.abs (Z.pos ma * 2 ^ d - Z.pos mb)
   <= Z.max (Z.pos ma * 2 ^ d) (Z.pos mb)) ->
  (d < 0 ->
   10 ^ 9 * Z.abs (Z.pos ma - Z.pos mb * 2 ^ (- d))
   <= Z.max (Z.pos ma) (Z.pos mb * 2 ^ (- d))) ->
  sf_close (S754_finite s ma ea) (S754_finite s mb eb) = true.
Proof.
  intros -> Hp Hn. unfold sf_close, dyadic. cbv zeta. apply Z.leb_le.
  destruct (Z_le_gt_dec 0 d) as [Hd|Hd].
  - specialize (Hp Hd). clear Hn.
    replace (Z.min (eb + d) eb) with eb by lia.
    replace (eb + d - eb) with d by lia. rewrite Z.sub_diag.
    change (2 ^ 0) with 1. rewrite Z.mul_1_r.
    pose proof (Z.pow_pos_nonneg 2 d ltac:(lia) Hd) as Hpow.
    destruct s; unfold cond_Zopp; nia.
  - specialize (Hn ltac:(lia)). clear Hp.
    replace (Z.min (eb + d) eb) with (eb + d) by lia.
    replace (eb - (eb + d)) with (- d) by lia. rewrite Z.sub_diag.
    change (2 ^ 0) with 1. rewrite Z.mul_1_r.
    pose proof (Z.pow_pos_nonneg 2 (- d) ltac:(lia) ltac:(lia)) as Hpow.
    destruct s; unfold cond_Zopp; nia.
Qed.


Lemma sf_make_finite (s : bool) (m e : Z) :
  0 < m -> e <= 971 -> exists p, m = Z.pos p /\ sf_make s m e = S754_finite s p e.
Proof.
  intros Hm He. destruct m as [|p|p]; try lia. exists p. split; [reflexivity|].
  unfold sf_make. change (emax - prec) with 971.
  destruct (Z.leb_spec e 971); [reflexivity|lia].
Qed.

Lemma sf_make_finite_inv (s : bool) (m e : Z) :
  0 < m -> sf_finite (sf_make s m e) = true -> e <= 971.
Proof.
  intros Hm. destruct m as [|p|p]; try lia. unfold sf_make.
  change (emax - prec) with 971.
  destruct (Z.leb_spec e 971); [lia|discriminate].
Qed.

Lemma Zdigits2_eq (z n : Z) : 2 ^ (n - 1) <= z < 2 ^ n -> 1 <= n -> Zdigits2 z = n.
Proof.
  intros [Hl Hu] Hn.
  assert (Zdigits2 z <= n) by (apply Zdigits2_le; [|lia];
    pose proof (Z.pow_pos_nonneg 2 (n - 1)); lia).
  pose proof (Zdigits2_ge z (n - 1) Hl ltac:(lia)). lia.
Qed.

Ltac closed_pos p :=
  lazymatch p with
  | xH => idtac
  | xO ?q => closed_pos q
  | xI ?q => closed_pos q
  end.

Ltac closed_Z n :=
  lazymatch n with
  | Z0 => idtac
  | Z.pos ?p => closed_pos p
  | Z.neg ?p => closed_pos p
  | ?a + ?b => closed_Z a; closed_Z b
  | ?a - ?b => closed_Z a; closed_Z b
  | - ?a => closed_Z a
  | Z.max ?a ?b => closed_Z a; closed_Z b
  end.

(** Replaces the powers of two with closed exponents by their values. *)
Ltac pow_consts :=
  repeat match goal with
    | H : context [2 ^ ?n] |- _ =>
        closed_Z n;
        let v := eval vm_compute in (2 ^ n) in
        change (2 ^ n) with v in H
    | |- context [2 ^ ?n] =>
        closed_Z n;
        let v := eval vm_compute in (2 ^ n) in
        change (2 ^ n) with v
    end.

(** The rounded product with a rate [mr]: the mantissa [my] of the product
    of a 53-bit mantissa [m], kept at the position [dP] the 106-bit product
    leaves it. *)
Lemma mul_core (mr m my k dP : Z) :
  In mr rates_Z ->
  2 ^ 52 <= m < 2 ^ 53 -> 0 <= my < 2 ^ 53 ->
  2 ^ (dP - 1) <= m * mr < 2 ^ dP ->
  k = dP - 53 \/ (k = dP - 53 + 1 /\ my = 2 ^ 52) ->
  2 * Z.abs (my * 2 ^ k - m * mr) <= 2 ^ (dP - 53) ->
  2 ^ 52 <= my /\ (k = 52 \/ k = 53 \/ k = 54) /\
  2 * Z.abs (my * 2 ^ k - m * mr) <= 2 ^ k.
Proof.
  intros Hin Hm Hmy HdP Hk Hb.
  assert (Hd : dP = 105 \/ dP = 106).
  { assert (104 < dP).
    { destruct (Z_lt_le_dec 104 dP) as [|Hc]; [assumption|exfalso].
      assert (2 ^ dP <= 2 ^ 104) by (apply Z.pow_le_mono_r; lia).
      unfold rates_Z, rate_mantissas in Hin. cbn [List.map In] in Hin.
      pow_consts. lia. }
    assert (dP - 1 < 106).
    { destruct (Z_lt_le_dec (dP - 1) 106) as [|Hc]; [assumption|exfalso].
      assert (2 ^ 106 <= 2 ^ (dP - 1)) by (apply Z.pow_le_mono_r; lia).
      unfold rates_Z, rate_mantissas in Hin. cbn [List.map In] in Hin.
      pow_consts. lia. }
    lia. }
  unfold rates_Z, rate_mantissas in Hin. cbn [List.map In] in Hin.
  destruct Hd as [Hd|Hd]; subst dP;
    (destruct Hk as [Hk|[Hk Hc]]; [subst k|subst k my]);
    pow_consts; lia.
Qed.


Lemma digits_range (d q a b : Z) :
  2 ^ (d - 1) <= q < 2 ^ d -> 2 ^ a <= q < 2 ^ b -> a + 1 <= d <= b.
Proof.
  intros [Hl Hu] [Ha Hb]. split.
  - destruct (Z_le_gt_dec (a + 1) d) as [|Hc]; [assumption|exfalso].
    assert (2 ^ d <= 2 ^ a) by (apply Z.pow_le_mono_r; lia). lia.
  - destruct (Z_le_gt_dec d b) as [|Hc]; [assumption|exfalso].
    assert (2 ^ b <= 2 ^ (d - 1)) by (apply Z.pow_le_mono_r; lia). lia.
Qed.

(** The rounded quotient [mz] of that product by the rate is within 1e-9
    of [m]. *)
Lemma div_core (mr m my k mz kz sh q dq d0 : Z) :
  In mr rates_Z ->
  2 ^ 52 <= m < 2 ^ 53 -> 2 ^ 52 <= my < 2 ^ 53 ->
  k = 52 \/ k = 53 \/ k = 54 ->
  2 * Z.abs (my * 2 ^ k - m * mr) <= 2 ^ k ->
  (sh = 53 /\ d0 = k - 53) \/ (sh = 52 /\ d0 = 0 /\ k = 52) ->
  q * mr <= my * 2 ^ sh < (q + 1) * mr ->
  2 ^ (dq - 1) <= q < 2 ^ dq ->
  0 <= mz < 2 ^ 53 ->
  kz = Z.max 0 (dq - 53) \/ (kz = Z.max 0 (dq - 53) + 1 /\ mz = 2 ^ 52) ->
  2 * Z.abs (mz * 2 ^ kz * mr - my * 2 ^ sh) <= 2 ^ Z.max 0 (dq - 53) * mr ->
  0 < mz /\ -1 <= d0 + kz <= 2 /\ close_at mz m (d0 + kz).
Proof.
  intros Hin Hm Hmy Hk Hby Hsh Hq Hdq Hmz Hkz Hbz.
  unfold rates_Z, rate_mantissas in Hin. cbn [List.map In] in Hin.
  assert (Hqb : 2 ^ 51 <= q < 2 ^ 54).
  { clear - Hin Hmy Hq Hsh.
    destruct Hsh as [[Hs _]|[Hs _]]; subst sh; pow_consts; lia. }
  pose proof (digits_range dq q 51 54 Hdq Hqb) as Hd.
  assert (Hd' : dq = 52 \/ dq = 53 \/ dq = 54) by lia. clear Hd Hqb.
  unfold close_at.
  destruct Hsh as [[Hs Hd0]|[Hs [Hd0 Hk']]];
    destruct Hk as [Hk|[Hk|Hk]]; subst sh k; try discriminate; subst d0;
    destruct Hd' as [Hd|[Hd|Hd]]; subst dq;
    (destruct Hkz as [Hkz|[Hkz Hc]]; [subst kz|subst kz mz]);
    pow_consts; lia.
Qed.


(** Below the normal range the product keeps every bit that the quotient
    needs: the quotient rounds back to [m]. *)
Lemma sub_core (mr m my k k1 mz kz q dq : Z) :
  2 ^ 52 < mr < 2 ^ 53 ->
  1 <= m < 2 ^ 52 -> 0 <= my < 2 ^ 53 ->
  46 <= k1 <= 52 ->
  k = k1 \/ (k = k1 + 1 /\ my = 2 ^ 52) ->
  2 * Z.abs (my * 2 ^ k - m * mr) <= 2 ^ k1 ->
  q * mr <= my * 2 ^ k < (q + 1) * mr ->
  (q = 0 /\ dq = 0) \/ 2 ^ (dq - 1) <= q < 2 ^ dq ->
  0 <= mz < 2 ^ 53 ->
  kz = Z.max 0 (dq - 53) \/ (kz = Z.max 0 (dq - 53) + 1 /\ mz = 2 ^ 52) ->
  2 * Z.abs (mz * 2 ^ kz * mr - my * 2 ^ k) <= 2 ^ Z.max 0 (dq - 53) * mr ->
  0 < my /\ k <= 53 /\ kz = 0 /\ mz = m.
Proof.
  intros Hmr Hm Hmy Hk1 Hk Hby Hq Hdq Hmz Hkz Hbz.
  assert (HT : 0 < 2 ^ k1 <= 2 ^ 52).
  { split; [apply Z.pow_pos_nonneg; lia | apply Z.pow_le_mono_r; lia]. }
  assert (Hpk : 0 < 2 ^ k) by (apply Z.pow_pos_nonneg; lia).
  set (T := 2 ^ k1) in *. clearbody T.
  set (X := my * 2 ^ k) in *.
  assert (HX : 0 < X) by (clear - Hby HT Hmr Hm; pow_consts; nia).
  assert (Hmy0 : 0 < my) by (clear - HX Hpk Hmy; unfold X in HX; nia).
  assert (Hqm : q <= m) by (clear - Hby HT Hmr Hq; pow_consts; nia).
  assert (Hd : dq <= 53).
  { destruct Hdq as [[_ ->]|Hdq]; [lia|].
    pose proof (digits_range dq q (dq - 1) 52 Hdq) as R.
    assert (q < 2 ^ 52) by (clear - Hqm Hm; pow_consts; lia).
    specialize (R (conj (proj1 Hdq) H)). clear - R. lia. }
  assert (Hz : Z.max 0 (dq - 53) = 0) by (clear - Hd; lia).
  rewrite Hz in Hkz, Hbz. clear Hdq Hd Hz.
  change (2 ^ 0) with 1 in Hbz.
  split; [exact Hmy0|]. split; [clear - Hk Hk1; lia|].
  clearbody X. clear Hq Hqm Hk Hpk Hmy Hmy0.
  destruct Hkz as [Hkz|[Hkz Hc]]; [subst kz|subst kz mz]; pow_consts.
  - split; [reflexivity|].
    assert (H1 : Z.abs ((mz - m) * mr) < mr) by lia.
    destruct (Z.eq_dec mz m) as [|Hne]; [assumption|exfalso].
    rewrite Z.abs_mul in H1. assert (1 <= Z.abs (mz - m)) by lia.
    clear - H1 H Hmr. nia.
  - exfalso.
    assert (H1 : Z.abs ((9007199254740992 - m) * mr) < mr) by lia.
    rewrite Z.abs_mul in H1.
    assert (1 <= Z.abs (9007199254740992 - m)) by lia.
    clear - H1 H Hmr. nia.
Qed.

Lemma SFdiv_shift_at (s : bool) (my mr : positive) (ey er : Z)
      (dmy dmr e' sh q dq k1 : Z) :
  dmy = Zdigits2 (Z.pos my) -> dmr = Zdigits2 (Z.pos mr) ->
  e' = Z.min (Z.max (dmy + ey - (dmr + er) - 53) (-1074)) (ey - er) ->
  sh = ey - er - e' ->
  q = Z.pos my * 2 ^ sh / Z.pos mr ->
  dq = Zdigits2 q ->
  k1 = Z.max 0 (Z.max (dq - 53) (-1074 - e')) ->
  exists mz k,
    SFdiv prec emax (S754_finite s my ey) (S754_finite false mr er)
    = sf_make s mz (e' + k) /\
    0 <= mz < 2 ^ 53 /\
    (k = k1 \/ (k = k1 + 1 /\ mz = 2 ^ 52)) /\
    2 * Z.abs (mz * 2 ^ k * Z.pos mr - Z.pos my * 2 ^ sh) <= 2 ^ k1 * Z.pos mr.
Proof.
  intros -> -> -> -> -> -> ->. apply SFdiv_shift.
Qed.

Lemma SFmul_shift_at (s : bool) (m mr : positive) (e er : Z) (dP k1 : Z) :
  dP = Zdigits2 (Z.pos m * Z.pos mr) ->
  k1 = Z.max 0 (Z.max (dP - 53) (-1074 - (e + er))) ->
  exists my k,
    SFmul prec emax (S754_finite s m e) (S754_finite false mr er)
    = sf_make s my (e + er + k) /\
    0 <= my < 2 ^ 53 /\
    (k = k1 \/ (k = k1 + 1 /\ my = 2 ^ 52)) /\
    2 * Z.abs (my * 2 ^ k - Z.pos m * Z.pos mr) <= 2 ^ k1.
Proof.
  intros -> ->. apply SFmul_shift.
Qed.

Lemma rates_Z_bounds (mr : Z) :
  In mr rates_Z -> 2 ^ 52 < mr < 2 ^ 53 /\ Zdigits2 mr = 53.
Proof.
  unfold rates_Z, rate_mantissas. cbn [List.map In].
  intros [<-|[<-|[<-|[<-|[<-|[<-|[]]]]]]]; repeat split.
Qed.

Lemma div_floor (X D : Z) :
  0 < D -> X / D * D <= X < (X / D + 1) * D.
Proof.
  intros HD. pose proof (Z.mul_div_le X D HD).
  pose proof (Z.mul_succ_div_gt X D HD). lia.
Qed.

Lemma Zdigits2_cases (q : Z) :
  0 <= q ->
  (q = 0 /\ Zdigits2 q = 0) \/ 2 ^ (Zdigits2 q - 1) <= q < 2 ^ Zdigits2 q.
Proof.
  intros Hq. destruct (Z.eq_dec q 0) as [->|Hn]; [left; split; reflexivity|].
  right. apply Zdigits2_bounds. lia.
Qed.

Lemma sf_close_refl (s : bool) (m : positive) (e : Z) :
  sf_close (S754_finite s m e) (S754_finite s m e) = true.
Proof.
  unfold sf_close, dyadic. cbv zeta. apply Z.leb_le.
  rewrite Z.min_id, Z.sub_diag, Z.sub_diag. simpl Z.abs at 1. lia.
Qed.

Lemma sf_close_at (s : bool) (ma mb : positive) (ea eb d : Z) :
  ea = eb + d -> close_at (Z.pos ma) (Z.pos mb) d ->
  sf_close (S754_finite s ma ea) (S754_finite s mb eb) = true.
Proof.
  intros He [Hp Hn]. now apply (sf_close_finite s ma mb ea eb d).
Qed.

(** The quotient of the product by the rate, for a normal [x]. *)
Lemma round_trip_normal (s : bool) (m mr : positive) (e : Z) :
  In (Z.pos mr) rates_Z ->
  -1074 <= e -> 2 ^ 52 <= Z.pos m < 2 ^ 53 ->
  let r := S754_finite false mr (-46) in
  let y := SFmul prec emax (S754_finite s m e) r in
  sf_finite y = true ->
  sf_close (SFdiv prec emax y r) (S754_finite s m e) = true.
Proof.
  intros Hin He Hm r y Hfin. unfold y, r in *. clear y r.
  destruct (rates_Z_bounds _ Hin) as [Hmr Hdmr].
  assert (HP : 0 < Z.pos m * Z.pos mr) by lia.
  pose proof (Zdigits2_bounds _ HP) as HdP.
  assert (HdPr : 105 <= Zdigits2 (Z.pos m * Z.pos mr)).
  { apply (digits_range _ (Z.pos m * Z.pos mr) 104 107 HdP).
    pow_consts. nia. }
  destruct (SFmul_shift_at s m mr e (-46) _ _ eq_refl eq_refl)
    as (my & k & Ey & Hmy & Hk & Hby).
  set (dP := Zdigits2 (Z.pos m * Z.pos mr)) in *. clearbody dP.
  assert (Hz : Z.max 0 (Z.max (dP - 53) (-1074 - (e + -46))) = dP - 53)
    by (clear - He HdPr; lia).
  rewrite Hz in Hk, Hby. clear Hz.
  destruct (mul_core _ _ _ _ _ Hin Hm Hmy HdP Hk Hby) as (Hmy52 & Hk3 & Hby').
  clear Hk Hby HdP HdPr HP. rewrite Ey in Hfin |- *.
  assert (Hmy0 : 0 < my) by (clear - Hmy52; pow_consts; lia).
  pose proof (sf_make_finite_inv s my _ Hmy0 Hfin) as Hey.
  destruct (sf_make_finite s my (e + -46 + k) Hmy0 Hey)
    as (pmy & Epmy & Emk).
  rewrite Emk. clear Emk Ey Hfin.
  assert (Hdmy : Zdigits2 (Z.pos pmy) = 53)
    by (rewrite <- Epmy; apply Zdigits2_eq; [exact (conj Hmy52 (proj2 Hmy))|lia]).
  set (e' := Z.min (Z.max (53 + (e + -46 + k) - (53 + -46) - 53) (-1074))
               (e + -46 + k - -46)).
  set (sh := e + -46 + k - -46 - e').
  assert (Hsh : (sh = 53 /\ e' - e = k - 53) \/ (sh = 52 /\ e' - e = 0 /\ k = 52))
    by (clear - He Hk3; unfold sh, e'; lia).
  assert (He' : -1074 <= e') by (clear - He Hk3; unfold e'; lia).
  destruct (SFdiv_shift_at s pmy mr (e + -46 + k) (-46) 53 53 e' sh _ _ _
              (eq_sym Hdmy) (eq_sym Hdmr) eq_refl eq_refl eq_refl eq_refl eq_refl)
    as (mz & kz & Ez & Hmz & Hkz & Hbz).
  rewrite Ez. clear Ez. rewrite <- Epmy in *.
  assert (HX : 0 <= my * 2 ^ sh).
  { clear - Hsh Hmy0. destruct Hsh as [[-> _]|[-> _]]; pow_consts; lia. }
  pose proof (div_floor (my * 2 ^ sh) (Z.pos mr) ltac:(lia)) as Hq.
  assert (Hq0 : 0 < my * 2 ^ sh / Z.pos mr).
  { apply Z.div_str_pos. clear - Hsh Hmy52 Hmr.
    destruct Hsh as [[-> _]|[-> _]]; pow_consts; lia. }
  pose proof (Zdigits2_bounds _ Hq0) as Hdq.
  set (q := my * 2 ^ sh / Z.pos mr) in *. clearbody q.
  set (dq := Zdigits2 q) in *. clearbody dq.
  assert (Hz : Z.max 0 (Z.max (dq - 53) (-1074 - e')) = Z.max 0 (dq - 53))
    by (clear - He'; lia).
  rewrite Hz in Hkz, Hbz. clear Hz.
  clearbody sh.
  destruct (div_core (Z.pos mr) (Z.pos m) my k mz kz sh q dq (e' - e))
    as (Hmzpos & Hd & Hclose); try assumption.
  { lia. }
  assert (Hez : e' + kz <= 971) by (clear - Hd Hey Hk3; lia).
  destruct (sf_make_finite s mz (e' + kz) Hmzpos Hez) as (pz & Epz & Emk).
  rewrite Emk. rewrite Epz in Hclose.
  apply (sf_close_at s pz m (e' + kz) e (e' - e + kz));
    [clear; lia|exact Hclose].
Qed.


Lemma sub_mul (mr m my k k1 : Z) :
  2 ^ 52 < mr < 2 ^ 53 ->
  1 <= m < 2 ^ 52 -> 0 <= my < 2 ^ 53 ->
  46 <= k1 <= 52 ->
  k = k1 \/ (k = k1 + 1 /\ my = 2 ^ 52) ->
  2 * Z.abs (my * 2 ^ k - m * mr) <= 2 ^ k1 ->
  0 < my /\ 46 <= k <= 53.
Proof.
  intros Hmr Hm Hmy Hk1 Hk Hby.
  assert (HT : 0 < 2 ^ k1 <= 2 ^ 52).
  { split; [apply Z.pow_pos_nonneg; lia | apply Z.pow_le_mono_r; lia]. }
  assert (Hpk : 0 < 2 ^ k) by (apply Z.pow_pos_nonneg; lia).
  set (T := 2 ^ k1) in *. clearbody T.
  set (X := my * 2 ^ k) in *.
  assert (HX : 0 < X) by (clear - Hby HT Hmr Hm; pow_consts; nia).
  split; [clear - HX Hpk Hmy; unfold X in HX; nia | clear - Hk Hk1; lia].
Qed.

(** The quotient of the product by the rate, for a subnormal [x]: the
    very same number. *)
Lemma round_trip_subnormal (s : bool) (m mr : positive) :
  In (Z.pos mr) rates_Z ->
  Z.pos m < 2 ^ 52 ->
  let r := S754_finite false mr (-46) in
  let y := SFmul prec emax (S754_finite s m (-1074)) r in
  SFdiv prec emax y r = S754_finite s m (-1074).
Proof.
  intros Hin Hm r y. unfold y, r in *. clear y r.
  destruct (rates_Z_bounds _ Hin) as [Hmr Hdmr].
  assert (HP : 0 < Z.pos m * Z.pos mr) by lia.
  pose proof (Zdigits2_bounds _ HP) as HdP.
  assert (HdPr : 53 <= Zdigits2 (Z.pos m * Z.pos mr) <= 105).
  { apply (digits_range _ (Z.pos m * Z.pos mr) 52 105 HdP).
    pow_consts. nia. }
  destruct (SFmul_shift_at s m mr (-1074) (-46) _ _ eq_refl eq_refl)
    as (my & k & Ey & Hmy & Hk & Hby).
  set (dP := Zdigits2 (Z.pos m * Z.pos mr)) in *. clearbody dP.
  set (k1 := Z.max 0 (Z.max (dP - 53) (-1074 - (-1074 + -46)))) in *.
  assert (Hk1 : 46 <= k1 <= 52) by (clear - HdPr; unfold k1; lia).
  clearbody k1.
  destruct (sub_mul (Z.pos mr) (Z.pos m) my k k1 Hmr ltac:(lia) Hmy Hk1 Hk Hby)
    as [Hmy0 Hk53].
  rewrite Ey.
  destruct (sf_make_finite s my (-1074 + -46 + k) Hmy0 ltac:(lia))
    as (pmy & Epmy & Emk).
  rewrite Emk. clear Emk Ey.
  assert (Hdmy : Zdigits2 (Z.pos pmy) <= 53)
    by (rewrite <- Epmy; apply Zdigits2_le; lia).
  pose proof (Zdigits2_nonneg (Z.pos pmy)) as Hdmy0.
  set (dmy := Zdigits2 (Z.pos pmy)) in *.
  assert (He' : -1074 = Z.min (Z.max (dmy + (-1074 + -46 + k) - (53 + -46) - 53)
                                 (-1074))
                          (-1074 + -46 + k - -46))
    by (clear - Hdmy Hk53; lia).
  assert (Hsh : k = -1074 + -46 + k - -46 - -1074) by (clear; lia).
  destruct (SFdiv_shift_at s pmy mr (-1074 + -46 + k) (-46) dmy 53 (-1074) k
              _ _ _ eq_refl (eq_sym Hdmr) He' Hsh eq_refl eq_refl eq_refl)
    as (mz & kz & Ez & Hmz & Hkz & Hbz).
  rewrite Ez. clear Ez He' Hsh. rewrite <- Epmy in *.
  assert (Hpk : 0 < 2 ^ k) by (apply Z.pow_pos_nonneg; lia).
  assert (HX : 0 <= my * 2 ^ k) by (clear - Hmy0 Hpk; nia).
  pose proof (div_floor (my * 2 ^ k) (Z.pos mr) ltac:(lia)) as Hq.
  assert (Hq0 : 0 <= my * 2 ^ k / Z.pos mr) by (apply Z.div_pos; lia).
  pose proof (Zdigits2_cases _ Hq0) as Hdq.
  set (q := my * 2 ^ k / Z.pos mr) in *. clearbody q.
  set (dq := Zdigits2 q) in *. clearbody dq.
  change (-1074 - -1074) with 0 in Hkz, Hbz.
  assert (Hz : Z.max 0 (Z.max (dq - 53) 0) = Z.max 0 (dq - 53)) by (clear; lia).
  rewrite Hz in Hkz, Hbz. clear Hz.
  destruct (sub_core (Z.pos mr) (Z.pos m) my k k1 mz kz q dq)
    as (_ & _ & Hkz0 & Hmz0); try assumption; [lia|].
  subst kz mz. reflexivity.
Qed.

(** A valid finite float is normal (53-bit mantissa) or subnormal
    (exponent -1074). *)
Lemma bounded_inv (m : positive) (e : Z) :
  bounded prec emax m e = true ->
  -1074 <= e /\
  (2 ^ 52 <= Z.pos m < 2 ^ 53 \/ (e = -1074 /\ Z.pos m < 2 ^ 52)).
Proof.
  unfold bounded, canonical_mantissa. rewrite andb_true_iff, Z.eqb_eq, fexp64.
  intros [Hc _]. pose proof (digits2_pos_bounds m) as Hb.
  set (d := Z.pos (digits2_pos m)) in *.
  assert (Hd : d <= 53) by lia.
  assert (Hd0 : 1 <= d) by (unfold d; lia).
  split; [lia|].
  destruct (Z.eq_dec d 53) as [E|E].
  - left. rewrite E in Hb. exact Hb.
  - right. split; [lia|].
    assert (2 ^ d <= 2 ^ 52) by (apply Z.pow_le_mono_r; lia). lia.
Qed.

(** The round trip on the specification of binary64. *)
Lemma round_trip_sf (x : spec_float) (mr : positive) :
  valid_binary x = true -> sf_finite x = true ->
  In (Z.pos mr) rates_Z ->
  let r := S754_finite false mr (-46) in
  sf_finite (SFmul prec emax x r) = true ->
  sf_close (SFdiv prec emax (SFmul prec emax x r) r) x = true.
Proof.
  intros Hv Hf Hin r Hy. destruct x as [s|s| |s m e]; try discriminate.
  - reflexivity.
  - cbn [valid_binary] in Hv.
    destruct (bounded_inv m e Hv) as [He [Hm|[-> Hm]]].
    + now apply round_trip_normal.
    + unfold r. rewrite round_trip_subnormal by assumption.
      apply sf_close_refl.
Qed.

(** [is_finite] on a primitive float reads off its specification. *)
Lemma is_finite_sf (f : float) : is_finite f = sf_finite (Prim2SF f).
Proof.
  unfold is_finite, Prim2SF.
  destruct (is_nan f); [reflexivity|]. cbn [orb].
  destruct (is_zero f) eqn:Ez.
  - destruct (is_infinity f) eqn:Ei; [|reflexivity].
    exfalso. unfold is_zero, is_infinity in *.
    rewrite FloatAxioms.eqb_spec in Ez, Ei. rewrite abs_spec in Ei.
    change (Prim2SF zero) with (S754_zero false) in Ez.
    change (Prim2SF infinity) with (S754_infinity false) in Ei.
    destruct (Prim2SF f) as [s|s| |s m e]; cbn in Ez, Ei; try discriminate.
    destruct s; discriminate.
  - destruct (is_infinity f); [reflexivity|].
    destruct (Z.frexp f) as [fr ex].
    destruct (shr_fexp prec emax _ _ _) as [mrs e'].
    destruct (shr_m mrs); reflexivity.
Qed.

(** ** The round trip through rupees *)

Lemma rate_mantissa (y : Z) :
  exists mr, In (Z.pos mr) rates_Z /\
             Prim2SF (rate_for_year y) = S754_finite false mr (-46).
Proof.
  destruct (rate_for_year_cases y) as [H|[H|[H|[H|[H|H]]]]]; rewrite H;
    eexists; (split; [|vm_compute; reflexivity]); cbn; tauto.
Qed.

(** Dividing a finite product by the rate it was multiplied with gives the
    amount back within 1e-9. *)
Lemma round_trip_float (x : float) (y : Z) :
  is_finite x = true ->
  is_finite (x * rate_for_year y) = true ->
  rel_close (x * rate_for_year y / rate_for_year y) x = true.
Proof.
  intros Hx Hp. unfold rel_close.
  destruct (rate_mantissa y) as [mr [Hin Hr]].
  rewrite is_finite_sf in Hx, Hp. rewrite mul_spec, Hr in Hp.
  rewrite div_spec, mul_spec, Hr.
  apply round_trip_sf; try assumption. apply Prim2SF_valid.
Qed.

Lemma number_rate_cell (v : value) :
  exists y, number (rate_cell v) = rate_for_year y.
Proof.
  destruct v; try (exists 0; reflexivity).
  eexists. reflexivity.
Qed.

Lemma Forall_round_trip (P : value * (value * value) -> Prop)
  (f : value * value -> value) (s r : Series) :
  (forall u c, In (u, c) (combine s r) -> P (u, (f (u, c), c))) ->
  Forall P (combine s (combine (List.map f (combine s r)) r)).
Proof.
  revert r. induction s as [|u s IH]; intros [|c r] H; cbn; try constructor.
  - apply H. now left.
  - apply IH. intros u' c' Hin. apply H. now right.
Qed.

Lemma getitem_enriched_sales_usd df r s p si pi ym :
  getitem (enriched df r s p si pi ym) Sales_USD = Ok s.
Proof. unfold enriched. now frame_simpl. Qed.

Lemma getitem_enriched_sales_inr df r s p si pi ym :
  getitem (enriched df r s p si pi ym) Sales_INR = Ok si.
Proof. unfold enriched. now frame_simpl. Qed.

Lemma getitem_enriched_ibr_rate df r s p si pi ym :
  getitem (enriched df r s p si pi ym) IBR_Rate = Ok r.
Proof. unfold enriched. now frame_simpl. Qed.

(** C6, as stated, fails: the order of 1e308 dollars dated 2023 is a
    normalized record with a finite amount, its enriched record has an
    infinite [Sales_INR], and infinity divided by the rate is not within
    1e-9 of 1e308. *)
Lemma round_trip_overflows :
  ~ (forall df out usd inr rate,
       enrich df = Ok out ->
       getitem out Sales_USD = Ok usd ->
       getitem out Sales_INR = Ok inr ->
       getitem out IBR_Rate = Ok rate ->
       Forall (fun t =>
                 is_finite (number (fst t)) = true ->
                 round_trip (fst t) (fst (snd t)) (snd (snd t)) = true)
         (combine usd (combine inr rate))).
Proof.
  intros H.
  specialize (H huge_sales_normalized _ _ _ _ eq_refl eq_refl eq_refl eq_refl).
  apply Forall_inv in H. specialize (H eq_refl).
  vm_compute in H. discriminate.
Qed.

(** C6, as amended. Round trip: for every enriched record produced from a
    normalized record (its [Sales_USD] a finite number) whose [Sales_INR]
    is finite, that is, whose product with the rate did not overflow,
    [Sales_INR / IBR_Rate] equals [Sales_USD] within 1e-9 relative
    floating-point tolerance. *)
Theorem round_trip_within_tolerance (df out : DataFrame) (usd inr rate : Series) :
  enrich df = Ok out ->
  getitem out Sales_USD = Ok usd ->
  getitem out Sales_INR = Ok inr ->
  getitem out IBR_Rate = Ok rate ->
  Forall (fun t =>
            is_finite (number (fst t)) = true ->
            is_finite (number (fst (snd t))) = true ->
            round_trip (fst t) (fst (snd t)) (snd (snd t)) = true)
    (combine usd (combine inr rate)).
Proof.
  intros He Hu Hi Hr.
  destruct (enrich_inv df out He)
    as (d & s & p & r & si & pi & ym & Hd & Hs & Hp & Har & Hsi & Hpi & Hym & ->).
  rewrite getitem_enriched_sales_usd in Hu.
  rewrite getitem_enriched_sales_inr in Hi.
  rewrite getitem_enriched_ibr_rate in Hr.
  inversion Hu; inversion Hi; inversion Hr; subst usd inr rate. clear Hu Hi Hr.
  rewrite (series_mul_product _ _ _ Hsi).
  apply Forall_round_trip. intros u c Hin Hfu Hfi.
  apply in_combine_r in Hin. rewrite (apply_get_ibr_rate _ _ Har) in Hin.
  apply in_map_iff in Hin. destruct Hin as [v [<- _]].
  cbn [fst snd] in *. unfold round_trip.
  destruct (number_rate_cell v) as [y Hy].
  unfold product in *. cbn [fst snd number to_float] in Hfi |- *.
  change (match v with VTimestamp t => rate_for_year (year t) | _ => 83.0%float end)
    with (number (rate_cell v)) in *.
  rewrite Hy in *. now apply round_trip_float.
Qed.

Lemma round_trip_within_tolerance_witness :
  enrich orders_normalized = Ok orders_enriched /\
  round_trip (VFloat 1200.5) (VFloat (1200.5 * 82.5)) (VFloat 82.5) = true.
Proof.
  split; [reflexivity|].
  exact (Forall_inv
           (round_trip_within_tolerance orders_normalized orders_enriched
              _ _ _ eq_refl eq_refl eq_refl eq_refl)
           eq_refl eq_refl).
Defined.

Section Facts.

Variable float_of_str : str -> option float.
Variable parse_datetime : value -> option Timestamp.
Variable float_sum : list float -> float.

(** ** The currency parser *)

(** C4. [clean_currency] returns a number as it is, and on a string it
    returns what it returns on the same string with every dollar sign,
    rupee sign and comma removed. *)
Theorem clean_currency_symbol_free :
  (forall z, clean_currency float_of_str (VInt z) = Ok (VInt z)) /\
  (forall f, clean_currency float_of_str (VFloat f) = Ok (VFloat f)) /\
  (forall s, clean_currency float_of_str (VStr s)
             = clean_currency float_of_str (VStr (without_symbols s))).
Proof.
  split; [reflexivity|]. split; [reflexivity|].
  intros s. unfold clean_currency.
  now rewrite residual_without_symbols.
Qed.



(** ** The normalization steps *)

Lemma normalize_unfold df c s p d :
  getitem (strip_columns df) Category = Ok c ->
  getitem (strip_columns df) Sales_Per = Ok s ->
  getitem (strip_columns df) Profit = Ok p ->
  getitem (strip_columns df) Order_Date = Ok d ->
  normalize float_of_str parse_datetime df =
    (s' <- apply (clean_currency float_of_str) (fillna (VInt 0) s) ;;
     p' <- apply (clean_currency float_of_str) p ;;
     Ok (normalized (strip_columns df)
           (fillna (VStr (pystr "Uncategorized")) c) s' p'
           (to_datetime parse_datetime d))).
Proof.
  intros Hc Hs Hp Hd. unfold normalize. cbv zeta.
  rewrite Hc. cbn [bind].
  rewrite getitem_setitem_other by reflexivity. rewrite Hs. cbn [bind].
  rewrite getitem_setitem_same. cbn [bind].
  destruct (apply _ (fillna (VInt 0) s)) as [s'|e]; cbn [bind]; [|reflexivity].
  rewrite setitem_setitem_same.
  rewrite !getitem_setitem_other by reflexivity. rewrite Hp. cbn [bind].
  destruct (apply _ p) as [p'|e]; cbn [bind]; [|reflexivity].
  rewrite !getitem_setitem_other by reflexivity. rewrite Hd. cbn [bind].
  unfold dropna. rewrite getitem_setitem_same. cbn [bind].
  reflexivity.
Qed.

Lemma normalize_inv df out :
  normalize float_of_str parse_datetime df = Ok out ->
  exists c s p d s' p',
    getitem (strip_columns df) Category = Ok c /\
    getitem (strip_columns df) Sales_Per = Ok s /\
    getitem (strip_columns df) Profit = Ok p /\
    getitem (strip_columns df) Order_Date = Ok d /\
    apply (clean_currency float_of_str) (fillna (VInt 0) s) = Ok s' /\
    apply (clean_currency float_of_str) p = Ok p' /\
    out = normalized (strip_columns df)
            (fillna (VStr (pystr "Uncategorized")) c) s' p'
            (to_datetime parse_datetime d).
Proof.
  intros H.
  destruct (getitem (strip_columns df) Category) as [c|e] eqn:Hc.
  2:{ unfold normalize in H. cbv zeta in H. rewrite Hc in H. discriminate. }
  destruct (getitem (strip_columns df) Sales_Per) as [s|e] eqn:Hs.
  2:{ unfold normalize in H. cbv zeta in H. rewrite Hc in H. cbn [bind] in H.
      rewrite getitem_setitem_other in H by reflexivity.
      rewrite Hs in H. discriminate. }
  destruct (getitem (strip_columns df) Profit) as [p|e] eqn:Hp.
  2:{ unfold normalize in H. cbv zeta in H. rewrite Hc in H. cbn [bind] in H.
      rewrite getitem_setitem_other in H by reflexivity.
      rewrite Hs in H. cbn [bind] in H.
      rewrite getitem_setitem_same in H. cbn [bind] in H.
      destruct (apply _ (fillna (VInt 0) s)); [|discriminate]. cbn [bind] in H.
      rewrite !getitem_setitem_other in H by reflexivity.
      rewrite Hp in H. discriminate. }
  destruct (getitem (strip_columns df) Order_Date) as [d|e] eqn:Hd.
  2:{ unfold normalize in H. cbv zeta in H. rewrite Hc in H. cbn [bind] in H.
      rewrite getitem_setitem_other in H by reflexivity.
      rewrite Hs in H. cbn [bind] in H.
      rewrite getitem_setitem_same in H. cbn [bind] in H.
      destruct (apply _ (fillna (VInt 0) s)); [|discriminate]. cbn [bind] in H.
      rewrite !getitem_setitem_other in H by reflexivity.
      rewrite Hp in H. cbn [bind] in H.
      destruct (apply _ p); [|discriminate]. cbn [bind] in H.
      rewrite !getitem_setitem_other in H by reflexivity.
      rewrite Hd in H. discriminate. }
  rewrite (normalize_unfold df c s p d Hc Hs Hp Hd) in H.
  apply bind_ok in H. destruct H as [s' [Hs' H]].
  apply bind_ok in H. destruct H as [p' [Hp' H]].
  inversion H. exists c, s, p, d, s', p'. repeat split; assumption.
Qed.

(** ** Failing amounts *)

Lemma clean_currency_raise v e :
  clean_currency float_of_str v = Raise e ->
  invalid_amount float_of_str v /\
  exists r, e = ValueError r /\ float_of_str r = None.
Proof.
  destruct v; simpl; try discriminate.
  destruct (float_of_str (residual s)) eqn:E; [discriminate|].
  intros H. inversion H. eauto.
Qed.

Lemma apply_clean_raise (s : Series) e :
  apply (clean_currency float_of_str) s = Raise e ->
  exists r, e = ValueError r /\ float_of_str r = None.
Proof.
  induction s as [|v s IH]; simpl; [discriminate|].
  destruct (clean_currency float_of_str v) eqn:E; simpl.
  - destruct (apply _ s); simpl; [discriminate|].
    intros H. inversion H. subst. now apply IH.
  - intros H. inversion H. subst.
    now destruct (clean_currency_raise _ _ E).
Qed.

Lemma apply_clean_invalid (s : Series) :
  Exists (invalid_amount float_of_str) s ->
  exists e, apply (clean_currency float_of_str) s = Raise e.
Proof.
  induction 1 as [v s Hv|v s _ [e IH]]; simpl.
  - destruct v; simpl in Hv; try contradiction.
    simpl. rewrite Hv. simpl. eauto.
  - destruct (clean_currency float_of_str v); simpl; [|eauto].
    rewrite IH. simpl. eauto.
Qed.

Lemma fillna_invalid (x : value) (s : Series) :
  Exists (invalid_amount float_of_str) s ->
  Exists (invalid_amount float_of_str) (fillna x s).
Proof.
  induction 1 as [v s Hv|v s _ IH]; simpl.
  - left. destruct v; simpl in Hv; try contradiction. exact Hv.
  - now right.
Qed.

Lemma normalize_raises df c s p :
  getitem (strip_columns df) Category = Ok c ->
  getitem (strip_columns df) Sales_Per = Ok s ->
  getitem (strip_columns df) Profit = Ok p ->
  Exists (invalid_amount float_of_str) s \/
  Exists (invalid_amount float_of_str) p ->
  exists r, float_of_str r = None /\
            normalize float_of_str parse_datetime df = Raise (ValueError r).
Proof.
  intros Hc Hs Hp Hbad. unfold normalize. cbv zeta.
  rewrite Hc. cbn [bind].
  rewrite getitem_setitem_other by reflexivity. rewrite Hs. cbn [bind].
  rewrite getitem_setitem_same. cbn [bind].
  destruct (apply _ (fillna (VInt 0) s)) as [s'|e] eqn:Es; cbn [bind].
  - rewrite !getitem_setitem_other by reflexivity. rewrite Hp. cbn [bind].
    destruct Hbad as [Hbad|Hbad].
    + apply (fillna_invalid (VInt 0)) in Hbad.
      apply apply_clean_invalid in Hbad. destruct Hbad as [e He].
      congruence.
    + apply apply_clean_invalid in Hbad. destruct Hbad as [e He].
      rewrite He. cbn [bind].
      destruct (apply_clean_raise _ _ He) as [r [-> Hr]]. eauto.
  - destruct (apply_clean_raise _ _ Es) as [r [-> Hr]]. eauto.
Qed.

(** C2. When the trimmed table has the three columns the parser is
    reached through and some [Sales Per] or [Profit] cell is a string whose
    residual is no float literal, the run shows one widget only, the
    error of the failed conversion: there is no success notice, no preview
    and no dashboard. *)
Theorem invalid_amount_aborts df c s p :
  getitem (strip_columns df) Category = Ok c ->
  getitem (strip_columns df) Sales_Per = Ok s ->
  getitem (strip_columns df) Profit = Ok p ->
  Exists (invalid_amount float_of_str) s \/
  Exists (invalid_amount float_of_str) p ->
  exists r, float_of_str r = None /\
            run float_of_str parse_datetime float_sum df
            = [st_error (ValueError r)].
Proof.
  intros Hc Hs Hp Hbad.
  destruct (normalize_raises df c s p Hc Hs Hp Hbad) as [r [Hr Hn]].
  exists r. split; [exact Hr|].
  unfold run, cleaning_pipeline. now rewrite Hn.
Qed.

(** ** Dates that do not parse *)

Lemma to_datetime_cell_cases v :
  to_datetime_cell parse_datetime v = VNaT \/
  exists t, to_datetime_cell parse_datetime v = VTimestamp t.
Proof.
  unfold to_datetime_cell.
  destruct v; try (destruct (isna _); [now left|]);
    try (destruct (parse_datetime _); [right; eauto | now left]).
  right; eauto.
Qed.


Lemma surviving_dates (d : Series) :
  Forall (fun v => exists t, v = VTimestamp t)
    (select (List.map notna (to_datetime parse_datetime d))
       (to_datetime parse_datetime d)).
Proof.
  rewrite select_self. apply Forall_forall. intros v Hv.
  apply filter_In in Hv. destruct Hv as [Hin Hna].
  unfold to_datetime in Hin. apply in_map_iff in Hin.
  destruct Hin as [w [<- _]].
  destruct (to_datetime_cell_cases w) as [E|[t E]]; rewrite E in *.
  - discriminate.
  - eauto.
Qed.

Lemma getitem_normalized_date df0 c s p d :
  getitem (normalized df0 c s p d) Order_Date
  = Ok (select (List.map notna d) d).
Proof.
  unfold getitem, normalized. simpl. rewrite get_select.
  now rewrite get_set_same.
Qed.


Lemma to_records_length names df records :
  to_records names df = Ok records -> length records = len df.
Proof.
  unfold to_records. intros H. apply bind_ok in H.
  destruct H as [cols [_ H]]. inversion H.
  now rewrite length_map, length_seq.
Qed.

Lemma dashboard_inv df i data :
  dashboard float_sum df = Ok (st_download_button i data) ->
  to_records export_columns df = Ok data.
Proof.
  unfold dashboard. intros H.
  apply bind_ok in H. destruct H as [records [Hr H]].
  apply bind_ok in H. destruct H as [q [_ H]].
  apply bind_ok in H. destruct H as [total [_ H]].
  apply bind_ok in H. destruct H as [items [_ H]].
  apply bind_ok in H. destruct H as [data' [Hj H]].
  unfold json_dumps in Hj. destruct (forallb _ records); [|discriminate].
  inversion Hj. inversion H. congruence.
Qed.

Lemma run_success df n w i data :
  run float_of_str parse_datetime float_sum df
  = [st_success n; st_write w; st_download_button i data] ->
  exists out,
    cleaning_pipeline float_of_str parse_datetime df = Ok out /\
    n = len out /\ w = tail out /\
    dashboard float_sum out = Ok (st_download_button i data).
Proof.
  unfold run. destruct (cleaning_pipeline _ _ df) as [out|e]; [|discriminate].
  intros H. exists out. split; [reflexivity|].
  destruct (dashboard float_sum out) as [w'|e]; inversion H; auto.
Qed.

Lemma invalid_amount_nth (s : Series) (i : nat) :
  invalid_amount float_of_str (nth i s VNone) ->
  Exists (invalid_amount float_of_str) s.
Proof.
  intros H. destruct (Nat.lt_ge_cases i (length s)) as [Hi|Hi].
  - apply Exists_exists. exists (nth i s VNone). split; [|exact H].
    now apply nth_In.
  - rewrite nth_overflow in H by exact Hi. contradiction.
Qed.

(** C10. The amounts are converted before the dates are read: when row
    [i] of the trimmed table holds a string amount that [float] rejects,
    the run shows the conversion error alone even if the date of that very
    row does not parse and the row would have been dropped. *)
Theorem currency_before_dates df c s p d (i : nat) :
  getitem (strip_columns df) Category = Ok c ->
  getitem (strip_columns df) Sales_Per = Ok s ->
  getitem (strip_columns df) Profit = Ok p ->
  getitem (strip_columns df) Order_Date = Ok d ->
  invalid_amount float_of_str (nth i s VNone) \/
  invalid_amount float_of_str (nth i p VNone) ->
  to_datetime_cell parse_datetime (nth i d VNone) = VNaT ->
  exists r, float_of_str r = None /\
            normalize float_of_str parse_datetime df = Raise (ValueError r) /\
            run float_of_str parse_datetime float_sum df
            = [st_error (ValueError r)].
Proof.
  intros Hc Hs Hp _ Hbad _.
  assert (Hex : Exists (invalid_amount float_of_str) s \/
                Exists (invalid_amount float_of_str) p).
  { destruct Hbad as [H|H]; [left|right]; exact (invalid_amount_nth _ _ H). }
  destruct (normalize_raises df c s p Hc Hs Hp Hex) as [r [Hr Hn]].
  exists r. split; [exact Hr|]. split; [exact Hn|].
  unfold run, cleaning_pipeline. now rewrite Hn.
Qed.

(** ** The columns of the cleaned frame *)

Lemma getitem_normalized_profit df0 c s p d :
  getitem (normalized df0 c s p d) Profit = Ok (select (List.map notna d) p).
Proof.
  unfold getitem, normalized. simpl. rewrite get_select.
  rewrite get_set_other by reflexivity. now rewrite get_set_same.
Qed.

Lemma getitem_normalized_sales df0 c s p d :
  getitem (normalized df0 c s p d) Sales_Per
  = Ok (select (List.map notna d) s).
Proof.
  unfold getitem, normalized. simpl. rewrite get_select.
  rewrite !get_set_other by reflexivity. now rewrite get_set_same.
Qed.

Lemma getitem_normalized_other df0 c s p d x :
  str_eqb Order_Date x = false -> str_eqb Profit x = false ->
  str_eqb Sales_Per x = false -> str_eqb Category x = false ->
  getitem (normalized df0 c s p d) x
  = (col <- getitem df0 x ;; Ok (select (List.map notna d) col)).
Proof.
  intros. unfold getitem, normalized. simpl. rewrite get_select.
  now rewrite !get_set_other by assumption.
Qed.

Lemma pipeline_inv df out :
  cleaning_pipeline float_of_str parse_datetime df = Ok out ->
  exists c s p d s' p' ym,
    getitem (strip_columns df) Category = Ok c /\
    getitem (strip_columns df) Sales_Per = Ok s /\
    getitem (strip_columns df) Profit = Ok p /\
    getitem (strip_columns df) Order_Date = Ok d /\
    apply (clean_currency float_of_str) (fillna (VInt 0) s) = Ok s' /\
    apply (clean_currency float_of_str) p = Ok p' /\
    let dts := to_datetime parse_datetime d in
    let mask := List.map notna dts in
    let r := List.map rate_cell (select mask dts) in
    out = enriched
            (normalized (strip_columns df)
               (fillna (VStr (pystr "Uncategorized")) c) s' p' dts)
            r (select mask s') (select mask p')
            (List.map product (combine (select mask s') r))
            (List.map product (combine (select mask p') r)) ym.
Proof.
  unfold cleaning_pipeline. intros H. apply bind_ok in H.
  destruct H as [nf [Hnorm Henr]].
  destruct (normalize_inv _ _ Hnorm)
    as [c [s [p [d [s' [p' [Hc [Hs [Hp [Hd [Hs' [Hp' ->]]]]]]]]]]]].
  destruct (enrich_inv _ _ Henr)
    as [d' [s2 [p2 [r [si [pi [ym [Hd' [Hs2 [Hp2 [Hr [Hsi [Hpi [_ ->]]]]]]]]]]]]]].
  rewrite getitem_normalized_date in Hd'. inversion Hd'. subst d'.
  rewrite getitem_normalized_sales in Hs2. inversion Hs2. subst s2.
  rewrite getitem_normalized_profit in Hp2. inversion Hp2. subst p2.
  apply apply_get_ibr_rate in Hr. subst r.
  apply series_mul_product in Hsi. apply series_mul_product in Hpi. subst si pi.
  exists c, s, p, d, s', p', ym. repeat split; assumption.
Qed.

Lemma Forall_select {A : Type} (P : A -> Prop) (mask : list bool) (l : list A) :
  Forall P l -> Forall P (select mask l).
Proof.
  rewrite !Forall_forall. intros H x Hx. apply H. eapply In_select, Hx.
Qed.

Lemma fillna_amount_ok (s : Series) :
  Forall (amount_ok float_of_str) s ->
  Forall (amount_ok float_of_str) (fillna (VInt 0) s).
Proof.
  intros H. apply Forall_map. eapply Forall_impl; [|exact H].
  intros v Hv. now destruct (isna v).
Qed.

Lemma apply_clean_ok (l : Series) :
  Forall (amount_ok float_of_str) l ->
  exists l', apply (clean_currency float_of_str) l = Ok l' /\
             Forall (fun v => exists f, to_float v = Ok f) l'.
Proof.
  induction 1 as [|v l Hv _ [l' [IH IHf]]]; simpl; [eauto|].
  destruct v; simpl in Hv; try contradiction; simpl.
  - rewrite IH. simpl. eexists. split; [reflexivity|]. constructor; simpl; eauto.
  - destruct (float_of_str (residual s)) as [f|]; [|congruence]. simpl.
    rewrite IH. simpl. eexists. split; [reflexivity|]. constructor; simpl; eauto.
  - rewrite IH. simpl. eexists. split; [reflexivity|]. constructor; simpl; eauto.
  - rewrite IH. simpl. eexists. split; [reflexivity|]. constructor; simpl; eauto.
Qed.

Lemma retained_rows (d : Series) :
  Exists (fun v => to_datetime_cell parse_datetime v <> VNaT) d ->
  select (List.map notna (to_datetime parse_datetime d))
    (to_datetime parse_datetime d) <> [].
Proof.
  intros H. rewrite select_self. apply Exists_exists in H.
  destruct H as [v [Hin Hv]].
  assert (Hf : In (to_datetime_cell parse_datetime v)
                 (filter notna (to_datetime parse_datetime d))).
  { apply filter_In. split; [now apply in_map|].
    destruct (to_datetime_cell_cases v) as [E|[t E]];
      [contradiction | now rewrite E]. }
  intros E. rewrite E in Hf. contradiction.
Qed.

Lemma pipeline_ok df c s p d :
  getitem (strip_columns df) Category = Ok c ->
  getitem (strip_columns df) Sales_Per = Ok s ->
  getitem (strip_columns df) Profit = Ok p ->
  getitem (strip_columns df) Order_Date = Ok d ->
  Forall (amount_ok float_of_str) s ->
  Forall (amount_ok float_of_str) p ->
  Exists (fun v => to_datetime_cell parse_datetime v <> VNaT) d ->
  exists out, cleaning_pipeline float_of_str parse_datetime df = Ok out.
Proof.
  intros Hc Hs Hp Hd Hso Hpo Hrows.
  destruct (apply_clean_ok _ (fillna_amount_ok _ Hso)) as [s' [Hs' Hsf]].
  destruct (apply_clean_ok _ Hpo) as [p' [Hp' Hpf]].
  unfold cleaning_pipeline.
  rewrite (normalize_unfold df c s p d Hc Hs Hp Hd), Hs', Hp'. cbn [bind].
  erewrite enrich_unfold;
    [| apply getitem_normalized_date | apply getitem_normalized_sales
     | apply getitem_normalized_profit].
  rewrite (apply_get_ibr_rate_ok _ (surviving_dates d)). cbn [bind].
  pose proof (retained_rows d Hrows) as Hne.
  set (dts := to_datetime parse_datetime d) in *.
  set (mask := List.map notna dts) in *.
  assert (Hr : List.map rate_cell (select mask dts) <> []).
  { destruct (select mask dts); [congruence | discriminate]. }
  rewrite !(mul_by_applied_rows _ _ Hr).
  destruct (series_mul_ok _ _ (Forall_select _ mask _ Hsf)
              (to_float_rate_cell (select mask dts))) as [si ->].
  destruct (series_mul_ok _ _ (Forall_select _ mask _ Hpf)
              (to_float_rate_cell (select mask dts))) as [pi ->].
  cbn [bind].
  destruct (apply_year_month_ok _ (surviving_dates d)) as [ym Hym].
  fold dts mask in Hym. rewrite Hym. cbn [bind]. eauto.
Qed.

(** ** Row counts *)

Lemma length_select_same {A B : Type} (mask : list bool)
  (l : list A) (l' : list B) :
  length l = length l' -> length (select mask l) = length (select mask l').
Proof.
  revert l l'. induction mask as [|b mask IH]; intros [|x l] [|y l'] H;
    simpl in *; try discriminate; try reflexivity.
  injection H as H. destruct b; simpl; auto.
Qed.


(** ** Missing profit *)


(** ** Normalizing a normalized table *)

Lemma strip_columns_fixed df :
  Forall (fun ns => strip (fst ns) = fst ns) (columns df) ->
  strip_columns df = df.
Proof.
  destruct df as [idx cols]. unfold strip_columns. simpl. intros H. f_equal.
  induction H as [|[n s] cols Hn _ IH]; simpl; [reflexivity|].
  simpl in Hn. now rewrite Hn, IH.
Qed.

Lemma names_strip_columns df :
  Forall (fun ns => strip (fst ns) = fst ns) (columns (strip_columns df)).
Proof.
  unfold strip_columns. simpl. apply Forall_map. apply Forall_forall.
  intros [n s] _. simpl. apply strip_idem.
Qed.

Lemma names_set (c : str) (s : Series) cols :
  strip c = c ->
  Forall (fun ns => strip (fst ns) = fst ns) cols ->
  Forall (fun ns => strip (fst ns) = fst ns) (set c s cols).
Proof.
  intros Hc. induction 1 as [|[n s0] cols Hn Hcols IH]; simpl.
  - constructor; [exact Hc | constructor].
  - destruct (str_eqb n c); constructor; auto.
Qed.

Lemma names_normalized df0 c s p d :
  Forall (fun ns => strip (fst ns) = fst ns) (columns df0) ->
  Forall (fun ns => strip (fst ns) = fst ns) (columns (normalized df0 c s p d)).
Proof.
  intros H. unfold normalized. simpl. apply Forall_map.
  assert (H4 : Forall (fun ns => strip (fst ns) = fst ns)
                 (set Order_Date d
                    (set Profit p (set Sales_Per s (set Category c (columns df0)))))).
  { repeat (apply names_set; [reflexivity|]). exact H. }
  eapply Forall_impl; [|exact H4]. now intros [n col].
Qed.

Lemma getitem_normalized_category df0 c s p d :
  getitem (normalized df0 c s p d) Category
  = Ok (select (List.map notna d) c).
Proof.
  unfold getitem, normalized. simpl. rewrite get_select.
  rewrite !get_set_other by reflexivity. now rewrite get_set_same.
Qed.

Lemma fillna_fixed (x : value) (s : Series) :
  Forall (fun v => isna v = false) s -> fillna x s = s.
Proof.
  induction 1 as [|v s Hv _ IH]; simpl; [reflexivity|].
  now rewrite Hv, IH.
Qed.

Lemma fillna_notna (u : str) (s : Series) :
  Forall (fun v => isna v = false) (fillna (VStr u) s).
Proof.
  apply Forall_map. apply Forall_forall. intros v _.
  destruct (isna v) eqn:E; [reflexivity | exact E].
Qed.

Lemma clean_currency_idem v w :
  clean_currency float_of_str v = Ok w -> clean_currency float_of_str w = Ok w.
Proof.
  destruct v; simpl; intros H; try (inversion H; reflexivity).
  destruct (float_of_str (residual s)); inversion H. reflexivity.
Qed.

Lemma apply_clean_fixed (s t : Series) :
  apply (clean_currency float_of_str) s = Ok t ->
  Forall (fun w => clean_currency float_of_str w = Ok w) t.
Proof.
  intros H. apply apply_Forall2 in H.
  induction H as [|v w s t Hvw _ IH]; constructor; [|exact IH].
  eapply clean_currency_idem, Hvw.
Qed.

Lemma to_datetime_fixed (d : Series) :
  Forall (fun v => exists t, v = VTimestamp t) d ->
  to_datetime parse_datetime d = d.
Proof.
  induction 1 as [|v d [t ->] _ IH]; simpl; [reflexivity|].
  f_equal. exact IH.
Qed.

Lemma notna_timestamps (d : Series) :
  Forall (fun v => exists t, v = VTimestamp t) d ->
  Forall (fun b => b = true) (List.map notna d).
Proof.
  intros H. apply Forall_map. eapply Forall_impl; [|exact H].
  intros v [t ->]. reflexivity.
Qed.

Lemma length_select_self {A : Type} (d : Series) (l : list A) :
  (length (select (List.map notna d) l)
   <= length (select (List.map notna d) d))%nat.
Proof.
  revert l. induction d as [|v d IH]; intros [|x l]; simpl; try lia.
  specialize (IH l). destruct (notna v); simpl; lia.
Qed.

Lemma map_select_all (mask : list bool) (cols : list (str * Series)) :
  Forall (fun b => b = true) mask ->
  Forall (fun ns => (length (snd ns) <= length mask)%nat) cols ->
  List.map (fun '(n, col) => (n, select mask col)) cols = cols.
Proof.
  intros Hm. induction 1 as [|[n col] cols Hc _ IH]; simpl; [reflexivity|].
  simpl in Hc. now rewrite (select_all _ col Hm Hc), IH.
Qed.


Lemma normalized_columns_short df0 c s p d :
  let mask := List.map notna d in
  Forall (fun ns => (length (snd ns) <= length (select mask d))%nat)
    (columns (normalized df0 c s p d)).
Proof.
  intros mask. unfold normalized. simpl. apply Forall_map.
  apply Forall_forall. intros [n col] _. simpl. apply length_select_self.
Qed.

(** C7, as amended. A table the normalization steps produced is left as
    it is by a second pass, provided no [Sales Per] amount of it is
    missing (none read as NaN). *)
Theorem normalize_idempotent df out sp :
  normalize float_of_str parse_datetime df = Ok out ->
  getitem out Sales_Per = Ok sp ->
  Forall (fun v => isna v = false) sp ->
  normalize float_of_str parse_datetime out = Ok out.
Proof.
  intros Hnorm Hsp Hna.
  destruct (normalize_inv _ _ Hnorm)
    as [c [s [p [d [s' [p' [Hc [Hs [Hp [Hd [Hs' [Hp' ->]]]]]]]]]]]].
  set (c1 := fillna (VStr (pystr "Uncategorized")) c) in *.
  set (dts := to_datetime parse_datetime d) in *.
  set (mask := List.map notna dts) in *.
  set (out := normalized (strip_columns df) c1 s' p' dts) in *.
  unfold out in Hsp. rewrite getitem_normalized_sales in Hsp.
  fold mask in Hsp. inversion Hsp. subst sp. clear Hsp.
  assert (Hfix : strip_columns out = out).
  { apply strip_columns_fixed, names_normalized, names_strip_columns. }
  assert (Hdates : Forall (fun v => exists t, v = VTimestamp t) (select mask dts))
    by apply surviving_dates.
  rewrite (normalize_unfold out (select mask c1) (select mask s')
             (select mask p') (select mask dts)).
  2-5: rewrite Hfix.
  2: apply getitem_normalized_category.
  2: apply getitem_normalized_sales.
  2: apply getitem_normalized_profit.
  2: apply getitem_normalized_date.
  rewrite (fillna_fixed _ _ Hna).
  rewrite (apply_fixed _ _ (Forall_select _ mask _ (apply_clean_fixed _ _ Hs'))).
  cbn [bind].
  rewrite (apply_fixed _ _ (Forall_select _ mask _ (apply_clean_fixed _ _ Hp'))).
  cbn [bind].
  rewrite (fillna_fixed _ (select mask c1))
    by (apply Forall_select, fillna_notna).
  rewrite (to_datetime_fixed _ Hdates). rewrite Hfix.
  f_equal. unfold normalized at 1. cbv zeta.
  rewrite (set_get_same Category (select mask c1) (columns out))
    by apply getitem_normalized_category.
  rewrite (set_get_same Sales_Per (select mask s') (columns out))
    by apply getitem_normalized_sales.
  rewrite (set_get_same Profit (select mask p') (columns out))
    by apply getitem_normalized_profit.
  rewrite (set_get_same Order_Date (select mask dts) (columns out))
    by apply getitem_normalized_date.
  set (mask2 := List.map notna (select mask dts)).
  assert (Hm2 : Forall (fun b => b = true) mask2)
    by apply notna_timestamps, Hdates.
  rewrite (map_select_all mask2 (columns out) Hm2).
  2:{ unfold mask2. rewrite length_map. apply normalized_columns_short. }
  rewrite (select_all mask2 (index out) Hm2).
  2:{ unfold mask2. rewrite length_map. unfold out, normalized. simpl.
      apply length_select_self. }
  reflexivity.
Qed.

(** ** What the run reports *)

Lemma dashboard_items df i data :
  dashboard float_sum df = Ok (st_download_button i data) ->
  exists q, getitem df Quantity = Ok q /\ series_sum float_sum q = Ok i.
Proof.
  unfold dashboard. intros H.
  apply bind_ok in H. destruct H as [records [Hr H]].
  apply bind_ok in H. destruct H as [q [Hq H]].
  apply bind_ok in H. destruct H as [total [Ht H]].
  apply bind_ok in H. destruct H as [items [Hi H]].
  apply bind_ok in H. destruct H as [data' [Hj H]].
  inversion H. subst.
  exists q. split; [exact Hq|].
  destruct total; simpl in Hi; try discriminate Hi;
    inversion Hi; subst; exact Ht.
Qed.

(** C8, as amended. When the run ends with the dashboard it reports the
    number of rows retained, which is the number of exported records, and
    embeds the records of the enriched frame on the twelve export columns
    together with the sum of [Quantity] over the retained rows; neither the
    number of input rows, nor the number of dropped rows, nor a count of
    distinct orders is part of what it shows. *)
Theorem run_reports df n w i data :
  run float_of_str parse_datetime float_sum df
  = [st_success n; st_write w; st_download_button i data] ->
  exists out d q0,
    cleaning_pipeline float_of_str parse_datetime df = Ok out /\
    n = len out /\
    w = tail out /\
    to_records export_columns out = Ok data /\
    length data = n /\
    getitem (strip_columns df) Order_Date = Ok d /\
    getitem (strip_columns df) Quantity = Ok q0 /\
    let retained := List.map notna (to_datetime parse_datetime d) in
    index out = select retained (index df) /\
    getitem out Quantity = Ok (select retained q0) /\
    series_sum float_sum (select retained q0) = Ok i.
Proof.
  intros Hrun.
  destruct (run_success _ _ _ _ _ Hrun) as [out [Hp [Hn [Hw Hd]]]].
  destruct (dashboard_items _ _ _ Hd) as [q [Hq Hsum]].
  apply dashboard_inv in Hd.
  destruct (pipeline_inv _ _ Hp)
    as [c [s [p [d [s' [p' [ym [Hc [Hs [Hpr [Hdt [Hs' [Hp' Hshape]]]]]]]]]]]]].
  cbv zeta in Hshape.
  rewrite Hshape in Hq.
  rewrite getitem_enriched_other in Hq by reflexivity.
  rewrite getitem_normalized_other in Hq by reflexivity.
  destruct (getitem (strip_columns df) Quantity) as [q0|e] eqn:Hq0;
    [|discriminate].
  cbn [bind] in Hq. inversion Hq. subst q.
  exists out, d, q0.
  split; [exact Hp|]. split; [exact Hn|]. split; [exact Hw|].
  split; [exact Hd|]. split.
  { rewrite Hn. eapply to_records_length, Hd. }
  split; [exact Hdt|]. split; [reflexivity|].
  cbv zeta. split; [now rewrite Hshape|]. split; [|exact Hsum].
  rewrite Hshape.
  rewrite getitem_enriched_other by reflexivity.
  rewrite getitem_normalized_other by reflexivity.
  now rewrite Hq0.
Qed.
(** ** Further properties of the currency parser *)

Lemma lstrip_spaces_app (a t : str) :
  forallb isspace a = true -> lstrip (a ++ t) = lstrip t.
Proof.
  induction a as [|c a IH]; simpl; [reflexivity|].
  intros H. apply andb_true_iff in H. destruct H as [Hc Ha].
  rewrite Hc. now apply IH.
Qed.

Lemma forallb_rev {A : Type} (p : A -> bool) (l : list A) :
  forallb p (rev l) = forallb p l.
Proof.
  induction l as [|x l IH]; simpl; [reflexivity|].
  rewrite forallb_app, IH. simpl. rewrite andb_true_r. apply andb_comm.
Qed.

Lemma rstrip_app_spaces (t b : str) :
  forallb isspace b = true -> rstrip (t ++ b) = rstrip t.
Proof.
  intros H. unfold rstrip. rewrite rev_app_distr.
  rewrite lstrip_spaces_app; [reflexivity|]. now rewrite forallb_rev.
Qed.

Lemma strip_app_spaces (t b : str) :
  forallb isspace b = true -> strip (t ++ b) = strip t.
Proof.
  intros H. unfold strip. induction t as [|c t IH]; simpl.
  - rewrite <- (app_nil_r b), lstrip_spaces_app by exact H. reflexivity.
  - destruct (isspace c); [exact IH|].
    change (c :: t ++ b) with ((c :: t) ++ b). now apply rstrip_app_spaces.
Qed.

Lemma strip_spaces_app (a t : str) :
  forallb isspace a = true -> strip (a ++ t) = strip t.
Proof.
  intros H. unfold strip. now rewrite lstrip_spaces_app.
Qed.

Lemma without_symbols_padding (a : str) :
  forallb padding a = true -> forallb isspace (without_symbols a) = true.
Proof.
  unfold without_symbols. induction a as [|c a IH]; simpl; [reflexivity|].
  intros H. apply andb_true_iff in H. destruct H as [Hc Ha].
  unfold padding in Hc.
  destruct (c =? dollar)%N, (c =? rupee)%N, (c =? comma)%N; simpl;
    try (now apply IH).
  rewrite !orb_false_r in Hc. rewrite Hc. now apply IH.
Qed.

Lemma residual_padding (a s b : str) :
  forallb padding a = true -> forallb padding b = true ->
  residual (a ++ s ++ b) = residual s.
Proof.
  intros Ha Hb. unfold residual. rewrite !replace_chain_filter.
  unfold without_symbols. rewrite !filter_app.
  fold (without_symbols a) (without_symbols s) (without_symbols b).
  rewrite strip_spaces_app by now apply without_symbols_padding.
  apply strip_app_spaces. now apply without_symbols_padding.
Qed.

(** X1. Leading and trailing runs of whitespace, currency symbols and commas
    do not change what [clean_currency] returns on a string: the same
    number, or the same [ValueError]. *)
Theorem clean_currency_ignores_padding (a s b : str) :
  forallb padding a = true -> forallb padding b = true ->
  clean_currency float_of_str (VStr (a ++ s ++ b))
  = clean_currency float_of_str (VStr s).
Proof.
  intros Ha Hb. unfold clean_currency. now rewrite residual_padding.
Qed.

(** X2. A string of nothing but whitespace, currency symbols and commas (the
    empty string among them) reaches [float] as the empty string, which
    [float] rejects: [clean_currency] raises [ValueError]. *)
Theorem clean_currency_rejects_blank (s : str) :
  float_of_str [] = None ->
  forallb padding s = true ->
  clean_currency float_of_str (VStr s) = Raise (ValueError []).
Proof.
  intros He Hs. unfold clean_currency.
  replace (residual s) with (residual []).
  - change (residual []) with (@nil N). now rewrite He.
  - rewrite <- (residual_padding s [] []) by (exact Hs || reflexivity).
    now rewrite !app_nil_r.
Qed.

Lemma get_raise (c : str) cols e : get c cols = Raise e -> e = KeyError [c].
Proof.
  induction cols as [|[n s] cols IH]; simpl; intros H.
  - now inversion H.
  - destruct (str_eqb n c); [discriminate|now apply IH].
Qed.

Lemma has_column_false df c :
  has_column df c = false -> getitem df c = Raise (KeyError [c]).
Proof.
  unfold has_column. destruct (getitem df c) as [s|e] eqn:E; [discriminate|].
  intros _. unfold getitem in E. now rewrite (get_raise _ _ _ E).
Qed.

Lemma has_column_true df c :
  has_column df c = true ->
  getitem df c = Ok (column_or_empty df c).
Proof.
  unfold has_column, column_or_empty.
  destruct (getitem df c); [reflexivity|discriminate].
Qed.

(** X3. When the table lacks one of the four columns the cleaning pipeline
    reads (after the header is trimmed), the page shows one [KeyError] and
    nothing else, naming the first absent column in reading order Category,
    Sales Per, Profit, Order Date; for Profit and Order Date this is so when
    the amounts parsed before the lookup are readable. *)
Theorem missing_column_reported (df : DataFrame) (c : str) :
  find (fun n => negb (has_column (strip_columns df) n)) required_columns
  = Some c ->
  (c = Profit \/ c = Order_Date ->
   Forall (amount_ok float_of_str)
     (column_or_empty (strip_columns df) Sales_Per)) ->
  (c = Order_Date ->
   Forall (amount_ok float_of_str)
     (column_or_empty (strip_columns df) Profit)) ->
  run float_of_str parse_datetime float_sum df = [st_error (KeyError [c])].
Proof.
  intros Hfind Hs Hp. unfold run, cleaning_pipeline, normalize. cbv zeta.
  unfold required_columns in Hfind. cbn [find] in Hfind.
  destruct (has_column (strip_columns df) Category) eqn:Hc; cbn [negb] in Hfind.
  2:{ inversion Hfind. subst c.
      now rewrite (has_column_false _ _ Hc). }
  rewrite (has_column_true _ _ Hc). cbn [bind].
  rewrite getitem_setitem_other by reflexivity.
  destruct (has_column (strip_columns df) Sales_Per) eqn:Hsp;
    cbn [negb] in Hfind.
  2:{ inversion Hfind. subst c.
      now rewrite (has_column_false _ _ Hsp). }
  rewrite (has_column_true _ _ Hsp). cbn [bind].
  rewrite getitem_setitem_same. cbn [bind].
  assert (Hso : Forall (amount_ok float_of_str)
                  (column_or_empty (strip_columns df) Sales_Per)).
  { apply Hs.
    destruct (has_column (strip_columns df) Profit); cbn [negb] in Hfind.
    - destruct (has_column (strip_columns df) Order_Date);
        cbn [negb] in Hfind; [discriminate|]. inversion Hfind. now right.
    - inversion Hfind. now left. }
  destruct (apply_clean_ok _ (fillna_amount_ok _ Hso)) as [s' [Hs' _]].
  rewrite Hs'. cbn [bind].
  rewrite setitem_setitem_same.
  rewrite !getitem_setitem_other by reflexivity.
  destruct (has_column (strip_columns df) Profit) eqn:Hpr;
    cbn [negb] in Hfind.
  2:{ inversion Hfind. subst c.
      now rewrite (has_column_false _ _ Hpr). }
  rewrite (has_column_true _ _ Hpr). cbn [bind].
  destruct (has_column (strip_columns df) Order_Date) eqn:Hd;
    cbn [negb] in Hfind; [discriminate|].
  inversion Hfind. subst c.
  destruct (apply_clean_ok _ (Hp eq_refl)) as [p' [Hp' _]].
  rewrite Hp'. cbn [bind].
  rewrite !getitem_setitem_other by reflexivity.
  now rewrite (has_column_false _ _ Hd).
Qed.
(** ** The shape of the enriched frame *)

Lemma timestamps_of (l : Series) :
  Forall (fun v => exists t, v = VTimestamp t) l ->
  exists ts, l = List.map VTimestamp ts.
Proof.
  induction 1 as [|v l [t ->] _ [ts ->]].
  - now exists [].
  - now exists (t :: ts).
Qed.

Lemma apply_year_month (ts : list Timestamp) (ym : Series) :
  apply year_month_cell (List.map VTimestamp ts) = Ok ym ->
  ym = List.map month_key ts.
Proof.
  revert ym. induction ts as [|t ts IH]; simpl; intros ym H.
  - now inversion H.
  - destruct (apply year_month_cell (List.map VTimestamp ts)) as [u|e];
      [|discriminate].
    simpl in H. inversion H. f_equal. now apply IH.
Qed.

Lemma map_rate_cell (ts : list Timestamp) :
  List.map rate_cell (List.map VTimestamp ts) = List.map rate_of ts.
Proof. now rewrite map_map. Qed.

Lemma pipeline_shape df out :
  cleaning_pipeline float_of_str parse_datetime df = Ok out ->
  exists c s p d s' p' ts,
    getitem (strip_columns df) Category = Ok c /\
    getitem (strip_columns df) Sales_Per = Ok s /\
    getitem (strip_columns df) Profit = Ok p /\
    getitem (strip_columns df) Order_Date = Ok d /\
    apply (clean_currency float_of_str) (fillna (VInt 0) s) = Ok s' /\
    apply (clean_currency float_of_str) p = Ok p' /\
    let dts := to_datetime parse_datetime d in
    let mask := List.map notna dts in
    let r := List.map rate_of ts in
    select mask dts = List.map VTimestamp ts /\
    series_mul (select mask s') r
    = Ok (List.map product (combine (select mask s') r)) /\
    series_mul (select mask p') r
    = Ok (List.map product (combine (select mask p') r)) /\
    out = enriched
            (normalized (strip_columns df)
               (fillna (VStr (pystr "Uncategorized")) c) s' p' dts)
            r (select mask s') (select mask p')
            (List.map product (combine (select mask s') r))
            (List.map product (combine (select mask p') r))
            (List.map month_key ts).
Proof.
  unfold cleaning_pipeline. intros H. apply bind_ok in H.
  destruct H as [nf [Hnorm Henr]].
  destruct (normalize_inv _ _ Hnorm)
    as [c [s [p [d [s' [p' [Hc [Hs [Hp [Hd [Hs' [Hp' ->]]]]]]]]]]]].
  destruct (enrich_inv _ _ Henr)
    as (d' & s2 & p2 & r & si & pi & ym & Hd' & Hs2 & Hp2 & Hr & Hsi & Hpi
        & Hym & ->).
  rewrite getitem_normalized_date in Hd'. inversion Hd'. subst d'.
  rewrite getitem_normalized_sales in Hs2. inversion Hs2. subst s2.
  rewrite getitem_normalized_profit in Hp2. inversion Hp2. subst p2.
  destruct (timestamps_of _ (surviving_dates d)) as [ts Hts].
  rewrite Hts in Hr, Hym.
  apply apply_get_ibr_rate in Hr. rewrite map_rate_cell in Hr. subst r.
  pose proof (series_mul_product _ _ _ Hsi) as Esi.
  pose proof (series_mul_product _ _ _ Hpi) as Epi.
  apply apply_year_month in Hym. subst si pi ym.
  exists c, s, p, d, s', p', ts. cbv zeta. repeat split; assumption.
Qed.

Lemma getitem_enriched_year_month df r s p si pi ym :
  getitem (enriched df r s p si pi ym) YearMonth = Ok ym.
Proof. unfold enriched. now frame_simpl. Qed.

(** X4. In the enriched frame every row's rate and month key are those of
    the row's own date: the [Order Date] column holds timestamps only, and
    [IBR_Rate] and [YearMonth] are [get_ibr_rate] and the [YYYY-MM] key of
    these timestamps, row by row. *)
Theorem rate_and_month_follow_date df out :
  cleaning_pipeline float_of_str parse_datetime df = Ok out ->
  exists ts,
    getitem out Order_Date = Ok (List.map VTimestamp ts) /\
    getitem out IBR_Rate = Ok (List.map rate_of ts) /\
    getitem out YearMonth = Ok (List.map month_key ts).
Proof.
  intros H.
  destruct (pipeline_shape _ _ H)
    as (c & s & p & d & s' & p' & ts & _ & _ & _ & _ & _ & _
        & Hts & _ & _ & ->).
  exists ts. split; [|split].
  - rewrite getitem_enriched_other by reflexivity.
    rewrite getitem_normalized_date. now rewrite Hts.
  - apply getitem_enriched_ibr_rate.
  - apply getitem_enriched_year_month.
Qed.

(** X5. The dollar columns are the cleaned amount columns themselves and the
    rupee columns are their binary64 products with the rate column, row by
    row, whatever the uploaded table held under these six names. *)
Theorem dual_currency_columns df out :
  cleaning_pipeline float_of_str parse_datetime df = Ok out ->
  exists su pu r,
    getitem out Sales_Per = Ok su /\ getitem out Sales_USD = Ok su /\
    getitem out Profit = Ok pu /\ getitem out Profit_USD = Ok pu /\
    getitem out IBR_Rate = Ok r /\
    getitem out Sales_INR = Ok (List.map product (combine su r)) /\
    getitem out Profit_INR = Ok (List.map product (combine pu r)).
Proof.
  intros H.
  destruct (pipeline_shape _ _ H)
    as (c & s & p & d & s' & p' & ts & _ & _ & _ & _ & _ & _
        & Hts & _ & _ & ->).
  do 3 eexists. split; [|split; [|split; [|split; [|split; [|split]]]]].
  - rewrite getitem_enriched_other by reflexivity.
    apply getitem_normalized_sales.
  - apply getitem_enriched_sales_usd.
  - rewrite getitem_enriched_other by reflexivity.
    apply getitem_normalized_profit.
  - apply getitem_enriched_profit_usd.
  - apply getitem_enriched_ibr_rate.
  - apply getitem_enriched_sales_inr.
  - apply getitem_enriched_profit_inr.
Qed.

(** X6. No category is missing in the enriched frame: each cell is a
    category of the uploaded column or the default [Uncategorized]. *)
Theorem category_never_missing df out cat :
  cleaning_pipeline float_of_str parse_datetime df = Ok out ->
  getitem out Category = Ok cat ->
  exists c,
    getitem (strip_columns df) Category = Ok c /\
    Forall (fun v => isna v = false /\
                     (In v c \/ v = VStr (pystr "Uncategorized"))) cat.
Proof.
  intros H Hcat.
  destruct (pipeline_shape _ _ H)
    as (c & s & p & d & s' & p' & ts & Hc & _ & _ & _ & _ & _
        & Hts & _ & _ & ->).
  rewrite getitem_enriched_other in Hcat by reflexivity.
  rewrite getitem_normalized_category in Hcat. inversion Hcat. subst cat.
  exists c. split; [exact Hc|].
  apply Forall_select. apply Forall_map. apply Forall_forall. intros v Hv.
  destruct (isna v) eqn:E.
  - split; [reflexivity | now right].
  - split; [exact E | now left].
Qed.

(** X7. A column the pipeline neither reads nor writes is carried through:
    the enriched frame has it exactly when the upload has it, holding the
    cells of the retained rows in their order. *)
Theorem untouched_columns_kept df out x :
  cleaning_pipeline float_of_str parse_datetime df = Ok out ->
  existsb (str_eqb x) (required_columns ++ derived_columns) = false ->
  exists d,
    getitem (strip_columns df) Order_Date = Ok d /\
    getitem out x
    = (col <- getitem (strip_columns df) x ;;
       Ok (select (List.map notna (to_datetime parse_datetime d)) col)).
Proof.
  intros H Hx.
  destruct (pipeline_shape _ _ H)
    as (c & s & p & d & s' & p' & ts & _ & _ & _ & Hd & _ & _
        & Hts & _ & _ & ->).
  exists d. split; [exact Hd|].
  assert (Hsym : forall n, str_eqb x n = false -> str_eqb n x = false).
  { intros n Hn. destruct (str_eqb n x) eqn:E; [|reflexivity].
    apply str_eqb_eq in E. subst n. now rewrite str_eqb_refl in Hn. }
  cbn [existsb app required_columns derived_columns] in Hx.
  repeat (apply orb_false_iff in Hx; destruct Hx as [? Hx]).
  rewrite getitem_enriched_other by (apply Hsym; assumption).
  apply getitem_normalized_other; apply Hsym; assumption.
Qed.

Lemma strip_columns_idem df :
  strip_columns (strip_columns df) = strip_columns df.
Proof. apply strip_columns_fixed, names_strip_columns. Qed.

(** X8. Padding in the header makes no difference: the page for a table is
    the page for the same table with its column names already trimmed. *)
Theorem headers_trimmed_once df :
  run float_of_str parse_datetime float_sum (strip_columns df)
  = run float_of_str parse_datetime float_sum df.
Proof.
  unfold run, cleaning_pipeline, normalize. cbv zeta.
  now rewrite strip_columns_idem.
Qed.
(** ** Frames stay rectangular *)

Lemma Forall_set (P : str * Series -> Prop) (c : str) (s : Series) cols :
  (forall n, P (n, s)) -> Forall P cols -> Forall P (set c s cols).
Proof.
  intros Hs. induction 1 as [|[n s0] cols Hn Hcols IH]; simpl.
  - constructor; [apply Hs | constructor].
  - destruct (str_eqb n c); constructor; auto.
Qed.

Lemma len_setitem df c s : len (setitem df c s) = len df.
Proof. reflexivity. Qed.

Lemma rectangular_setitem df c s :
  rectangular df -> length s = len df -> rectangular (setitem df c s).
Proof.
  unfold rectangular, setitem, len. simpl. intros H Hs.
  apply Forall_set; [intros n; exact Hs | exact H].
Qed.

Lemma rectangular_normalized df0 c s p d :
  rectangular df0 ->
  length c = len df0 -> length s = len df0 ->
  length p = len df0 -> length d = len df0 ->
  rectangular (normalized df0 c s p d).
Proof.
  intros H Hc Hs Hp Hd.
  assert (H4 : rectangular
                 (setitem (setitem (setitem (setitem df0 Category c)
                                      Sales_Per s) Profit p) Order_Date d)).
  { repeat (apply rectangular_setitem; [|assumption]). exact H. }
  unfold rectangular, normalized, len in *. simpl in *.
  apply Forall_map. eapply Forall_impl; [|exact H4].
  intros [n col] Hl. simpl in *. now apply length_select_same.
Qed.

Lemma length_fillna (x : value) (s : Series) : length (fillna x s) = length s.
Proof. apply length_map. Qed.

(** X9. A table with one cell per row in every column stays so through the
    cleaning pipeline: every column of the enriched frame, the six new ones
    included, has exactly one cell per retained row, and the four columns
    read and the six columns written are all there. *)
Theorem pipeline_keeps_rectangular df out :
  rectangular df ->
  cleaning_pipeline float_of_str parse_datetime df = Ok out ->
  rectangular out /\
  forallb (has_column out) (required_columns ++ derived_columns) = true.
Proof.
  intros Hrect H.
  destruct (pipeline_shape _ _ H)
    as (c & s & p & d & s' & p' & ts & Hc & Hs & Hp & Hd & Hs' & Hp'
        & Hts & _ & _ & ->).
  pose proof (rectangular_strip_columns _ Hrect) as Hr0.
  pose proof (rectangular_get _ _ _ Hr0 Hc) as Lc.
  pose proof (rectangular_get _ _ _ Hr0 Hs) as Ls.
  pose proof (rectangular_get _ _ _ Hr0 Hp) as Lp.
  pose proof (rectangular_get _ _ _ Hr0 Hd) as Ld.
  pose proof (apply_length _ _ _ Hs') as Ls'. rewrite length_fillna in Ls'.
  pose proof (apply_length _ _ _ Hp') as Lp'.
  set (dts := to_datetime parse_datetime d) in *.
  set (mask := List.map notna dts) in *.
  assert (Ldts : length dts = len (strip_columns df)).
  { unfold dts, to_datetime. now rewrite length_map. }
  set (nf := normalized (strip_columns df)
               (fillna (VStr (pystr "Uncategorized")) c) s' p' dts).
  assert (Hnf : rectangular nf).
  { apply rectangular_normalized; try assumption.
    - now rewrite length_fillna.
    - congruence.
    - congruence. }
  assert (Ln : len nf = length ts).
  { unfold nf, normalized, len. cbn [index].
    rewrite <- (length_map VTimestamp ts), <- Hts.
    apply length_select_same. unfold len in Ldts. congruence. }
  assert (Lss : length (select mask s') = length ts).
  { rewrite <- (length_map VTimestamp ts), <- Hts.
    apply length_select_same. congruence. }
  assert (Lsp : length (select mask p') = length ts).
  { rewrite <- (length_map VTimestamp ts), <- Hts.
    apply length_select_same. congruence. }
  split.
  - unfold enriched.
    do 6 (apply rectangular_setitem;
          [|rewrite ?len_setitem, ?length_map, ?length_combine, ?length_map;
            lia]).
    exact Hnf.
  - unfold required_columns, derived_columns. cbn [app forallb].
    unfold has_column.
    rewrite getitem_enriched_ibr_rate, getitem_enriched_sales_usd,
      getitem_enriched_profit_usd, getitem_enriched_sales_inr,
      getitem_enriched_profit_inr, getitem_enriched_year_month.
    rewrite !getitem_enriched_other by reflexivity.
    unfold nf.
    rewrite getitem_normalized_category, getitem_normalized_sales,
      getitem_normalized_profit, getitem_normalized_date.
    reflexivity.
Qed.

(** ** The preview *)

Lemma last5_short {A : Type} (l : list A) : (length l <= 5)%nat -> last5 l = l.
Proof.
  intros H. unfold last5. replace (length l - 5)%nat with 0%nat by lia.
  reflexivity.
Qed.

Lemma length_last5 {A : Type} (l : list A) :
  length (last5 l) = Nat.min 5 (length l).
Proof. unfold last5. rewrite length_skipn. lia. Qed.

(** X10. The preview of a rectangular frame is the frame itself when it has
    at most five rows; otherwise it is rectangular with exactly five rows,
    its row labels the last five in their order. *)
Theorem tail_last_rows df :
  rectangular df ->
  rectangular (tail df) /\
  len (tail df) = Nat.min 5 (len df) /\
  ((len df <= 5)%nat -> tail df = df) /\
  index df = firstn (len df - 5) (index df) ++ index (tail df).
Proof.
  intros H. unfold rectangular, tail, len in *. cbn [index columns].
  split; [|split; [|split]].
  - apply Forall_map. eapply Forall_impl; [|exact H].
    intros [n col] Hl. cbn [snd] in *. rewrite !length_last5. congruence.
  - apply length_last5.
  - intros Hle. destruct df as [idx cols]. cbn [index columns] in *.
    f_equal; [now apply last5_short|].
    induction H as [|[n col] cols Hl _ IH]; simpl; [reflexivity|].
    cbn [snd] in Hl. rewrite last5_short by lia. now rewrite IH.
  - unfold last5. now rewrite firstn_skipn.
Qed.

(** ** The export *)

Lemma has_column_enriched_other df r s p si pi ym c :
  existsb (str_eqb c) derived_columns = false ->
  has_column (enriched df r s p si pi ym) c = has_column df c.
Proof.
  intros Hx. unfold has_column.
  assert (Hsym : forall n, str_eqb c n = false -> str_eqb n c = false).
  { intros n Hn. destruct (str_eqb n c) eqn:E; [|reflexivity].
    apply str_eqb_eq in E. subst n. now rewrite str_eqb_refl in Hn. }
  cbn [existsb derived_columns] in Hx.
  repeat (apply orb_false_iff in Hx; destruct Hx as [? Hx]).
  now rewrite getitem_enriched_other by (apply Hsym; assumption).
Qed.

Lemma has_column_normalized_other df0 c s p d x :
  existsb (str_eqb x) required_columns = false ->
  has_column (normalized df0 c s p d) x = has_column df0 x.
Proof.
  intros Hx. unfold has_column.
  assert (Hsym : forall n, str_eqb x n = false -> str_eqb n x = false).
  { intros n Hn. destruct (str_eqb n x) eqn:E; [|reflexivity].
    apply str_eqb_eq in E. subst n. now rewrite str_eqb_refl in Hn. }
  cbn [existsb required_columns] in Hx.
  repeat (apply orb_false_iff in Hx; destruct Hx as [? Hx]).
  rewrite getitem_normalized_other by (apply Hsym; assumption).
  now destruct (getitem df0 x).
Qed.

(** X11. When the cleaning pipeline succeeds but the upload lacks some of
    Segment, State, Quantity, Order ID and Customer ID, the page shows the
    success banner and the preview and then a [KeyError] that names exactly
    the absent ones, in that order; no dashboard is offered. *)
Theorem export_needs_columns df out :
  cleaning_pipeline float_of_str parse_datetime df = Ok out ->
  let missing :=
    filter (fun n => negb (has_column (strip_columns df) n))
      uploaded_export_columns in
  missing <> [] ->
  run float_of_str parse_datetime float_sum df
  = [st_success (len out); st_write (tail out); st_error (KeyError missing)].
Proof.
  intros H missing Hne. unfold run. rewrite H.
  do 2 f_equal.
  destruct (pipeline_shape _ _ H)
    as (c & s & p & d & s' & p' & ts & Hc & Hs & Hp & Hd & Hs' & Hp'
        & Hts & _ & _ & Hout).
  cbv zeta in Hout.
  assert (Hup : forall n, In n uploaded_export_columns ->
                          has_column out n = has_column (strip_columns df) n).
  { intros n Hn. rewrite Hout.
    rewrite has_column_enriched_other, has_column_normalized_other;
      [reflexivity| |];
      cbn in Hn; repeat (destruct Hn as [<-|Hn]; [reflexivity|]);
      contradiction. }
  assert (Hmiss : filter (fun n => negb (has_column out n)) export_columns
                  = missing).
  { unfold missing, export_columns, uploaded_export_columns.
    cbn [filter].
    rewrite (Hup Segment), (Hup State), (Hup Quantity), (Hup Order_ID),
      (Hup Customer_ID) by (cbn; tauto).
    replace (has_column out YearMonth) with true
      by (rewrite Hout; unfold has_column;
          now rewrite getitem_enriched_year_month).
    replace (has_column out Sales_INR) with true
      by (rewrite Hout; unfold has_column;
          now rewrite getitem_enriched_sales_inr).
    replace (has_column out Sales_USD) with true
      by (rewrite Hout; unfold has_column;
          now rewrite getitem_enriched_sales_usd).
    replace (has_column out Profit_INR) with true
      by (rewrite Hout; unfold has_column;
          now rewrite getitem_enriched_profit_inr).
    replace (has_column out Profit_USD) with true
      by (rewrite Hout; unfold has_column;
          now rewrite getitem_enriched_profit_usd).
    replace (has_column out IBR_Rate) with true
      by (rewrite Hout; unfold has_column;
          now rewrite getitem_enriched_ibr_rate).
    replace (has_column out Category) with true
      by (rewrite Hout; unfold has_column;
          rewrite getitem_enriched_other by reflexivity;
          now rewrite getitem_normalized_category).
    reflexivity. }
  unfold dashboard, to_records, gets. rewrite Hmiss.
  destruct missing as [|m ms]; [contradiction|]. reflexivity.
Qed.
(** ** Rates and amounts as numbers *)

(** X12. Whatever [get_ibr_rate] returns is a float between 74.1 and 84.5:
    no rate is zero, infinite or NaN, so a quotient by the rate is always
    defined. *)
Theorem rate_within_bounds (date r : value) :
  get_ibr_rate date = Ok r ->
  exists f, r = VFloat f /\
            (74.1 <=? f)%float = true /\ (f <=? 84.5)%float = true.
Proof.
  intros H.
  assert (Hy : exists y, r = VFloat (rate_for_year y)).
  { destruct date; inversion H; [eexists; reflexivity | now exists 0]. }
  destruct Hy as [y ->]. eexists. split; [reflexivity|].
  destruct (rate_for_year_cases y) as [E|[E|[E|[E|[E|E]]]]]; rewrite E;
    split; reflexivity.
Qed.

Lemma is_nan_sf (f : float) :
  is_nan f = match Prim2SF f with S754_nan => true | _ => false end.
Proof.
  unfold is_nan. rewrite FloatAxioms.eqb_spec. unfold SFeqb.
  destruct (Prim2SF f) eqn:E; try reflexivity;
    now rewrite SFcompare_refl by congruence.
Qed.

Lemma sf_make_not_nan (s : bool) (m e : Z) :
  0 <= m -> sf_make s m e <> S754_nan.
Proof.
  intros Hm. unfold sf_make. destruct m as [|p|p]; try lia; try discriminate.
  destruct (e <=? emax - prec); discriminate.
Qed.

Lemma is_nan_mul_rate (x : float) (y : Z) :
  is_nan (x * rate_for_year y) = is_nan x.
Proof.
  rewrite !is_nan_sf, mul_spec.
  destruct (rate_mantissa y) as [mr [_ ->]].
  destruct (Prim2SF x) as [s|s| |s m e]; try reflexivity.
  destruct (SFmul_spec s m mr e (-46)) as [my [ey [E [Hm _]]]].
  unfold SF64mul. rewrite E.
  pose proof (sf_make_not_nan s my ey (proj1 Hm)) as N.
  destruct (sf_make s my ey); congruence.
Qed.

Lemma Forall_combine_map {A B C : Type} (P : A * C -> Prop) (f : A * B -> C)
  (s : list A) (r : list B) :
  (forall u c, In (u, c) (combine s r) -> P (u, f (u, c))) ->
  Forall P (combine s (List.map f (combine s r))).
Proof.
  revert r. induction s as [|u s IH]; intros [|c r] H; cbn; try constructor.
  - apply H. now left.
  - apply IH. intros u' c' Hin. apply H. now right.
Qed.

Lemma number_rate_of (ts : list Timestamp) (c : value) :
  In c (List.map rate_of ts) -> exists y, number c = rate_for_year y.
Proof.
  intros H. apply in_map_iff in H. destruct H as [t [<- _]].
  now exists (year t).
Qed.

(** X13. NaN neither appears nor disappears in the conversion: in every row
    the rupee amount is NaN exactly when the dollar amount is NaN or
    missing, for sales and for profit. *)
Theorem rupee_nan_iff_dollar_nan df out su si pu pi :
  cleaning_pipeline float_of_str parse_datetime df = Ok out ->
  getitem out Sales_USD = Ok su -> getitem out Sales_INR = Ok si ->
  getitem out Profit_USD = Ok pu -> getitem out Profit_INR = Ok pi ->
  Forall (fun t => is_nan (number (snd t)) = is_nan (number (fst t)))
    (combine su si) /\
  Forall (fun t => is_nan (number (snd t)) = is_nan (number (fst t)))
    (combine pu pi).
Proof.
  intros H Hsu Hsi Hpu Hpi.
  destruct (pipeline_shape _ _ H)
    as (c & s & p & d & s' & p' & ts & _ & _ & _ & _ & _ & _
        & Hts & _ & _ & ->).
  rewrite getitem_enriched_sales_usd in Hsu.
  rewrite getitem_enriched_sales_inr in Hsi.
  rewrite getitem_enriched_profit_usd in Hpu.
  rewrite getitem_enriched_profit_inr in Hpi.
  inversion Hsu; inversion Hsi; inversion Hpu; inversion Hpi.
  split; apply Forall_combine_map; intros u r Hin;
    apply in_combine_r in Hin;
    destruct (number_rate_of ts r Hin) as [y Hy];
    unfold product; cbn [fst snd number to_float];
    fold (number u); fold (number r); rewrite Hy; apply is_nan_mul_rate.
Qed.

Lemma series_mul_floats (a b c : Series) :
  series_mul a b = Ok c -> (length a <= length b)%nat ->
  Forall (fun v => exists f, to_float v = Ok f) a.
Proof.
  revert b c. induction a as [|x a IH]; intros [|y b] c H L;
    simpl in *; try constructor; try lia.
  - unfold mul_cell in H.
    destruct (to_float x) as [fx|e]; [eauto | discriminate].
  - unfold mul_cell in H.
    destruct (to_float x) as [fx|e]; [|discriminate]. simpl in H.
    destruct (to_float y) as [fy|e]; [|discriminate]. simpl in H.
    destruct (series_mul a b) as [t|e] eqn:E; [|discriminate].
    apply (IH b t); [exact E | lia].
Qed.

Lemma clean_filled_cases (s s' : Series) :
  apply (clean_currency float_of_str) (fillna (VInt 0) s) = Ok s' ->
  Forall (fun v => is_number v = true \/ exists t, v = VTimestamp t) s'.
Proof.
  intros H. apply apply_Forall2 in H.
  remember (fillna (VInt 0) s) as l eqn:El. revert s El.
  induction H as [|v w l t Hvw _ IH]; intros s El; [constructor|].
  destruct s as [|x s]; [discriminate|]. simpl in El.
  injection El as Ev El. constructor; [|now apply (IH s)].
  subst v. destruct x; simpl in Hvw; try (inversion Hvw; subst; simpl; eauto).
  - destruct (float_of_str (residual s0)); inversion Hvw. now left.
  - destruct (is_nan f); inversion Hvw; now left.
Qed.

(** X14. In the enriched frame of a rectangular table every [Sales_USD] cell
    is a number: strings were parsed, missing values became 0, and a cell of
    another kind would have stopped the conversion. *)
Theorem sales_are_numbers df out su :
  rectangular df ->
  cleaning_pipeline float_of_str parse_datetime df = Ok out ->
  getitem out Sales_USD = Ok su ->
  forallb is_number su = true.
Proof.
  intros Hrect H Hsu.
  destruct (pipeline_shape _ _ H)
    as (c & s & p & d & s' & p' & ts & _ & Hs & _ & Hd & Hs' & _
        & Hts & Hmul & _ & ->).
  rewrite getitem_enriched_sales_usd in Hsu. inversion Hsu. subst su.
  pose proof (rectangular_strip_columns _ Hrect) as Hr0.
  pose proof (rectangular_get _ _ _ Hr0 Hs) as Ls.
  pose proof (rectangular_get _ _ _ Hr0 Hd) as Ld.
  pose proof (apply_length _ _ _ Hs') as Ls'. rewrite length_fillna in Ls'.
  set (dts := to_datetime parse_datetime d) in *.
  set (mask := List.map notna dts) in *.
  assert (L : length (select mask s') = length (List.map rate_of ts)).
  { rewrite length_map.
    rewrite <- (length_map VTimestamp ts), <- Hts.
    apply length_select_same. unfold dts, to_datetime.
    rewrite length_map. congruence. }
  apply series_mul_floats in Hmul; [|lia].
  pose proof (Forall_select _ mask _ (clean_filled_cases _ _ Hs')) as Hc.
  apply forallb_forall. intros v Hv.
  rewrite Forall_forall in Hmul, Hc.
  destruct (Hc v Hv) as [Hn|[t ->]]; [exact Hn|].
  destruct (Hmul _ Hv) as [f Hf]. discriminate.
Qed.
(** ** Missing sales *)

Lemma zero_mul_rate (y : Z) :
  (float_of_int 0 * rate_for_year y)%float = 0%float.
Proof.
  destruct (rate_for_year_cases y) as [E|[E|[E|[E|[E|E]]]]]; rewrite E;
    reflexivity.
Qed.

Lemma mask_nth (d : Series) (i : nat) :
  to_datetime_cell parse_datetime (nth i d VNone) <> VNaT ->
  nth i (List.map notna (to_datetime parse_datetime d)) false = true.
Proof.
  intros Hdate.
  change false with (notna VNaT). rewrite map_nth.
  unfold to_datetime.
  change VNaT with (to_datetime_cell parse_datetime VNone) at 1.
  rewrite map_nth.
  destruct (to_datetime_cell_cases (nth i d VNone)) as [E|[t E]];
    [contradiction | now rewrite E].
Qed.

(** X15. A row of a rectangular table whose [Sales Per] is missing and whose
    date parses is in the enriched frame under its own label with
    [Sales_USD] 0 and [Sales_INR] 0.0: a missing sale counts as zero in both
    currencies. *)
Theorem missing_sales_is_zero df out s d su si (i : nat) :
  rectangular df ->
  cleaning_pipeline float_of_str parse_datetime df = Ok out ->
  getitem (strip_columns df) Sales_Per = Ok s ->
  getitem (strip_columns df) Order_Date = Ok d ->
  getitem out Sales_USD = Ok su ->
  getitem out Sales_INR = Ok si ->
  (i < len df)%nat ->
  isna (nth i s VNone) = true ->
  to_datetime_cell parse_datetime (nth i d VNone) <> VNaT ->
  In (nth i (index df) 0, (VInt 0, VFloat 0))
    (combine (index out) (combine su si)).
Proof.
  intros Hrect H Hs Hd Hsu Hsi Hi Hna Hdate.
  destruct (pipeline_inv _ _ H)
    as (c0 & s0 & p0 & d0 & s' & p' & ym & Hc0 & Hs0 & Hp0 & Hd0 & Hs' & Hp'
        & Hshape).
  rewrite Hs in Hs0. rewrite Hd in Hd0. inversion Hs0. inversion Hd0.
  subst s0 d0. clear Hs0 Hd0.
  cbv zeta in Hshape.
  set (dts := to_datetime parse_datetime d) in *.
  set (mask := List.map notna dts) in *.
  rewrite Hshape in Hsu, Hsi |- *.
  rewrite getitem_enriched_sales_usd in Hsu.
  rewrite getitem_enriched_sales_inr in Hsi.
  inversion Hsu. inversion Hsi. subst su si. clear Hsu Hsi.
  pose proof (rectangular_strip_columns _ Hrect) as Hr0.
  pose proof (rectangular_get _ _ _ Hr0 Hs) as Ls.
  pose proof (rectangular_get _ _ _ Hr0 Hd) as Ld.
  pose proof (apply_length _ _ _ Hs') as Ls'. rewrite length_fillna in Ls'.
  assert (Ldts : length dts = len df).
  { unfold dts, to_datetime. rewrite length_map. exact Ld. }
  assert (Hcell : nth i s' VNone = VInt 0).
  { pose proof (Forall2_nth_rel _ _ _ i VNone VNone (apply_Forall2 _ _ _ Hs'))
      as F.
    cbv beta in F.
    assert (Hfill : nth i (fillna (VInt 0) s) VNone = VInt 0).
    { unfold fillna.
      rewrite (nth_indep _ VNone
                 ((fun x => if isna x then VInt 0 else x) VNone))
        by (rewrite length_map; unfold len in *; simpl in *; lia).
      rewrite (map_nth (fun x => if isna x then VInt 0 else x) s VNone i).
      now rewrite Hna. }
    rewrite Hfill in F. rewrite length_fillna in F.
    assert (Hil : (i < length s)%nat) by (unfold len in *; simpl in *; lia).
    specialize (F Hil). simpl in F. now inversion F. }
  rewrite index_enriched. unfold normalized. cbn [index].
  rewrite <- (select_map rate_cell), <- select_combine,
    <- (select_map product), <- !select_combine.
  set (SI := List.map product (combine s' (List.map rate_cell dts))).
  assert (HlSI : length SI = len df).
  { unfold SI. rewrite length_map, length_combine, length_map.
    unfold len in *. simpl in *. lia. }
  assert (Hrow : nth i (combine (index (strip_columns df)) (combine s' SI))
                   (0, (VNone, product (VNone, rate_cell VNone)))
                 = (nth i (index df) 0, (VInt 0, VFloat 0))).
  { rewrite combine_nth
      by (rewrite length_combine; unfold len in *; simpl in *; lia).
    rewrite combine_nth by (unfold len in *; simpl in *; lia).
    rewrite Hcell. f_equal. f_equal.
    unfold SI. rewrite map_nth.
    rewrite combine_nth
      by (rewrite length_map; unfold len in *; simpl in *; lia).
    unfold product. cbn [fst snd]. rewrite Hcell.
    destruct (number_rate_cell (nth i dts VNone)) as [y Hy].
    rewrite map_nth, Hy.
    change (number (VInt 0)) with (float_of_int 0).
    now rewrite zero_mul_rate. }
  rewrite <- Hrow. apply select_nth; [|now apply mask_nth].
  rewrite !length_combine. unfold len in *. simpl in *. lia.
Qed.
(** ** When the dashboard is offered *)

Lemma forallb_select {A : Type} (q : A -> bool) (mask : list bool)
  (l : list A) :
  forallb q l = true -> forallb q (select mask l) = true.
Proof.
  rewrite !forallb_forall. intros H x Hx. apply H. eapply In_select, Hx.
Qed.

Lemma filter_none {A : Type} (q : A -> bool) (l : list A) :
  (forall x, In x l -> q x = false) -> filter q l = [].
Proof.
  induction l as [|x l IH]; simpl; intros H; [reflexivity|].
  rewrite (H x) by now left. apply IH. intros y Hy. apply H. now right.
Qed.

Lemma floats_ok (s : Series) :
  forallb summable s = true -> exists fs, floats s = Ok fs.
Proof.
  induction s as [|v s IH]; simpl; [eauto|].
  intros H. apply andb_true_iff in H. destruct H as [Hv Hs].
  destruct (IH Hs) as [fs ->].
  destruct v; try discriminate; simpl; eauto.
Qed.

Lemma strs_summable (s : Series) (xs : list str) :
  strs s = Some xs -> forallb summable s = true -> s = [].
Proof.
  destruct s as [|v s]; [reflexivity|]. simpl.
  destruct v; intros E H; try discriminate E. discriminate H.
Qed.

Lemma series_sum_ok (s : Series) :
  forallb summable s = true ->
  exists v, series_sum float_sum s = Ok v /\ format_thousands v = Ok v.
Proof.
  intros H. unfold series_sum. destruct (ints s) eqn:Ei; [eauto|].
  destruct (strs s) as [xs|] eqn:E.
  - rewrite (strs_summable s xs E H) in Ei. discriminate Ei.
  - destruct (floats_ok s H) as [fs ->]. simpl. eauto.
Qed.

Lemma summable_json (s : Series) :
  forallb summable s = true -> forallb json_cell s = true.
Proof.
  rewrite !forallb_forall. intros H v Hv. specialize (H v Hv).
  now destruct v.
Qed.

Lemma to_float_json (s : Series) :
  Forall (fun v => exists f, to_float v = Ok f) s ->
  forallb json_cell s = true.
Proof.
  intros H. apply forallb_forall. rewrite Forall_forall in H.
  intros v Hv. destruct (H v Hv) as [f Hf]. now destruct v.
Qed.

Lemma fillna_json (u : str) (s : Series) :
  forallb json_cell s = true -> forallb json_cell (fillna (VStr u) s) = true.
Proof.
  rewrite !forallb_forall. intros H v Hv. unfold fillna in Hv.
  apply in_map_iff in Hv. destruct Hv as [w [<- Hw]].
  destruct (isna w); [reflexivity | now apply H].
Qed.

Lemma record_at_json (cols : list (str * Series)) (i : nat) :
  forallb (fun ns => forallb json_cell (snd ns)) cols = true ->
  forallb (fun kv => json_cell (snd kv)) (record_at cols i) = true.
Proof.
  unfold record_at. induction cols as [|[n s] cols IH]; simpl; [reflexivity|].
  intros H. apply andb_true_iff in H. destruct H as [Hs Hc].
  rewrite (IH Hc), andb_true_r.
  destruct (nth_in_or_default i s VNone) as [Hin| ->]; [|reflexivity].
  rewrite forallb_forall in Hs. now apply Hs.
Qed.

Lemma json_dumps_ok (cols : list (str * Series)) (n : nat) :
  forallb (fun ns => forallb json_cell (snd ns)) cols = true ->
  json_dumps (List.map (record_at cols) (seq 0 n))
  = Ok (List.map (record_at cols) (seq 0 n)).
Proof.
  intros H. unfold json_dumps.
  replace (forallb _ (List.map (record_at cols) (seq 0 n))) with true;
    [reflexivity|].
  symmetry. apply forallb_forall. intros r Hr.
  apply in_map_iff in Hr. destruct Hr as [i [<- _]].
  now apply record_at_json.
Qed.

(** X16. A rectangular table that has the nine columns the program uses,
    at least one date that parses, amounts that are numbers, missing or
    readable strings, quantities that are numbers or missing, and no date
    cells in the other exported columns always gets its dashboard: the
    page is the banner with the number of retained rows, the preview and
    the download button with one record per retained row. *)
Theorem run_offers_dashboard df :
  let sdf := strip_columns df in
  rectangular df ->
  forallb (has_column sdf) (required_columns ++ uploaded_export_columns)
  = true ->
  Exists (fun v => to_datetime_cell parse_datetime v <> VNaT)
    (column_or_empty sdf Order_Date) ->
  Forall (amount_ok float_of_str) (column_or_empty sdf Sales_Per) ->
  Forall (amount_ok float_of_str) (column_or_empty sdf Profit) ->
  forallb summable (column_or_empty sdf Quantity) = true ->
  forallb (fun n => forallb json_cell (column_or_empty sdf n))
    [Category; Segment; State; Order_ID; Customer_ID] = true ->
  exists out items data,
    cleaning_pipeline float_of_str parse_datetime df = Ok out /\
    run float_of_str parse_datetime float_sum df
    = [st_success (len out); st_write (tail out);
       st_download_button items data] /\
    length data = len out.
Proof.
  intros sdf Hrect Hcols Hrows Hso Hpo Hq Hjson.
  cbn [app forallb required_columns uploaded_export_columns] in Hcols.
  repeat (apply andb_true_iff in Hcols; destruct Hcols as [? Hcols]).
  cbn [forallb] in Hjson.
  repeat (apply andb_true_iff in Hjson; destruct Hjson as [? Hjson]).
  repeat match goal with
         | Hc : has_column sdf _ = true |- _ => apply has_column_true in Hc
         end.
  destruct (pipeline_ok df _ _ _ _ ltac:(eassumption) ltac:(eassumption)
              ltac:(eassumption) ltac:(eassumption) Hso Hpo Hrows)
    as [out Hout].
  destruct (pipeline_shape _ _ Hout)
    as (c & s & p & d & s' & p' & ts & Hc & Hs & Hp & Hd & Hs' & Hp' & Hts
        & Hms & Hmp & Eout).
  cbv zeta in Hts, Hms, Hmp, Eout. fold sdf in Hc, Hs, Hp, Hd, Eout.
  set (mask := List.map notna (to_datetime parse_datetime d)) in *.
  assert (Other : forall x,
             In x uploaded_export_columns ->
             getitem out x = Ok (select mask (column_or_empty sdf x))).
  { intros x Hx. rewrite Eout.
    unfold uploaded_export_columns in Hx. cbn [In] in Hx.
    repeat (destruct Hx as [<-|Hx];
            [rewrite getitem_enriched_other by reflexivity;
             rewrite getitem_normalized_other by reflexivity;
             match goal with
             | Hg : getitem sdf ?n = Ok _ |- context [getitem sdf ?n] =>
                 rewrite Hg
             end; reflexivity|]).
    contradiction. }
  assert (Hsf : Forall (fun v => exists f, to_float v = Ok f) s').
  { destruct (apply_clean_ok (fillna (VInt 0) s)) as [l [E F]].
    - apply fillna_amount_ok. unfold column_or_empty in Hso.
      now rewrite Hs in Hso.
    - rewrite Hs' in E. inversion E. now subst l. }
  assert (Hpf : Forall (fun v => exists f, to_float v = Ok f) p').
  { destruct (apply_clean_ok p) as [l [E F]].
    - unfold column_or_empty in Hpo. now rewrite Hp in Hpo.
    - rewrite Hp' in E. inversion E. now subst l. }
  assert (G : forall n, In n export_columns ->
                        exists col, getitem out n = Ok col /\
                                    forallb json_cell col = true).
  { intros n Hn. unfold export_columns in Hn. cbn [In] in Hn.
    destruct Hn
      as [<-|[<-|[<-|[<-|[<-|[<-|[<-|[<-|[<-|[<-|[<-|[<-|[]]]]]]]]]]]]].
    - rewrite Eout, getitem_enriched_year_month. eexists. split; [reflexivity|].
      apply forallb_forall. intros v Hv. apply in_map_iff in Hv.
      now destruct Hv as [t [<- _]].
    - rewrite Eout. rewrite getitem_enriched_other by reflexivity.
      rewrite getitem_normalized_category. eexists. split; [reflexivity|].
      apply forallb_select, fillna_json.
      unfold column_or_empty in *. now rewrite Hc in *.
    - rewrite (Other Segment) by (cbn; tauto). eexists. split; [reflexivity|].
      now apply forallb_select.
    - rewrite (Other State) by (cbn; tauto). eexists. split; [reflexivity|].
      now apply forallb_select.
    - rewrite Eout, getitem_enriched_sales_inr. eexists. split; [reflexivity|].
      apply forallb_forall. intros v Hv. apply in_map_iff in Hv.
      now destruct Hv as [t [<- _]].
    - rewrite Eout, getitem_enriched_sales_usd. eexists. split; [reflexivity|].
      now apply forallb_select, to_float_json.
    - rewrite Eout, getitem_enriched_profit_inr. eexists. split; [reflexivity|].
      apply forallb_forall. intros v Hv. apply in_map_iff in Hv.
      now destruct Hv as [t [<- _]].
    - rewrite Eout, getitem_enriched_profit_usd. eexists. split; [reflexivity|].
      now apply forallb_select, to_float_json.
    - rewrite (Other Quantity) by (cbn; tauto). eexists. split; [reflexivity|].
      now apply forallb_select, summable_json.
    - rewrite (Other Order_ID) by (cbn; tauto). eexists. split; [reflexivity|].
      now apply forallb_select.
    - rewrite (Other Customer_ID) by (cbn; tauto). eexists.
      split; [reflexivity|]. now apply forallb_select.
    - rewrite Eout, getitem_enriched_ibr_rate. eexists. split; [reflexivity|].
      apply forallb_forall. intros v Hv. apply in_map_iff in Hv.
      now destruct Hv as [t [<- _]]. }
  assert (Hgets : gets export_columns out
                  = Ok (List.map (fun n => (n, column_or_empty out n))
                          export_columns)).
  { unfold gets.
    replace (filter (fun n => negb (has_column out n)) export_columns)
      with (@nil str); [reflexivity|].
    symmetry. apply filter_none. intros n Hn.
    destruct (G n Hn) as [col [E _]]. unfold has_column. now rewrite E. }
  assert (Hj : forallb (fun ns : str * Series => forallb json_cell (snd ns))
                 (List.map (fun n => (n, column_or_empty out n)) export_columns)
               = true).
  { apply forallb_forall. intros [n col] Hin. apply in_map_iff in Hin.
    destruct Hin as [n' [E Hn']]. inversion E. subst n' col. cbn [snd].
    destruct (G n Hn') as [col [E' J]]. unfold column_or_empty.
    now rewrite E'. }
  destruct (series_sum_ok (select mask (column_or_empty sdf Quantity)))
    as [items [Hitems Hfmt]]; [now apply forallb_select|].
  exists out, items. eexists. split; [exact Hout|]. split.
  - unfold run. rewrite Hout. do 2 f_equal.
    unfold dashboard, to_records. rewrite Hgets. cbn [bind].
    rewrite (Other Quantity) by (cbn; tauto). cbn [bind].
    rewrite Hitems. cbn [bind]. rewrite Hfmt. cbn [bind].
    rewrite (json_dumps_ok _ _ Hj). cbn [bind]. reflexivity.
  - now rewrite length_map, length_seq.
Qed.
(** ** Month keys *)

Lemma pad_digits_acc (w : nat) (z : Z) (acc : str) :
  pad_digits w z acc = pad_digits w z [] ++ acc.
Proof.
  revert z acc. induction w as [|w IH]; intros z acc; simpl; [reflexivity|].
  rewrite (IH _ (_ :: acc)), (IH _ [_]). now rewrite <- app_assoc.
Qed.

Lemma length_pad_digits (w : nat) (z : Z) : length (pad_digits w z []) = w.
Proof.
  revert z. induction w as [|w IH]; intros z; simpl; [reflexivity|].
  rewrite pad_digits_acc, length_app, IH. simpl. lia.
Qed.

Lemma str_eqb_app (u v x y : str) :
  length u = length v ->
  str_eqb (u ++ x) (v ++ y) = str_eqb u v && str_eqb x y.
Proof.
  revert v. induction u as [|a u IH]; intros [|b v] H; simpl in *;
    try discriminate; [reflexivity|].
  injection H as H. rewrite (IH v H). now rewrite andb_assoc.
Qed.

Lemma str_ltb_app (u v x y : str) :
  length u = length v ->
  str_ltb (u ++ x) (v ++ y) = str_ltb u v || (str_eqb u v && str_ltb x y).
Proof.
  revert v. induction u as [|a u IH]; intros [|b v] H; simpl in *;
    try discriminate.
  - now destruct x, y.
  - injection H as H. rewrite (IH v H).
    destruct (a <? b)%N, (a =? b)%N, (str_ltb u v), (str_eqb u v);
      reflexivity.
Qed.

Lemma str_ltb_nil (u : str) : str_ltb u [] = false.
Proof. now destruct u. Qed.

Lemma pad_digits_order (w : nat) (a b : Z) :
  0 <= a < 10 ^ Z.of_nat w -> 0 <= b < 10 ^ Z.of_nat w ->
  str_eqb (pad_digits w a []) (pad_digits w b []) = (a =? b) /\
  str_ltb (pad_digits w a []) (pad_digits w b []) = (a <? b).
Proof.
  revert a b. induction w as [|w IH]; intros a b Ha Hb.
  - simpl in *. assert (a = 0) by lia. assert (b = 0) by lia. now subst.
  - rewrite Nat2Z.inj_succ, Z.pow_succ_r in Ha, Hb by lia.
    cbn [pad_digits].
    rewrite (pad_digits_acc w (a / 10)), (pad_digits_acc w (b / 10)).
    pose proof (Z.div_mod a 10 ltac:(lia)) as Da.
    pose proof (Z.div_mod b 10 ltac:(lia)) as Db.
    pose proof (Z.mod_pos_bound a 10 ltac:(lia)) as Ma.
    pose proof (Z.mod_pos_bound b 10 ltac:(lia)) as Mb.
    destruct (IH (a / 10) (b / 10)) as [E L]; try lia.
    rewrite str_eqb_app, str_ltb_app by now rewrite !length_pad_digits.
    rewrite E, L. cbn [str_eqb str_ltb].
    rewrite andb_true_r, andb_false_r, orb_false_r.
    set (qa := a / 10) in *. set (qb := b / 10) in *.
    set (ra := a mod 10) in *. set (rb := b mod 10) in *.
    clearbody qa qb ra rb. clear IH E L.
    split.
    + destruct (Z.eqb_spec qa qb),
        (N.eqb_spec (Z.to_N (48 + ra)) (Z.to_N (48 + rb))),
        (Z.eqb_spec a b); simpl; try reflexivity; lia.
    + destruct (Z.ltb_spec qa qb), (Z.eqb_spec qa qb),
        (N.ltb_spec (Z.to_N (48 + ra)) (Z.to_N (48 + rb))),
        (Z.ltb_spec a b); simpl; try reflexivity; lia.
Qed.

(** X17. Two dates get the same month key exactly when they fall in the same
    month of the same year, and the string order of the keys is the order of
    the months in time (for four-digit years): sorting the keys sorts the
    trend chronologically. *)
Theorem year_month_order (t1 t2 : Timestamp) :
  0 <= year t1 <= 9999 -> 0 <= year t2 <= 9999 ->
  1 <= month t1 <= 12 -> 1 <= month t2 <= 12 ->
  (year_month t1 = year_month t2 <->
   year t1 = year t2 /\ month t1 = month t2) /\
  str_ltb (year_month t1) (year_month t2)
  = (year t1 <? year t2) || ((year t1 =? year t2) && (month t1 <? month t2)).
Proof.
  intros Hy1 Hy2 Hm1 Hm2.
  destruct (pad_digits_order 4 (year t1) (year t2)) as [Ey Ly];
    [simpl; lia | simpl; lia |].
  destruct (pad_digits_order 2 (month t1) (month t2)) as [Em Lm];
    [simpl; lia | simpl; lia |].
  assert (E : str_eqb (year_month t1) (year_month t2)
              = (year t1 =? year t2) && (month t1 =? month t2)).
  { unfold year_month.
    rewrite str_eqb_app by now rewrite !length_pad_digits.
    rewrite Ey. change (pystr "-") with [45%N]. cbn [app str_eqb].
    now rewrite Em. }
  split.
  - rewrite <- str_eqb_eq, E, andb_true_iff, !Z.eqb_eq. reflexivity.
  - unfold year_month.
    rewrite str_ltb_app by now rewrite !length_pad_digits.
    rewrite Ey, Ly. change (pystr "-") with [45%N]. cbn [app str_ltb].
    now rewrite Lm.
Qed.
(** ** Which amount is reported *)

Lemma clean_not_invalid (v : value) :
  ~ invalid_amount float_of_str v ->
  exists w, clean_currency float_of_str v = Ok w.
Proof.
  destruct v; simpl; eauto.
  intros H. destruct (float_of_str (residual s)); [eauto | contradiction].
Qed.

Lemma apply_clean_readable (l : Series) :
  Forall (fun v => ~ invalid_amount float_of_str v) l ->
  exists l', apply (clean_currency float_of_str) l = Ok l'.
Proof.
  induction 1 as [|v l Hv _ [l' IH]]; simpl; [eauto|].
  destruct (clean_not_invalid v Hv) as [w ->]. rewrite IH. simpl. eauto.
Qed.

Lemma apply_clean_first (good rest : Series) (bad : str) :
  Forall (fun v => ~ invalid_amount float_of_str v) good ->
  float_of_str (residual bad) = None ->
  apply (clean_currency float_of_str) (good ++ VStr bad :: rest)
  = Raise (ValueError (residual bad)).
Proof.
  intros Hg Hb. induction Hg as [|v l Hv _ IH]; simpl.
  - now rewrite Hb.
  - destruct (clean_not_invalid v Hv) as [w ->]. now rewrite IH.
Qed.

Lemma fillna_readable (x : value) (l : Series) :
  ~ invalid_amount float_of_str x ->
  Forall (fun v => ~ invalid_amount float_of_str v) l ->
  Forall (fun v => ~ invalid_amount float_of_str v) (fillna x l).
Proof.
  intros Hx H. apply Forall_map. eapply Forall_impl; [|exact H].
  intros v Hv. now destruct (isna v).
Qed.

Lemma fillna_app (x : value) (a b : Series) :
  fillna x (a ++ b) = fillna x a ++ fillna x b.
Proof. apply map_app. Qed.

(** X18. The amounts are parsed [Sales Per] first and [Profit] second, each
    from the top: when a string cell is unreadable and no cell before it in
    that order is, the page shows the [ValueError] of that very cell, with
    its residual text, and nothing else. *)
Theorem first_unreadable_amount_reported df c s p good bad rest :
  getitem (strip_columns df) Category = Ok c ->
  getitem (strip_columns df) Sales_Per = Ok s ->
  getitem (strip_columns df) Profit = Ok p ->
  s ++ p = good ++ VStr bad :: rest ->
  Forall (fun v => ~ invalid_amount float_of_str v) good ->
  float_of_str (residual bad) = None ->
  run float_of_str parse_datetime float_sum df
  = [st_error (ValueError (residual bad))].
Proof.
  intros Hc Hs Hp Hsplit Hgood Hbad.
  unfold run, cleaning_pipeline, normalize. cbv zeta.
  rewrite Hc. cbn [bind].
  rewrite getitem_setitem_other by reflexivity. rewrite Hs. cbn [bind].
  rewrite getitem_setitem_same. cbn [bind].
  assert (H0 : ~ invalid_amount float_of_str (VInt 0)) by (simpl; tauto).
  apply app_eq_app in Hsplit. destruct Hsplit as [l [[Es El]|[Eg Ep]]].
  - destruct l as [|x l].
    + rewrite app_nil_r in Es. simpl in El. subst s p.
      destruct (apply_clean_readable _ (fillna_readable _ _ H0 Hgood))
        as [s' ->].
      cbn [bind]. rewrite !getitem_setitem_other by reflexivity.
      rewrite Hp. cbn [bind].
      pose proof (apply_clean_first [] rest bad (Forall_nil _) Hbad) as E.
      cbn [app] in E. now rewrite E.
    + simpl in El. injection El as Ex El. subst x s.
      rewrite fillna_app. cbn [fillna List.map isna].
      fold (fillna (VInt 0) l).
      now rewrite (apply_clean_first _ _ bad
                     (fillna_readable _ _ H0 Hgood) Hbad).
  - subst good p. apply Forall_app in Hgood. destruct Hgood as [Hgs Hgl].
    destruct (apply_clean_readable _ (fillna_readable _ _ H0 Hgs))
      as [s' ->].
    cbn [bind]. rewrite !getitem_setitem_other by reflexivity.
    rewrite Hp. cbn [bind].
    now rewrite (apply_clean_first l rest bad Hgl Hbad).
Qed.

(** ** The round trip of the profit *)

(** X19. For every enriched record whose [Profit_USD] is a finite number and
    whose [Profit_INR] is finite, [Profit_INR / IBR_Rate] equals
    [Profit_USD] within 1e-9 relative tolerance. *)
Theorem profit_round_trip (df out : DataFrame) (usd inr rate : Series) :
  enrich df = Ok out ->
  getitem out Profit_USD = Ok usd ->
  getitem out Profit_INR = Ok inr ->
  getitem out IBR_Rate = Ok rate ->
  Forall (fun t =>
            is_finite (number (fst t)) = true ->
            is_finite (number (fst (snd t))) = true ->
            round_trip (fst t) (fst (snd t)) (snd (snd t)) = true)
    (combine usd (combine inr rate)).
Proof.
  intros He Hu Hi Hr.
  destruct (enrich_inv df out He)
    as (d & s & p & r & si & pi & ym & Hd & Hs & Hp & Har & Hsi & Hpi & Hym
        & ->).
  rewrite getitem_enriched_profit_usd in Hu.
  rewrite getitem_enriched_profit_inr in Hi.
  rewrite getitem_enriched_ibr_rate in Hr.
  inversion Hu; inversion Hi; inversion Hr; subst usd inr rate.
  clear Hu Hi Hr.
  rewrite (series_mul_product _ _ _ Hpi).
  apply Forall_round_trip. intros u c Hin Hfu Hfi.
  apply in_combine_r in Hin. rewrite (apply_get_ibr_rate _ _ Har) in Hin.
  apply in_map_iff in Hin. destruct Hin as [v [<- _]].
  cbn [fst snd] in *. unfold round_trip.
  destruct (number_rate_cell v) as [y Hy].
  unfold product in *. cbn [fst snd number to_float] in Hfi |- *.
  fold (number u) in *. fold (number (rate_cell v)) in *.
  rewrite Hy in *. now apply round_trip_float.
Qed.
(** ** The exported records *)

Lemma record_get_record_at (cols : list (str * Series)) (j : nat) (k : str) :
  record_get k (record_at cols j)
  = match get k cols with
    | Ok s => Some (nth j s VNone)
    | Raise _ => None
    end.
Proof.
  unfold record_get, record_at.
  induction cols as [|[n s] cols IH]; simpl; [reflexivity|].
  destruct (str_eqb n k); [reflexivity | exact IH].
Qed.

Lemma get_named (f : str -> Series) (names : list str) (k : str) :
  In k names -> get k (List.map (fun n => (n, f n)) names) = Ok (f k).
Proof.
  induction names as [|n names IH]; simpl; [contradiction|].
  intros H. destruct (str_eqb n k) eqn:E.
  - apply str_eqb_eq in E. now subst n.
  - destruct H as [->|H]; [now rewrite str_eqb_refl in E | now apply IH].
Qed.

Lemma gets_ok (names : list str) df cols :
  gets names df = Ok cols ->
  cols = List.map (fun n => (n, column_or_empty df n)) names.
Proof.
  unfold gets. destruct (filter _ names); [|discriminate].
  intros H. now inversion H.
Qed.

Lemma nth_combine_lt {A B : Type} (a : list A) (b : list B) (j : nat) x y :
  (j < length a)%nat -> (j < length b)%nat ->
  nth j (combine a b) (x, y) = (nth j a x, nth j b y).
Proof.
  revert b j. induction a as [|u a IH]; intros [|v b] [|j] Ha Hb;
    simpl in *; try lia; [reflexivity|].
  apply IH; lia.
Qed.

Lemma nth_product (a b : Series) (j : nat) :
  (j < length a)%nat -> (j < length b)%nat ->
  nth j (List.map product (combine a b)) VNone
  = product (nth j a VNone, nth j b VNone).
Proof.
  intros Ha Hb.
  rewrite (nth_indep _ VNone (product (VNone, VNone)))
    by (rewrite length_map, length_combine; lia).
  rewrite (map_nth product). now rewrite nth_combine_lt by lia.
Qed.

(** X20. In every record a rectangular upload exports, the keys are the
    twelve export columns in their order, and the rupee amounts are the
    binary64 products of that same record's dollar amounts with its
    [IBR_Rate], for sales and for profit: switching the currency of the
    dashboard switches between consistent figures of one row. *)
Theorem exported_records_consistent df n w items data :
  rectangular df ->
  run float_of_str parse_datetime float_sum df
  = [st_success n; st_write w; st_download_button items data] ->
  Forall (fun rec =>
            List.map fst rec = export_columns /\
            exists su pu r,
              record_get Sales_USD rec = Some su /\
              record_get Profit_USD rec = Some pu /\
              record_get IBR_Rate rec = Some r /\
              record_get Sales_INR rec = Some (product (su, r)) /\
              record_get Profit_INR rec = Some (product (pu, r)))
    data.
Proof.
  intros Hrect Hrun.
  destruct (run_success _ _ _ _ _ Hrun) as [out [Hp [_ [_ Hd]]]].
  apply dashboard_inv in Hd. unfold to_records in Hd.
  apply bind_ok in Hd. destruct Hd as [cols [Hcols Hdata]].
  apply gets_ok in Hcols. inversion Hdata. subst data. clear Hdata.
  destruct (pipeline_shape _ _ Hp)
    as (c & s & p & d & s' & p' & ts & Hc & Hs & Hpr & Hd & Hs' & Hp'
        & Hts & _ & _ & Hout).
  cbv zeta in Hts, Hout.
  pose proof (rectangular_strip_columns _ Hrect) as Hr0.
  pose proof (rectangular_get _ _ _ Hr0 Hs) as Ls.
  pose proof (rectangular_get _ _ _ Hr0 Hpr) as Lp.
  pose proof (rectangular_get _ _ _ Hr0 Hd) as Ld.
  pose proof (apply_length _ _ _ Hs') as Ls'. rewrite length_fillna in Ls'.
  pose proof (apply_length _ _ _ Hp') as Lp'.
  set (dts := to_datetime parse_datetime d) in *.
  set (mask := List.map notna dts) in *.
  assert (Ldts : length dts = len (strip_columns df)).
  { unfold dts, to_datetime. now rewrite length_map. }
  assert (Ln : len out = length ts).
  { rewrite Hout. unfold len. rewrite index_enriched.
    unfold normalized. cbn [index].
    rewrite <- (length_map VTimestamp ts), <- Hts.
    apply length_select_same. unfold len in Ldts. congruence. }
  assert (Lss : length (select mask s') = length ts).
  { rewrite <- (length_map VTimestamp ts), <- Hts.
    apply length_select_same. congruence. }
  assert (Lsp : length (select mask p') = length ts).
  { rewrite <- (length_map VTimestamp ts), <- Hts.
    apply length_select_same. congruence. }
  assert (Col : forall k col,
             In k export_columns -> getitem out k = Ok col ->
             forall j, record_get k (record_at cols j)
                       = Some (nth j col VNone)).
  { intros k col Hk Hg j. rewrite record_get_record_at. subst cols.
    rewrite (get_named (column_or_empty out) export_columns k Hk).
    unfold column_or_empty. now rewrite Hg. }
  apply Forall_map. apply Forall_forall. intros j Hj.
  apply in_seq in Hj. split.
  - subst cols. unfold record_at. rewrite !map_map. cbn [fst].
    apply map_id.
  - exists (nth j (select mask s') VNone), (nth j (select mask p') VNone),
      (nth j (List.map rate_of ts) VNone).
    rewrite <- !nth_product by (rewrite ?length_map; lia).
    repeat split; apply Col;
      try (unfold export_columns; cbn [In]; tauto);
      rewrite Hout.
    + apply getitem_enriched_sales_usd.
    + apply getitem_enriched_profit_usd.
    + apply getitem_enriched_ibr_rate.
    + apply getitem_enriched_sales_inr.
    + apply getitem_enriched_profit_inr.
Qed.
(** ** Dates among the amounts *)

Lemma series_mul_error (a b : Series) (e : exn) :
  series_mul a b = Raise e -> e = TypeError.
Proof.
  revert b. induction a as [|x a IH]; intros [|y b]; simpl;
    try discriminate.
  unfold mul_cell.
  destruct (to_float x) as [fx|ex] eqn:Ex; simpl.
  - destruct (to_float y) as [fy|ey] eqn:Ey; simpl.
    + destruct (series_mul a b) as [t|e'] eqn:Et; simpl; [discriminate|].
      intros H. inversion H. subst. now apply (IH b).
    + intros H. inversion H. subst. destruct y; simpl in Ey; congruence.
  - intros H. inversion H. subst. destruct x; simpl in Ex; congruence.
Qed.

Lemma clean_timestamp (l l' : Series) (i : nat) (t : Timestamp) :
  apply (clean_currency float_of_str) l = Ok l' ->
  (i < length l)%nat ->
  nth i l VNone = VTimestamp t -> nth i l' VNone = VTimestamp t.
Proof.
  intros H Hi E.
  pose proof (Forall2_nth_rel _ _ _ i VNone VNone (apply_Forall2 _ _ _ H) Hi)
    as F.
  cbv beta in F. rewrite E in F. simpl in F. now inversion F.
Qed.

(** X21. A date where an amount should be stops the run with a
    [TypeError]: when the strings of the amount columns are readable but
    some row whose date parses holds a [Timestamp] as its [Sales Per] or
    its [Profit], the page of a rectangular table shows that error and
    nothing else. *)
Theorem date_as_amount_is_type_error df c s p d (i : nat) (t : Timestamp) :
  rectangular df ->
  getitem (strip_columns df) Category = Ok c ->
  getitem (strip_columns df) Sales_Per = Ok s ->
  getitem (strip_columns df) Profit = Ok p ->
  getitem (strip_columns df) Order_Date = Ok d ->
  Forall (fun v => ~ invalid_amount float_of_str v) s ->
  Forall (fun v => ~ invalid_amount float_of_str v) p ->
  (i < len df)%nat ->
  to_datetime_cell parse_datetime (nth i d VNone) <> VNaT ->
  nth i s VNone = VTimestamp t \/ nth i p VNone = VTimestamp t ->
  run float_of_str parse_datetime float_sum df = [st_error TypeError].
Proof.
  intros Hrect Hc Hs Hp Hd Hso Hpo Hi Hdate Hcell.
  assert (H0 : ~ invalid_amount float_of_str (VInt 0)) by (simpl; tauto).
  destruct (apply_clean_readable _ (fillna_readable _ _ H0 Hso)) as [s' Hs'].
  destruct (apply_clean_readable _ Hpo) as [p' Hp'].
  pose proof (rectangular_strip_columns _ Hrect) as Hr0.
  pose proof (rectangular_get _ _ _ Hr0 Hs) as Ls.
  pose proof (rectangular_get _ _ _ Hr0 Hp) as Lp.
  pose proof (rectangular_get _ _ _ Hr0 Hd) as Ld.
  pose proof (apply_length _ _ _ Hs') as Ls'. rewrite length_fillna in Ls'.
  pose proof (apply_length _ _ _ Hp') as Lp'.
  assert (Hl : len (strip_columns df) = len df) by reflexivity.
  unfold run, cleaning_pipeline.
  rewrite (normalize_unfold df c s p d Hc Hs Hp Hd), Hs', Hp'. cbn [bind].
  erewrite enrich_unfold;
    [| apply getitem_normalized_date | apply getitem_normalized_sales
     | apply getitem_normalized_profit].
  rewrite (apply_get_ibr_rate_ok _ (surviving_dates d)). cbn [bind].
  assert (Hrows : Exists
                    (fun v => to_datetime_cell parse_datetime v <> VNaT) d).
  { apply Exists_exists. exists (nth i d VNone). split; [|exact Hdate].
    apply nth_In. lia. }
  pose proof (retained_rows d Hrows) as Hne.
  set (dts := to_datetime parse_datetime d) in *.
  set (mask := List.map notna dts) in *.
  assert (Hr : List.map rate_cell (select mask dts) <> []).
  { destruct (select mask dts); [congruence | discriminate]. }
  rewrite !(mul_by_applied_rows _ _ Hr).
  assert (Ldts : length dts = len df).
  { unfold dts, to_datetime. rewrite length_map. congruence. }
  assert (Hm : nth i mask false = true) by now apply mask_nth.
  assert (Lr : forall l : Series,
             length l = len df ->
             (length (select mask l)
              <= length (List.map rate_cell (select mask dts)))%nat).
  { intros l Hl'. rewrite length_map.
    rewrite (length_select_same mask l dts) by congruence. lia. }
  assert (Bad : forall l : Series,
             length l = len df -> nth i l VNone = VTimestamp t ->
             forall si,
               series_mul (select mask l)
                 (List.map rate_cell (select mask dts)) <> Ok si).
  { intros l Hl' E si Hmul.
    apply series_mul_floats in Hmul; [|now apply Lr].
    rewrite Forall_forall in Hmul.
    destruct (Hmul (VTimestamp t)) as [f Hf]; [|discriminate].
    rewrite <- E. apply select_nth; [lia | exact Hm]. }
  assert (Es : nth i s VNone = VTimestamp t ->
               nth i s' VNone = VTimestamp t).
  { intros E. apply (clean_timestamp _ _ i t Hs').
    - rewrite length_fillna. lia.
    - unfold fillna.
      rewrite (nth_indep _ VNone
                 ((fun x => if isna x then VInt 0 else x) VNone))
        by (rewrite length_map; lia).
      rewrite (map_nth (fun x => if isna x then VInt 0 else x)).
      now rewrite E. }
  assert (Ep : nth i p VNone = VTimestamp t ->
               nth i p' VNone = VTimestamp t).
  { intros E. apply (clean_timestamp _ _ i t Hp'); [lia | exact E]. }
  destruct (series_mul (select mask s') _) as [si|e] eqn:Esi; cbn [bind].
  - destruct (series_mul (select mask p') _) as [pi|e] eqn:Epi; cbn [bind].
    + exfalso. destruct Hcell as [E|E].
      * apply (Bad s' ltac:(congruence) (Es E) si Esi).
      * apply (Bad p' ltac:(congruence) (Ep E) pi Epi).
    + now rewrite (series_mul_error _ _ _ Epi).
  - now rewrite (series_mul_error _ _ _ Esi).
Qed.
(** ** Dates among the exported cells *)

(** X22. A date in an exported cell stops the export: when the cleaning
    pipeline succeeds, the twelve export columns are there and the
    quantities add up, but some exported cell of some row is a
    [Timestamp] or [NaT], the page shows the banner and the preview and
    then the [TypeError] of [json.dumps]; no dashboard is offered. *)
Theorem date_in_export_is_type_error df out q k col (j : nat) :
  cleaning_pipeline float_of_str parse_datetime df = Ok out ->
  forallb (has_column out) export_columns = true ->
  getitem out Quantity = Ok q ->
  forallb summable q = true ->
  In k export_columns ->
  getitem out k = Ok col ->
  (j < len out)%nat ->
  json_cell (nth j col VNone) = false ->
  run float_of_str parse_datetime float_sum df
  = [st_success (len out); st_write (tail out); st_error TypeError].
Proof.
  intros Hp Hall Hq Hsum Hk Hcol Hj Hbad.
  unfold run. rewrite Hp. do 2 f_equal.
  unfold dashboard, to_records, gets.
  rewrite (filter_none (fun n => negb (has_column out n)) export_columns).
  2:{ intros n Hn. rewrite forallb_forall in Hall. now rewrite (Hall n Hn). }
  cbn [bind]. rewrite Hq. cbn [bind].
  destruct (series_sum_ok q Hsum) as [items [-> Hfmt]]. cbn [bind].
  rewrite Hfmt. cbn [bind].
  unfold json_dumps.
  set (cols := List.map (fun n => (n, column_or_empty out n)) export_columns).
  destruct (forallb _ (List.map (record_at cols) (seq 0 (len out)))) eqn:E;
    [exfalso | reflexivity].
  rewrite forallb_forall in E.
  assert (Hseq : In j (seq 0 (len out))) by (apply in_seq; lia).
  specialize (E (record_at cols j) (in_map _ _ _ Hseq)).
  rewrite forallb_forall in E.
  specialize (E (k, nth j col VNone)).
  cbn [snd] in E. rewrite Hbad in E.
  assert (Hin : In (k, nth j col VNone) (record_at cols j));
    [|specialize (E Hin); discriminate].
  unfold record_at, cols. rewrite map_map.
  apply in_map_iff. exists k. split; [|exact Hk].
  unfold column_or_empty. now rewrite Hcol.
Qed.
End Facts.


(** ** The reference readers on concrete inputs *)

(** The example of the specification: both spellings read as 1200.5. *)
Example clean_currency_1200_50 :
  clean_currency py_float (VStr (pystr "$1,200.50")) = Ok (VFloat 1200.5%float) /\
  clean_currency py_float (VStr (pystr "1200.50")) = Ok (VFloat 1200.5%float) /\
  clean_currency py_float (VStr (rupee :: pystr " 1,200.50 ")) = Ok (VFloat 1200.5%float).
Proof. repeat split; vm_compute; reflexivity. Qed.

(** The empty string, a word and a lone currency sign are rejected. *)
Example clean_currency_rejects :
  clean_currency py_float (VStr (pystr "")) = Raise (ValueError (pystr "")) /\
  clean_currency py_float (VStr (pystr "abc")) = Raise (ValueError (pystr "abc")) /\
  clean_currency py_float (VStr (pystr "$")) = Raise (ValueError (pystr "")) /\
  clean_currency py_float (VStr (pystr "free")) = Raise (ValueError (pystr "free")).
Proof. repeat split; vm_compute; reflexivity. Qed.

Example py_float_rounds :
  py_float (pystr "0.1") = Some 0.1%float /\
  py_float (pystr "74.1") = Some 74.1%float /\
  py_float (pystr " -1.5E-3 ") = Some (-0.0015)%float /\
  py_float (pystr "1_000.5") = Some 1000.5%float /\
  py_float (pystr "9007199254740993") = Some 9007199254740992%float /\
  py_float (pystr "1e309") = Some infinity /\
  py_float (pystr "NaN") = Some nan /\
  py_float (pystr "1__0") = None /\
  py_float (pystr "1,5") = None.
Proof. repeat split; vm_compute; reflexivity. Qed.

(** ** The scenario of the specification *)

(** C1. On the scenario row the cleaning pipeline normalizes the missing
    category to "Uncategorized" and the two amounts to 100.0 and 20.0, and
    enriches the row with the 2023 rate 82.5, the dollar amounts 100.0 and
    20.0, the rupee amounts 8250.0 and 1650.0 and the month key
    "2023-06". *)
Theorem scenario_pipeline :
  exists n e,
    normalize py_float iso_datetime scenario = Ok n /\
    getitem n Category = Ok [VStr (pystr "Uncategorized")] /\
    getitem n Sales_Per = Ok [VFloat 100.0%float] /\
    getitem n Profit = Ok [VFloat 20.0%float] /\
    enrich n = Ok e /\
    cleaning_pipeline py_float iso_datetime scenario = Ok e /\
    getitem e IBR_Rate = Ok [VFloat 82.5%float] /\
    getitem e Sales_USD = Ok [VFloat 100.0%float] /\
    getitem e Sales_INR = Ok [VFloat 8250.0%float] /\
    getitem e Profit_USD = Ok [VFloat 20.0%float] /\
    getitem e Profit_INR = Ok [VFloat 1650.0%float] /\
    getitem e YearMonth = Ok [VStr (pystr "2023-06")].
Proof.
  eexists. eexists.
  split; [vm_compute; reflexivity|].
  repeat split; vm_compute; reflexivity.
Qed.

(** The scenario row lacks three of the export columns, so the run on it
    alone shows the notice and the preview and then the missing names. *)
Example scenario_run :
  exists w,
    run py_float iso_datetime sum_left scenario
    = [st_success 1; st_write w;
       st_error (KeyError [Segment; State; Customer_ID])].
Proof. eexists. vm_compute. reflexivity. Qed.

(** ** Instances of the general statements *)

Lemma invalid_amount_aborts_witness :
  exists r, py_float r = None /\
            run py_float iso_datetime sum_left free_profit
            = [st_error (ValueError r)].
Proof.
  apply (invalid_amount_aborts py_float iso_datetime sum_left free_profit
           [VStr (pystr "Toys")] [VStr (pystr "$100")] [VStr (pystr "free")]);
    [reflexivity | reflexivity | reflexivity |].
  right. left. vm_compute. reflexivity.
Defined.

Lemma currency_before_dates_witness :
  exists r, py_float r = None /\
            normalize py_float iso_datetime free_profit = Raise (ValueError r) /\
            run py_float iso_datetime sum_left free_profit
            = [st_error (ValueError r)].
Proof.
  apply (currency_before_dates py_float iso_datetime sum_left free_profit
           [VStr (pystr "Toys")] [VStr (pystr "$100")] [VStr (pystr "free")]
           [VStr (pystr "not-a-date")] 0);
    [reflexivity | reflexivity | reflexivity | reflexivity | | reflexivity].
  right. vm_compute. reflexivity.
Defined.

Lemma orders_rectangular : rectangular orders.
Proof. repeat constructor. Qed.




Example undated_run :
  run py_float iso_datetime sum_left undated = [st_error TypeError].
Proof. vm_compute. reflexivity. Qed.

(** The same on an upload that has the header only. *)
Example header_only_run :
  run py_float iso_datetime sum_left header_only = [st_error TypeError].
Proof. vm_compute. reflexivity. Qed.

(** Quantities past 64 bits add up exactly, and quantities that are text
    fail where the total is formatted. *)
Example series_sum_cases :
  series_sum sum_left [VInt (2 ^ 64); VInt 1] = Ok (VInt (2 ^ 64 + 1)) /\
  series_sum sum_left [VInt (2 ^ 62); VInt (2 ^ 62)] = Ok (VInt (- 2 ^ 63)) /\
  (total <- series_sum sum_left [VStr (pystr "2"); VStr (pystr "3")] ;;
   format_thousands total) = Raise FormatError.
Proof. repeat split; vm_compute; reflexivity. Qed.

(** [float] keeps the sign and reads the decimal digits of any script. *)
Example py_float_signs :
  py_float (pystr "-5") = Some (-5)%float /\
  py_float (pystr "-5e2") = Some (-500)%float /\
  py_float (pystr "-1e309") = Some neg_infinity /\
  py_float [1633; 1634; 46; 1637]%N = Some 12.5%float.
Proof. repeat split; vm_compute; reflexivity. Qed.

Lemma normalize_idempotent_witness :
  normalize py_float iso_datetime orders = Ok orders_normalized /\
  normalize py_float iso_datetime orders_normalized = Ok orders_normalized.
Proof.
  split; [vm_compute; reflexivity|].
  apply (normalize_idempotent py_float iso_datetime orders orders_normalized
           [VFloat 1200.5%float; VFloat 80%float]).
  - vm_compute. reflexivity.
  - vm_compute. reflexivity.
  - repeat constructor.
Defined.

(** C7, as stated, fails: the amount "$nan" is read as NaN by the first
    pass and filled with 0 by the second. *)
Lemma normalize_not_idempotent :
  ~ (forall df out,
        normalize py_float iso_datetime df = Ok out ->
        normalize py_float iso_datetime out = Ok out).
Proof.
  intros H.
  assert (E : normalize py_float iso_datetime nan_sales = Ok nan_sales_normalized)
    by (vm_compute; reflexivity).
  apply H in E. vm_compute in E. discriminate E.
Qed.

Lemma run_reports_witness :
  exists out d q0,
    cleaning_pipeline py_float iso_datetime orders = Ok out /\
    2%nat = len out /\
    tail orders_enriched = tail out /\
    to_records export_columns out = Ok orders_records /\
    length orders_records = 2%nat /\
    getitem (strip_columns orders) Order_Date = Ok d /\
    getitem (strip_columns orders) Quantity = Ok q0 /\
    let retained := List.map notna (to_datetime iso_datetime d) in
    index out = select retained (index orders) /\
    getitem out Quantity = Ok (select retained q0) /\
    series_sum sum_left (select retained q0) = Ok (VInt 5).
Proof.
  apply (run_reports py_float iso_datetime sum_left orders
           2%nat (tail orders_enriched) (VInt 5) orders_records).
  vm_compute. reflexivity.
Defined.

(** C8, as stated, fails: a table and the same table with one more row,
    whose date does not parse, end with the very same widgets, so nothing
    the run shows tells how many rows came in or were dropped. *)
Lemma run_hides_input_count :
  ~ (exists total_rows : list widget -> nat,
        forall df n w i data,
          run py_float iso_datetime sum_left df
          = [st_success n; st_write w; st_download_button i data] ->
          total_rows (run py_float iso_datetime sum_left df) = len df).
Proof.
  intros [total_rows H].
  assert (Ea : run py_float iso_datetime sum_left orders
               = [st_success 2; st_write (tail orders_enriched);
                  st_download_button (VInt 5) orders_records])
    by (vm_compute; reflexivity).
  assert (Eb : run py_float iso_datetime sum_left orders_dated
               = [st_success 2; st_write (tail orders_enriched);
                  st_download_button (VInt 5) orders_records])
    by (vm_compute; reflexivity).
  pose proof (H _ _ _ _ _ Ea) as Ha. pose proof (H _ _ _ _ _ Eb) as Hb.
  rewrite Ea in Ha. rewrite Eb in Hb. rewrite Ha in Hb.
  discriminate Hb.
Qed.


(** The second order of [orders] has no profit: it is in the enriched
    frame, label 1, with NaN for both profits. *)
Example orders_missing_profit :
  exists pu pi,
    getitem orders_enriched Profit_USD = Ok pu /\
    getitem orders_enriched Profit_INR = Ok pi /\
    In (1, (VFloat nan, VFloat nan))
       (combine (index orders_enriched) (combine pu pi)).
Proof.
  eexists. eexists. split; [vm_compute; reflexivity|].
  split; [vm_compute; reflexivity|]. right. left. reflexivity.
Qed.

(** ** Instances of the further properties *)

Lemma clean_currency_ignores_padding_witness :
  clean_currency py_float
    (VStr (pystr " $" ++ pystr "1,200.50" ++ pystr " ,"))
  = clean_currency py_float (VStr (pystr "1,200.50")).
Proof.
  apply (clean_currency_ignores_padding py_float); reflexivity.
Defined.

Lemma clean_currency_rejects_blank_witness :
  clean_currency py_float (VStr (pystr " $ , ")) = Raise (ValueError []).
Proof.
  apply (clean_currency_rejects_blank py_float); reflexivity.
Defined.

Lemma missing_column_reported_witness :
  run py_float iso_datetime sum_left sales_only
  = [st_error (KeyError [Profit])].
Proof.
  apply (missing_column_reported py_float iso_datetime sum_left sales_only
           Profit).
  - reflexivity.
  - intros _. repeat constructor. vm_compute. discriminate.
  - intros H. vm_compute in H. discriminate H.
Defined.

Lemma rate_and_month_follow_date_witness :
  exists ts,
    getitem orders_enriched Order_Date = Ok (List.map VTimestamp ts) /\
    getitem orders_enriched IBR_Rate = Ok (List.map rate_of ts) /\
    getitem orders_enriched YearMonth = Ok (List.map month_key ts).
Proof.
  apply (rate_and_month_follow_date py_float iso_datetime orders).
  vm_compute. reflexivity.
Defined.

Lemma dual_currency_columns_witness :
  exists su pu r,
    getitem orders_enriched Sales_Per = Ok su /\
    getitem orders_enriched Sales_USD = Ok su /\
    getitem orders_enriched Profit = Ok pu /\
    getitem orders_enriched Profit_USD = Ok pu /\
    getitem orders_enriched IBR_Rate = Ok r /\
    getitem orders_enriched Sales_INR
    = Ok (List.map product (combine su r)) /\
    getitem orders_enriched Profit_INR
    = Ok (List.map product (combine pu r)).
Proof.
  apply (dual_currency_columns py_float iso_datetime orders).
  vm_compute. reflexivity.
Defined.

Lemma category_never_missing_witness :
  exists c,
    getitem (strip_columns orders) Category = Ok c /\
    Forall (fun v => isna v = false /\
                     (In v c \/ v = VStr (pystr "Uncategorized")))
      [VStr (pystr "Furniture"); VStr (pystr "Uncategorized")].
Proof.
  apply (category_never_missing py_float iso_datetime orders orders_enriched);
    vm_compute; reflexivity.
Defined.

Lemma untouched_columns_kept_witness :
  exists d,
    getitem (strip_columns orders) Order_Date = Ok d /\
    getitem orders_enriched Quantity
    = (col <- getitem (strip_columns orders) Quantity ;;
       Ok (select (List.map notna (to_datetime iso_datetime d)) col)).
Proof.
  apply (untouched_columns_kept py_float iso_datetime orders);
    vm_compute; reflexivity.
Defined.

Lemma pipeline_keeps_rectangular_witness :
  rectangular orders_enriched /\
  forallb (has_column orders_enriched) (required_columns ++ derived_columns)
  = true.
Proof.
  apply (pipeline_keeps_rectangular py_float iso_datetime orders).
  - exact orders_rectangular.
  - vm_compute. reflexivity.
Defined.

Lemma tail_last_rows_witness :
  rectangular (tail orders) /\
  len (tail orders) = Nat.min 5 (len orders) /\
  ((len orders <= 5)%nat -> tail orders = orders) /\
  index orders = firstn (len orders - 5) (index orders) ++ index (tail orders).
Proof.
  apply (tail_last_rows orders). exact orders_rectangular.
Defined.

Lemma export_needs_columns_witness :
  run py_float iso_datetime sum_left scenario
  = [st_success (len scenario_enriched); st_write (tail scenario_enriched);
     st_error (KeyError [Segment; State; Customer_ID])].
Proof.
  apply (export_needs_columns py_float iso_datetime sum_left scenario
           scenario_enriched).
  - vm_compute. reflexivity.
  - vm_compute. discriminate.
Defined.

Lemma rate_within_bounds_witness :
  exists f, VFloat 83.4 = VFloat f /\
            (74.1 <=? f)%float = true /\ (f <=? 84.5)%float = true.
Proof.
  apply (rate_within_bounds
           (VTimestamp {| year := 2024; month := 2; day := 29 |})).
  reflexivity.
Defined.

Lemma rupee_nan_iff_dollar_nan_witness :
  Forall (fun t => is_nan (number (snd t)) = is_nan (number (fst t)))
    (combine [VFloat 1200.5; VFloat 80]
       [VFloat (1200.5 * 82.5); VFloat (80 * 83.4)]) /\
  Forall (fun t => is_nan (number (snd t)) = is_nan (number (fst t)))
    (combine [VFloat 20; VFloat nan] [VFloat (20 * 82.5); VFloat nan]).
Proof.
  apply (rupee_nan_iff_dollar_nan py_float iso_datetime orders orders_enriched);
    vm_compute; reflexivity.
Defined.

Lemma sales_are_numbers_witness :
  forallb is_number [VFloat 1200.5; VFloat 80] = true.
Proof.
  apply (sales_are_numbers py_float iso_datetime orders orders_enriched).
  - exact orders_rectangular.
  - vm_compute. reflexivity.
  - vm_compute. reflexivity.
Defined.

Lemma unsold_rectangular : rectangular unsold.
Proof. repeat constructor. Qed.

Lemma missing_sales_is_zero_witness :
  In (7, (VInt 0, VFloat 0))
    (combine (index unsold_enriched)
       (combine [VInt 0; VFloat 5] [VFloat 0; VFloat (5 * 78.6)])).
Proof.
  apply (missing_sales_is_zero py_float iso_datetime unsold unsold_enriched
           [VNone; VStr (pystr "5")]
           [VStr (pystr "2022-03-01"); VStr (pystr "2022-03-02")]
           [VInt 0; VFloat 5] [VFloat 0; VFloat (5 * 78.6)] 0).
  - exact unsold_rectangular.
  - vm_compute. reflexivity.
  - reflexivity.
  - reflexivity.
  - vm_compute. reflexivity.
  - vm_compute. reflexivity.
  - vm_compute. lia.
  - reflexivity.
  - vm_compute. discriminate.
Defined.

Lemma run_offers_dashboard_witness :
  exists out items data,
    cleaning_pipeline py_float iso_datetime orders = Ok out /\
    run py_float iso_datetime sum_left orders
    = [st_success (len out); st_write (tail out);
       st_download_button items data] /\
    length data = len out.
Proof.
  apply (run_offers_dashboard py_float iso_datetime sum_left orders).
  - exact orders_rectangular.
  - vm_compute. reflexivity.
  - left. vm_compute. discriminate.
  - repeat constructor; vm_compute; discriminate.
  - repeat constructor; vm_compute; discriminate.
  - vm_compute. reflexivity.
  - vm_compute. reflexivity.
Defined.

Lemma year_month_order_witness :
  (year_month {| year := 2023; month := 12; day := 31 |}
   = year_month {| year := 2024; month := 1; day := 1 |} <->
   2023 = 2024 /\ 12 = 1) /\
  str_ltb (year_month {| year := 2023; month := 12; day := 31 |})
    (year_month {| year := 2024; month := 1; day := 1 |})
  = true.
Proof.
  apply (year_month_order {| year := 2023; month := 12; day := 31 |}
           {| year := 2024; month := 1; day := 1 |}); simpl; lia.
Defined.

Lemma first_unreadable_amount_reported_witness :
  run py_float iso_datetime sum_left unreadable
  = [st_error (ValueError (pystr "abc"))].
Proof.
  apply (first_unreadable_amount_reported py_float iso_datetime sum_left
           unreadable
           [VStr (pystr "Toys"); VStr (pystr "Toys")]
           [VStr (pystr "7"); VStr (pystr "$abc")]
           [VStr (pystr "n/a"); VStr (pystr "3")]
           [VStr (pystr "7")] (pystr "$abc")
           [VStr (pystr "n/a"); VStr (pystr "3")]).
  - reflexivity.
  - reflexivity.
  - reflexivity.
  - reflexivity.
  - repeat constructor. vm_compute. discriminate.
  - vm_compute. reflexivity.
Defined.

Lemma profit_round_trip_witness :
  enrich orders_normalized = Ok orders_enriched /\
  round_trip (VFloat 20) (VFloat (20 * 82.5)) (VFloat 82.5) = true.
Proof.
  split; [reflexivity|].
  exact (Forall_inv
           (profit_round_trip orders_normalized orders_enriched
              _ _ _ eq_refl eq_refl eq_refl eq_refl)
           eq_refl eq_refl).
Defined.

Lemma exported_records_consistent_witness :
  Forall (fun rec =>
            List.map fst rec = export_columns /\
            exists su pu r,
              record_get Sales_USD rec = Some su /\
              record_get Profit_USD rec = Some pu /\
              record_get IBR_Rate rec = Some r /\
              record_get Sales_INR rec = Some (product (su, r)) /\
              record_get Profit_INR rec = Some (product (pu, r)))
    orders_records.
Proof.
  apply (exported_records_consistent py_float iso_datetime sum_left orders
           2%nat (tail orders_enriched) (VInt 5)).
  - exact orders_rectangular.
  - vm_compute. reflexivity.
Defined.

Lemma date_as_amount_is_type_error_witness :
  run py_float iso_datetime sum_left dated_amount = [st_error TypeError].
Proof.
  apply (date_as_amount_is_type_error py_float iso_datetime sum_left
           dated_amount
           [VStr (pystr "Toys")]
           [VTimestamp {| year := 2022; month := 3; day := 1 |}]
           [VInt 1] [VStr (pystr "2022-03-01")] 0
           {| year := 2022; month := 3; day := 1 |}).
  - repeat constructor.
  - reflexivity.
  - reflexivity.
  - reflexivity.
  - reflexivity.
  - repeat constructor; simpl; tauto.
  - repeat constructor; simpl; tauto.
  - vm_compute. lia.
  - vm_compute. discriminate.
  - left. reflexivity.
Defined.

Lemma date_in_export_is_type_error_witness :
  run py_float iso_datetime sum_left dated_state
  = [st_success (len dated_state_enriched);
     st_write (tail dated_state_enriched); st_error TypeError].
Proof.
  apply (date_in_export_is_type_error py_float iso_datetime sum_left
           dated_state dated_state_enriched [VInt 2] State
           [VTimestamp {| year := 2023; month := 6; day := 15 |}] 0).
  - vm_compute. reflexivity.
  - vm_compute. reflexivity.
  - vm_compute. reflexivity.
  - reflexivity.
  - right. right. right. left. reflexivity.
  - vm_compute. reflexivity.
  - vm_compute. lia.
  - reflexivity.
Defined.
